(** * auth-svc: profile identity and engagement state

    A shallow embedding of the multi-profile backend:
    - the engagement methods of [questionSchema] / [postSchema]
      (models/question.model.js, models/post.model.js) and the question
      service built on them (services/question.service.js);
    - the profile model with its two [pre('save')] hooks
      (models/profile.model.js) and the profile service
      (services/profile.service.js), plus the [getDefaultProfile] controller;
    - the account bootstrap in [createUser] (services/user.service.js).

    Conventions.  A Mongo [ObjectId] is a number; a JS array is a [list]
    ([push] appends, [splice(i, 1)] is stdpp's [delete i]); JS counters are
    integers in [Z]; a collection is either a [gmap] keyed by [_id] (content
    items, only ever accessed by id) or a [list] in natural order (profiles,
    where [findOne] returns the first match).  An [async] function that can
    throw is a function from the store to a result-or-error paired with the
    store it leaves behind: writes made before a [throw] stay written. *)

From Stdlib Require Import ZArith QArith Qround Qabs Lqa Ascii String.
From stdpp Require Import base decidable option list sorting gmap strings pretty.

#[local] Open Scope Z_scope.
#[local] Set Warnings "-clear-no-such-hyp".

(** An [ObjectId] is an opaque identifier compared by value. *)
Abbreviation ObjectId := N (only parsing).

(** ** Errors *)

Definition BAD_REQUEST : N := 400%N.
Definition NOT_FOUND : N := 404%N.

(** What a service call can throw: the repository's [ApiError(status, message)],
    a Mongoose validation error, a plain [Error] raised by a hook, and the
    driver's duplicate-key error on [_id]. *)
Inductive Error :=
  | ApiError (statusCode : N) (message : string)
  | ValidationError (message : string)
  | PlainError (message : string)
  | DuplicateKeyError.

#[global] Instance Error_eq_dec : EqDecision Error.
Proof. solve_decision. Defined.

(** ** Asynchronous calls against a store

    [Async S A] is an [async] function body run against a store of type [S]:
    it resolves to a value or rejects with an error, and in both cases leaves
    a store behind. *)

Definition Async (S A : Type) : Type := S → (Error + A) * S.

Definition ret {S A} (a : A) : Async S A := λ s, (inr a, s).

Definition throw {S A} (e : Error) : Async S A := λ s, (inl e, s).

Definition bind {S A B} (m : Async S A) (k : A → Async S B) : Async S B :=
  λ s, match m s with
       | (inl e, s') => (inl e, s')
       | (inr a, s') => k a s'
       end.

(** [try { m } catch (error) { h error }]. *)
Definition tryCatch {S A} (m : Async S A) (h : Error → Async S A) : Async S A :=
  λ s, match m s with
       | (inl e, s') => h e s'
       | (inr a, s') => (inr a, s')
       end.

Notation "'await' x := m 'in' k" := (bind m (λ x, k))
  (at level 10, x name, m at level 200, k at level 200, only parsing).

(** ** What the runtime provides

    The schema setters [trim] and [lowercase] call [String.prototype.trim]
    and [String.prototype.toLowerCase].  Both are taken as given; of [trim]
    it is used that a text which begins and ends with a printable ASCII
    character other than the space has no white space to lose. *)

Definition visible (c : ascii) : bool :=
  let n := N_of_ascii c in (33 <=? n)%N && (n <=? 126)%N.

Fixpoint endsVisible (s : string) : bool :=
  match s with
  | EmptyString => false
  | String c EmptyString => visible c
  | String _ rest => endsVisible rest
  end.

(** Empty, or beginning and ending with a visible character. *)
Definition trimmed (s : string) : bool :=
  match s with
  | EmptyString => true
  | String c _ => visible c && endsVisible s
  end.

Class StringOps := {
  trim : string → string;
  toLowerCase : string → string;
  trim_trimmed : ∀ s, trimmed s = true → trim s = s;
}.

(** Arithmetic on Numbers.  [a * b] and [a + b] are the exact results
    rounded to the nearest double; [round] is that rounding where no
    overflow occurs and [representable] says which rationals are doubles.
    What is used of them: rounding goes to a nearest double, the multiples
    of 2^-33 with a numerator up to 2^53 are doubles, and no double lies
    between 1 - 2^-53 and 1. *)

(** 2^-33, the spacing of the doubles from 2^19 to 2^20; 2^53 and 2^-53. *)
Definition ulp20 : Q := Eval cbv in (1 # 2 ^ 33)%Q.
Definition two53 : Q := Eval cbv in inject_Z (2 ^ 53).
Definition eps53 : Q := Eval cbv in (1 # 2 ^ 53)%Q.

Class Doubles := {
  round : Q → Q;
  representable : Q → Prop;
  round_nearest : ∀ x b,
    (Qabs x <= two53)%Q → representable b →
    (Qabs (round x - x) <= Qabs (b - x))%Q;
  representable_grid : ∀ k : Z,
    (Qabs (inject_Z k) <= two53)%Q → representable (inject_Z k * ulp20);
  below_one : ∀ r,
    representable r → (r < 1)%Q → (r <= 1 - eps53)%Q;
}.

(** ** Engagement state machine (question.model.js / post.model.js) *)

Module Engagement.

(** The fields of [questionSchema] that only questions have. *)
Record QuestionExtra := {
  answerCount : Z;
  isAnswered : bool;
  acceptedAnswerId : option ObjectId;
}.

(** A content document.  [postSchema] and [questionSchema] declare the same
    fields and the same seven methods, word for word; [extra] carries what the
    question schema adds ([QuestionExtra]) and is [unit] for a post. *)
Record Content (X : Type) := mkContent {
  _id : ObjectId;
  profileId : ObjectId;
  categoryId : ObjectId;
  title : string;
  content : string;
  tags : list string;
  likeCount : Z;
  unlikeCount : Z;
  saveCount : Z;
  shareCount : Z;
  likedBy : list ObjectId;
  dislikedBy : list ObjectId;
  savedBy : list ObjectId;
  sharedBy : list ObjectId;
  isActive : bool;
  extra : X;
}.

Arguments mkContent {X}.
Arguments _id {X}.
Arguments profileId {X}.
Arguments categoryId {X}.
Arguments title {X}.
Arguments content {X}.
Arguments tags {X}.
Arguments likeCount {X}.
Arguments unlikeCount {X}.
Arguments saveCount {X}.
Arguments shareCount {X}.
Arguments likedBy {X}.
Arguments dislikedBy {X}.
Arguments savedBy {X}.
Arguments sharedBy {X}.
Arguments isActive {X}.
Arguments extra {X}.

Definition Question := Content QuestionExtra.
Definition Post := Content unit.

Section Methods.
Context {X : Type}.
Implicit Types (q : Content X) (profileId : ObjectId).

(** Field assignment, [this.f = v]. *)
Definition set_likeCount (v : Z) q : Content X :=
  mkContent (_id q) (Engagement.profileId q) (categoryId q) (title q) (content q)
    (tags q) v (unlikeCount q) (saveCount q) (shareCount q)
    (likedBy q) (dislikedBy q) (savedBy q) (sharedBy q) (isActive q) (extra q).
Definition set_unlikeCount (v : Z) q : Content X :=
  mkContent (_id q) (Engagement.profileId q) (categoryId q) (title q) (content q)
    (tags q) (likeCount q) v (saveCount q) (shareCount q)
    (likedBy q) (dislikedBy q) (savedBy q) (sharedBy q) (isActive q) (extra q).
Definition set_saveCount (v : Z) q : Content X :=
  mkContent (_id q) (Engagement.profileId q) (categoryId q) (title q) (content q)
    (tags q) (likeCount q) (unlikeCount q) v (shareCount q)
    (likedBy q) (dislikedBy q) (savedBy q) (sharedBy q) (isActive q) (extra q).
Definition set_shareCount (v : Z) q : Content X :=
  mkContent (_id q) (Engagement.profileId q) (categoryId q) (title q) (content q)
    (tags q) (likeCount q) (unlikeCount q) (saveCount q) v
    (likedBy q) (dislikedBy q) (savedBy q) (sharedBy q) (isActive q) (extra q).
Definition set_likedBy (v : list ObjectId) q : Content X :=
  mkContent (_id q) (Engagement.profileId q) (categoryId q) (title q) (content q)
    (tags q) (likeCount q) (unlikeCount q) (saveCount q) (shareCount q)
    v (dislikedBy q) (savedBy q) (sharedBy q) (isActive q) (extra q).
Definition set_dislikedBy (v : list ObjectId) q : Content X :=
  mkContent (_id q) (Engagement.profileId q) (categoryId q) (title q) (content q)
    (tags q) (likeCount q) (unlikeCount q) (saveCount q) (shareCount q)
    (likedBy q) v (savedBy q) (sharedBy q) (isActive q) (extra q).
Definition set_savedBy (v : list ObjectId) q : Content X :=
  mkContent (_id q) (Engagement.profileId q) (categoryId q) (title q) (content q)
    (tags q) (likeCount q) (unlikeCount q) (saveCount q) (shareCount q)
    (likedBy q) (dislikedBy q) v (sharedBy q) (isActive q) (extra q).
Definition set_sharedBy (v : list ObjectId) q : Content X :=
  mkContent (_id q) (Engagement.profileId q) (categoryId q) (title q) (content q)
    (tags q) (likeCount q) (unlikeCount q) (saveCount q) (shareCount q)
    (likedBy q) (dislikedBy q) (savedBy q) v (isActive q) (extra q).

(** [Array.prototype.includes]. *)
Definition includes (l : list ObjectId) (x : ObjectId) : bool :=
  bool_decide (x ∈ l).

(** [Array.prototype.indexOf]: position of the first occurrence, [-1] when
    there is none. *)
Fixpoint indexOf (l : list ObjectId) (x : ObjectId) : Z :=
  match l with
  | [] => -1
  | y :: l' =>
      if decide (y = x) then 0
      else let i := indexOf l' x in if decide (i = -1) then -1 else 1 + i
  end.

(** [Array.prototype.push]. *)
Definition push (l : list ObjectId) (x : ObjectId) : list ObjectId := l ++ [x].

(** [l.splice(index, 1)] for an index that [indexOf] returned. *)
Definition splice1 (l : list ObjectId) (index : Z) : list ObjectId :=
  delete (Z.to_nat index) l.

(** The seven methods mutate [this] and end in [return this.save()]; here
    each is the mutation, and the service below does the [save]. *)

Definition addLike q profileId : Content X :=
  if negb (includes (likedBy q) profileId) then
    let q := set_likedBy (push (likedBy q) profileId) q in
    let q := set_likeCount (likeCount q + 1) q in
    (* Remove from disliked if exists *)
    let dislikeIndex := indexOf (dislikedBy q) profileId in
    if negb (bool_decide (dislikeIndex = -1)) then
      let q := set_dislikedBy (splice1 (dislikedBy q) dislikeIndex) q in
      set_unlikeCount (unlikeCount q - 1) q
    else q
  else q.

Definition removeLike q profileId : Content X :=
  let index := indexOf (likedBy q) profileId in
  if negb (bool_decide (index = -1)) then
    let q := set_likedBy (splice1 (likedBy q) index) q in
    set_likeCount (likeCount q - 1) q
  else q.

Definition addDislike q profileId : Content X :=
  if negb (includes (dislikedBy q) profileId) then
    let q := set_dislikedBy (push (dislikedBy q) profileId) q in
    let q := set_unlikeCount (unlikeCount q + 1) q in
    (* Remove from liked if exists *)
    let likeIndex := indexOf (likedBy q) profileId in
    if negb (bool_decide (likeIndex = -1)) then
      let q := set_likedBy (splice1 (likedBy q) likeIndex) q in
      set_likeCount (likeCount q - 1) q
    else q
  else q.

Definition removeDislike q profileId : Content X :=
  let index := indexOf (dislikedBy q) profileId in
  if negb (bool_decide (index = -1)) then
    let q := set_dislikedBy (splice1 (dislikedBy q) index) q in
    set_unlikeCount (unlikeCount q - 1) q
  else q.

Definition addSave q profileId : Content X :=
  if negb (includes (savedBy q) profileId) then
    let q := set_savedBy (push (savedBy q) profileId) q in
    set_saveCount (saveCount q + 1) q
  else q.

Definition removeSave q profileId : Content X :=
  let index := indexOf (savedBy q) profileId in
  if negb (bool_decide (index = -1)) then
    let q := set_savedBy (splice1 (savedBy q) index) q in
    set_saveCount (saveCount q - 1) q
  else q.

Definition addShare q profileId : Content X :=
  if negb (includes (sharedBy q) profileId) then
    let q := set_sharedBy (push (sharedBy q) profileId) q in
    set_shareCount (shareCount q + 1) q
  else q.

(** The virtual [engagementScore]. *)
Definition engagementScore q : Z := likeCount q + saveCount q + shareCount q.

(** A call of one of the seven methods, and a run of calls on one document. *)
Inductive Op :=
  | AddLike (p : ObjectId) | RemoveLike (p : ObjectId)
  | AddDislike (p : ObjectId) | RemoveDislike (p : ObjectId)
  | AddSave (p : ObjectId) | RemoveSave (p : ObjectId)
  | AddShare (p : ObjectId).

Definition call (q : Content X) (o : Op) : Content X :=
  match o with
  | AddLike p => addLike q p
  | RemoveLike p => removeLike q p
  | AddDislike p => addDislike q p
  | RemoveDislike p => removeDislike q p
  | AddSave p => addSave q p
  | RemoveSave p => removeSave q p
  | AddShare p => addShare q p
  end.

Definition run (q : Content X) (ops : list Op) : Content X := foldl call q ops.

(** The engagement part of a document: the four membership arrays and the
    four counters. *)
Definition engagementState q :=
  (likedBy q, dislikedBy q, savedBy q, sharedBy q,
   (likeCount q, unlikeCount q, saveCount q, shareCount q)).

(** Every membership array is a set: no profile occurs twice in it. *)
Definition duplicateFree q : Prop :=
  NoDup (likedBy q) ∧ NoDup (dislikedBy q) ∧ NoDup (savedBy q) ∧ NoDup (sharedBy q).

(** No profile is in both [likedBy] and [dislikedBy]. *)
Definition exclusive q : Prop :=
  ∀ p : ObjectId, ¬ (p ∈ likedBy q ∧ p ∈ dislikedBy q).

(** Each counter is the size of its membership array. *)
Definition countersMatch q : Prop :=
  likeCount q = Z.of_nat (length (likedBy q)) ∧
  unlikeCount q = Z.of_nat (length (dislikedBy q)) ∧
  saveCount q = Z.of_nat (length (savedBy q)) ∧
  shareCount q = Z.of_nat (length (sharedBy q)).

(** The data-model invariant of a content item: membership sets without
    repetition, like/dislike exclusive, counters equal to cardinalities. *)
Definition engagementInvariant q : Prop :=
  duplicateFree q ∧ exclusive q ∧ countersMatch q.

End Methods.

End Engagement.

(** ** Question service (services/question.service.js) *)

Module QuestionService.
Import Engagement.

(** The [questions] collection, keyed by [_id]. *)
Abbreviation Store := (gmap ObjectId Question).

(** Every document is stored under its own [_id]. *)
Definition wfStore (s : Store) : Prop :=
  ∀ id q, s !! id = Some q → _id q = id.

(** [Question.findById(id).populate('profileId categoryId')].  [populate]
    swaps the two references for the documents they point to; the engagement
    methods never read them, and the model keeps the ids. *)
Definition getQuestionById (id : ObjectId) : Async Store (option Question) :=
  λ s, (inr (s !! id), s).

(** [question.save()]: write the document back under its [_id].  Writing
    back a document that was just loaded is taken to succeed. *)
Definition save (q : Question) : Async Store Question :=
  λ s, (inr q, <[_id q := q]> s).

Definition likeQuestion (questionId profileId : ObjectId) : Async Store Question :=
  await question := getQuestionById questionId in
  match question with
  | None => throw (ApiError NOT_FOUND "Question not found")
  | Some question => save (addLike question profileId)
  end.

Definition unlikeQuestion (questionId profileId : ObjectId) : Async Store Question :=
  await question := getQuestionById questionId in
  match question with
  | None => throw (ApiError NOT_FOUND "Question not found")
  | Some question => save (removeLike question profileId)
  end.

Definition dislikeQuestion (questionId profileId : ObjectId) : Async Store Question :=
  await question := getQuestionById questionId in
  match question with
  | None => throw (ApiError NOT_FOUND "Question not found")
  | Some question => save (addDislike question profileId)
  end.

Definition removeDislikeQuestion (questionId profileId : ObjectId) : Async Store Question :=
  await question := getQuestionById questionId in
  match question with
  | None => throw (ApiError NOT_FOUND "Question not found")
  | Some question => save (removeDislike question profileId)
  end.

Definition saveQuestion (questionId profileId : ObjectId) : Async Store Question :=
  await question := getQuestionById questionId in
  match question with
  | None => throw (ApiError NOT_FOUND "Question not found")
  | Some question => save (addSave question profileId)
  end.

Definition unsaveQuestion (questionId profileId : ObjectId) : Async Store Question :=
  await question := getQuestionById questionId in
  match question with
  | None => throw (ApiError NOT_FOUND "Question not found")
  | Some question => save (removeSave question profileId)
  end.

Definition shareQuestion (questionId profileId : ObjectId) : Async Store Question :=
  await question := getQuestionById questionId in
  match question with
  | None => throw (ApiError NOT_FOUND "Question not found")
  | Some question => save (addShare question profileId)
  end.

(** The seven engagement entry points of the service, by name. *)
Inductive Reaction :=
  | LikeQuestion | UnlikeQuestion | DislikeQuestion | RemoveDislikeQuestion
  | SaveQuestion | UnsaveQuestion | ShareQuestion.

Definition perform (r : Reaction) : ObjectId → ObjectId → Async Store Question :=
  match r with
  | LikeQuestion => likeQuestion
  | UnlikeQuestion => unlikeQuestion
  | DislikeQuestion => dislikeQuestion
  | RemoveDislikeQuestion => removeDislikeQuestion
  | SaveQuestion => saveQuestion
  | UnsaveQuestion => unsaveQuestion
  | ShareQuestion => shareQuestion
  end.

(** The model method each entry point delegates to. *)
Definition method (r : Reaction) : Question → ObjectId → Question :=
  match r with
  | LikeQuestion => addLike
  | UnlikeQuestion => removeLike
  | DislikeQuestion => addDislike
  | RemoveDislikeQuestion => removeDislike
  | SaveQuestion => addSave
  | UnsaveQuestion => removeSave
  | ShareQuestion => addShare
  end.

(** The reaction is already there (for the four that add one), or there is
    nothing to take away (for the three that remove one). *)
Definition redundant (r : Reaction) (q : Question) (profileId : ObjectId) : Prop :=
  match r with
  | LikeQuestion => profileId ∈ likedBy q
  | UnlikeQuestion => profileId ∉ likedBy q
  | DislikeQuestion => profileId ∈ dislikedBy q
  | RemoveDislikeQuestion => profileId ∉ dislikedBy q
  | SaveQuestion => profileId ∈ savedBy q
  | UnsaveQuestion => profileId ∉ savedBy q
  | ShareQuestion => profileId ∈ sharedBy q
  end.

Definition adds (r : Reaction) : bool :=
  match r with
  | LikeQuestion | DislikeQuestion | SaveQuestion | ShareQuestion => true
  | UnlikeQuestion | RemoveDislikeQuestion | UnsaveQuestion => false
  end.

End QuestionService.

(** ** Profile model (models/profile.model.js, config/profileEnums.js) *)

Module ProfileModel.

Inductive ProfileType := profileTypes_PUBLIC | profileTypes_ANONYMOUS.

Inductive ProfileStatus := profileStatuses_PRIVATE | profileStatuses_PUBLIC.

(** A stored profile document.  [settings] and [metadata] are carried by the
    real document but never read or written by the code below, and are left
    out.  Strings are as the schema keeps them (after its [trim] setter);
    [None] is a path that is not set. *)
Record Profile := mkProfile {
  _id : ObjectId;
  userId : ObjectId;
  profileName : string;
  displayName : string;
  bio : option string;
  avatar : option string;
  profileType : ProfileType;
  status : ProfileStatus;
  isActive : bool;
  isDefault : bool;
}.

#[global] Instance ProfileType_eq_dec : EqDecision ProfileType.
Proof. solve_decision. Defined.

#[global] Instance ProfileStatus_eq_dec : EqDecision ProfileStatus.
Proof. solve_decision. Defined.

#[global] Instance Profile_eq_dec : EqDecision Profile.
Proof. solve_decision. Defined.

Definition set_isDefault (v : bool) (p : Profile) : Profile :=
  mkProfile (_id p) (userId p) (profileName p) (displayName p) (bio p) (avatar p)
    (profileType p) (status p) (isActive p) v.

(** The [profiles] collection in natural (insertion) order. *)
Abbreviation Store := (list Profile).

(** *** Queries and writes of the driver *)

Section Queries.
Context (P : Profile → Prop) `{!∀ p, Decision (P p)}.

(** [Profile.find(filter)]. *)
Definition find : Async Store (list Profile) :=
  λ db, (inr (filter P db), db).

(** [Profile.findOne(filter)]: the first match, or [null]. *)
Definition findOne : Async Store (option Profile) :=
  λ db, (inr (head (filter P db)), db).

(** [Profile.updateMany(filter, { $set: ... })]; no [save] hook runs. *)
Definition updateMany (set : Profile → Profile) : Async Store unit :=
  λ db, (inr tt, (λ p, if decide (P p) then set p else p) <$> db).

Fixpoint updateFirst (set : Profile → Profile) (db : Store) : Store :=
  match db with
  | [] => []
  | p :: db' => if decide (P p) then set p :: db' else p :: updateFirst set db'
  end.

(** [Profile.updateOne] / [findByIdAndUpdate]: write the first match. *)
Definition updateOne (set : Profile → Profile) : Async Store unit :=
  λ db, (inr tt, updateFirst set db).

Fixpoint deleteFirst (db : Store) : Store :=
  match db with
  | [] => []
  | p :: db' => if decide (P p) then db' else p :: deleteFirst db'
  end.

(** [Profile.deleteOne(filter)]. *)
Definition deleteOne : Async Store unit :=
  λ db, (inr tt, deleteFirst db).

End Queries.

(** Insert a new document; [_id] carries a unique index. *)
Definition insertOne (p : Profile) : Async Store unit :=
  λ db, if bool_decide (Exists (λ p', _id p' = _id p) db)
        then (inl DuplicateKeyError, db)
        else (inr tt, db ++ [p]).

(** *** Documents and [save] *)

(** A Mongoose document in memory: [this] holds the current values, [loaded]
    the values it had when it was read ([isNew] documents were never read). *)
Record Document := mkDocument {
  isNew : bool;
  loaded : Profile;
  this : Profile;
}.

(** [isModified(path)]: every path given to the constructor of a new
    document counts as modified (the user model's password hook relies on
    the same thing to hash on [User.create]); on a loaded document a path is
    modified when its value differs from the loaded one. *)
Definition isModified_isDefault (d : Document) : bool :=
  isNew d || bool_decide (isDefault (loaded d) ≠ isDefault (this d)).

Definition isModified_profileName (d : Document) : bool :=
  isNew d || bool_decide (profileName (loaded d) ≠ profileName (this d)).

Section Schema.
(** [validator.isURL], from the [validator] package. *)
Variable isURL : string → bool.

(** Schema validation, which [save] runs before the [pre('save')] hooks:
    [required] on the two names, the custom length check on [profileName],
    [maxlength] on [bio] and the URL check on [avatar]. *)
Definition validateProfile (p : Profile) : option string :=
  if bool_decide (profileName p = "") then Some "Path profileName is required."
  else if Nat.ltb (String.length (profileName p)) 2
       then Some "Profile name must be at least 2 characters long"
  else if bool_decide (displayName p = "") then Some "Path displayName is required."
  else if match bio p with
          | Some b => Nat.ltb 500 (String.length b)
          | None => false
          end
       then Some "Path bio is longer than the maximum allowed length (500)."
  else if match avatar p with
          | Some v => negb (bool_decide (v = "")) && negb (isURL v)
          | None => false
          end
       then Some "Avatar must be a valid URL"
  else None.

(** Pre-save middleware to ensure only one default profile per user. *)
Definition preSave_default (d : Document) : Async Store unit :=
  let profile := this d in
  if isModified_isDefault d && isDefault profile then
    (* If setting this profile as default, unset all other profiles for this user *)
    updateMany (λ p, userId p = userId profile ∧ _id p ≠ _id profile)
      (set_isDefault false)
  else ret tt.

(** Pre-save middleware to ensure profile name is unique per user.  The
    name in the filter is the document's own, which the setter trimmed when
    it was assigned. *)
Definition preSave_profileName (d : Document) : Async Store unit :=
  let profile := this d in
  if isModified_profileName d then
    await existingProfile :=
      findOne (λ p, profileName p = profileName profile ∧
                    userId p = userId profile ∧ _id p ≠ _id profile) in
    match existingProfile with
    | Some _ => throw (PlainError "Profile name already exists for this user")
    | None => ret tt
    end
  else ret tt.

(** [document.save()]: validate, run the two hooks in the order they were
    registered, then insert (new document) or write back (loaded one; only
    the modified paths are sent, which between one load and its save is the
    same as writing the document).  The unique index on
    [(userId, profileName)] cannot fire after the second hook has passed,
    since it tests the same thing, and is not repeated here. *)
Definition save (d : Document) : Async Store Profile :=
  match validateProfile (this d) with
  | Some message => throw (ValidationError message)
  | None =>
      await hook1 := preSave_default d in
      await hook2 := preSave_profileName d in
      await written :=
        (if isNew d then insertOne (this d)
         else updateOne (λ p, _id p = _id (this d)) (λ _, this d)) in
      ret (this d)
  end.

End Schema.

End ProfileModel.

(** ** Profile service (services/profile.service.js) *)

Module ProfileService.
Import ProfileModel.

(** The body of a create request. *)
Record ProfileBody := mkProfileBody {
  b_userId : ObjectId;
  b_profileName : string;
  b_displayName : string;
  b_bio : option string;
  b_avatar : option string;
  b_profileType : option ProfileType;
  b_status : option ProfileStatus;
  b_isActive : option bool;
  b_isDefault : option bool;
}.

(** The body of an update request: the keys the update validation admits. *)
Record UpdateBody := mkUpdateBody {
  u_profileName : option string;
  u_displayName : option string;
  u_bio : option string;
  u_avatar : option string;
  u_profileType : option ProfileType;
  u_status : option ProfileStatus;
  u_isActive : option bool;
  u_isDefault : option bool;
}.

(** [new Profile({ ...profileBody, isDefault })] with a fresh [_id]: the
    [trim] setters of the four string paths run on what the body gives, and
    the schema defaults fill the paths the body leaves out. *)
Definition construct `{!StringOps} (oid : ObjectId) (body : ProfileBody)
    (isDefault : bool) : Profile :=
  mkProfile oid (b_userId body) (trim (b_profileName body)) (trim (b_displayName body))
    (trim <$> b_bio body) (trim <$> b_avatar body)
    (default profileTypes_PUBLIC (b_profileType body))
    (default profileStatuses_PUBLIC (b_status body))
    (default true (b_isActive body))
    isDefault.

(** [Object.assign(profile, updateBody)]: each key of the body is assigned
    to the document, which runs the path's [trim] setter. *)
Definition Object_assign `{!StringOps} (profile : Profile) (updateBody : UpdateBody)
  : Profile :=
  mkProfile (_id profile) (userId profile)
    (default (profileName profile) (trim <$> u_profileName updateBody))
    (default (displayName profile) (trim <$> u_displayName updateBody))
    (match u_bio updateBody with Some b => Some (trim b) | None => bio profile end)
    (match u_avatar updateBody with Some a => Some (trim a) | None => avatar profile end)
    (default (profileType profile) (u_profileType updateBody))
    (default (status profile) (u_status updateBody))
    (default (isActive profile) (u_isActive updateBody))
    (default (isDefault profile) (u_isDefault updateBody)).

Section Service.
Context {stringOps : StringOps}.
Variable isURL : string → bool.

(** [Profile.create(doc)] is [new Profile(doc).save()]. *)
Definition Profile_create (oid : ObjectId) (body : ProfileBody) (isDefault : bool)
  : Async Store Profile :=
  let profile := construct oid body isDefault in
  save isURL (mkDocument true profile profile).

(** Whether the profile name is taken for a user.  The filter is cast to
    the schema, which runs the [trim] setter on the name.  Without an id to
    exclude the filter [_id: { $ne: undefined }] excludes nothing. *)
Definition isProfileNameTaken (profileName : string) (userId : ObjectId)
    (excludeProfileId : option ObjectId) : Async Store bool :=
  await profile :=
    findOne (λ p, ProfileModel.profileName p = trim profileName ∧
                  ProfileModel.userId p = userId ∧
                  Some (_id p) ≠ excludeProfileId) in
  ret (bool_decide (is_Some profile)).

Definition createProfile (oid : ObjectId) (profileBody : ProfileBody)
  : Async Store Profile :=
  await isNameTaken :=
    isProfileNameTaken (b_profileName profileBody) (b_userId profileBody) None in
  if isNameTaken then
    throw (ApiError BAD_REQUEST "Profile name already exists for this user")
  else
    (* If this is the first profile, set it as default *)
    await existingProfiles := find (λ p, userId p = b_userId profileBody) in
    let isFirstProfile := bool_decide (length existingProfiles = 0%nat) in
    Profile_create oid profileBody
      (isFirstProfile || default false (b_isDefault profileBody) || false).

Definition getProfileById (id : ObjectId) : Async Store (option Profile) :=
  findOne (λ p, _id p = id).

Definition getDefaultProfile (userId : ObjectId) : Async Store (option Profile) :=
  findOne (λ p, ProfileModel.userId p = userId ∧ isDefault p = true).

Definition updateProfileById (profileId : ObjectId) (updateBody : UpdateBody)
  : Async Store Profile :=
  await profile := getProfileById profileId in
  match profile with
  | None => throw (ApiError NOT_FOUND "Profile not found")
  | Some profile =>
      await isNameTaken :=
        (match u_profileName updateBody with
         | Some name =>
             if bool_decide (name = "") then ret false
             else isProfileNameTaken name (userId profile) (Some profileId)
         | None => ret false
         end) in
      if isNameTaken then
        throw (ApiError BAD_REQUEST "Profile name already exists for this user")
      else
        save isURL (mkDocument false profile (Object_assign profile updateBody))
  end.

Definition setDefaultProfile (userId profileId : ObjectId)
  : Async Store (option Profile) :=
  await profile :=
    findOne (λ p, _id p = profileId ∧ ProfileModel.userId p = userId) in
  match profile with
  | None => throw (ApiError NOT_FOUND "Profile not found")
  | Some _ =>
      (* Unset all other profiles as default *)
      await unset :=
        updateMany (λ p, ProfileModel.userId p = userId ∧ _id p ≠ profileId)
          (set_isDefault false) in
      (* Set the specified profile as default *)
      await set :=
        updateOne (λ p, _id p = profileId) (set_isDefault true) in
      getProfileById profileId
  end.

Definition deleteProfileById (profileId : ObjectId) : Async Store Profile :=
  await profile := getProfileById profileId in
  match profile with
  | None => throw (ApiError NOT_FOUND "Profile not found")
  | Some profile =>
      (* If deleting default profile, set another profile as default *)
      await promoted :=
        (if isDefault profile then
           await otherProfile :=
             findOne (λ p, userId p = userId profile ∧ _id p ≠ profileId) in
           match otherProfile with
           | Some otherProfile =>
               await saved :=
                 save isURL (mkDocument false otherProfile
                               (set_isDefault true otherProfile)) in
               ret tt
           | None => ret tt
           end
         else ret tt) in
      await deleted := deleteOne (λ p, _id p = profileId) in
      ret profile
  end.

End Service.

(** The [getDefaultProfile] handler of controllers/profile.controller.js,
    up to sending the response. *)
Definition controller_getDefaultProfile (userId : ObjectId) : Async Store Profile :=
  await profile := getDefaultProfile userId in
  match profile with
  | None => throw (ApiError NOT_FOUND "No default profile found")
  | Some profile => ret profile
  end.

(** A call of one of the four mutating service functions. *)
Inductive Call :=
  | CreateProfile (oid : ObjectId) (profileBody : ProfileBody)
  | UpdateProfileById (profileId : ObjectId) (updateBody : UpdateBody)
  | SetDefaultProfile (userId profileId : ObjectId)
  | DeleteProfileById (profileId : ObjectId).

(** The store a call leaves behind, whether it resolved or rejected. *)
Definition after `{!StringOps} (isURL : string → bool) (c : Call) (db : Store) : Store :=
  match c with
  | CreateProfile oid body => (createProfile isURL oid body db).2
  | UpdateProfileById id body => (updateProfileById isURL id body db).2
  | SetDefaultProfile u id => (setDefaultProfile u id db).2
  | DeleteProfileById id => (deleteProfileById isURL id db).2
  end.

(** The collection after the first hook's [updateMany] for a document of
    account [userId] with id [self]: every other profile of the account has
    [isDefault] unset. *)
Definition unsetOthers (userId self : ObjectId) (db : Store) : Store :=
  (updateMany (λ p, ProfileModel.userId p = userId ∧ _id p ≠ self)
     (set_isDefault false) db).2.

(** A create body whose document passes schema validation. *)
Definition validBody `{!StringOps} (isURL : string → bool) (body : ProfileBody) : Prop :=
  validateProfile isURL (construct 0%N body false) = None.

(** No stored profile has this [(userId, profileName)] pair. *)
Definition nameFree (userId : ObjectId) (profileName : string) (db : Store) : Prop :=
  ∀ p, p ∈ db →
       ¬ (ProfileModel.userId p = userId ∧ ProfileModel.profileName p = profileName).


(** The collection just before [deleteOne] in [deleteProfileById]: for a
    default profile with a sibling, the first sibling found has been
    promoted by [save] (which unsets the others when that changes its flag). *)
Definition promoteSibling (p : Profile) (db : Store) : Store :=
  if isDefault p then
    match head (filter (λ q, userId q = userId p ∧ _id q ≠ _id p) db) with
    | Some o =>
        updateFirst (λ q, _id q = _id o) (λ _, set_isDefault true o)
          (if bool_decide (isDefault o ≠ true)
           then unsetOthers (userId o) (_id o) db else db)
    | None => db
    end
  else db.

(** The profiles of an account, and those of them marked default. *)
Definition profilesOf (userId : ObjectId) (db : Store) : list Profile :=
  filter (λ p, ProfileModel.userId p = userId) db.

Definition defaultsOf (userId : ObjectId) (db : Store) : list Profile :=
  filter (λ p, ProfileModel.userId p = userId ∧ isDefault p = true) db.

(** Exactly one default per account that has a profile. *)
Definition singleDefault (db : Store) : Prop :=
  ∀ userId, profilesOf userId db ≠ [] → length (defaultsOf userId db) = 1%nat.

(** The account has a default profile, and only that one. *)
Definition hasUniqueDefault (userId : ObjectId) (db : Store) : Prop :=
  ∃ d, d ∈ db ∧ ProfileModel.userId d = userId ∧ isDefault d = true ∧
       ∀ q, q ∈ db → ProfileModel.userId q = userId → isDefault q = true →
            _id q = _id d.

(** The [_id] a create brings along is one the driver just generated. *)
Definition freshId (c : Call) (db : Store) : Prop :=
  match c with
  | CreateProfile oid _ => oid ∉ _id <$> db
  | _ => True
  end.

(** The call is an update that turns [isDefault] off on a profile that
    currently is a default. *)
Definition unsetsDefault (c : Call) (db : Store) : Prop :=
  match c with
  | UpdateProfileById id body =>
      u_isDefault body = Some false ∧
      ∃ p, p ∈ db ∧ _id p = id ∧ isDefault p = true
  | _ => False
  end.

(** A sequence of calls, each made on the store the previous one left. *)
Definition runCalls `{!StringOps} (isURL : string → bool) (cs : list Call) (db : Store)
  : Store :=
  foldl (λ db c, after isURL c db) db cs.

(** Along the run every generated [_id] is new and no update turns off a
    current default. *)
Fixpoint keepsDefaults `{!StringOps} (isURL : string → bool) (cs : list Call) (db : Store)
  : Prop :=
  match cs with
  | [] => True
  | c :: cs' =>
      freshId c db ∧ ¬ unsetsDefault c db ∧ keepsDefaults isURL cs' (after isURL c db)
  end.

(** What the driver and the schema guarantee of a stored collection:
    [_id]s are unique and every document passes schema validation. *)
Definition wfStore (isURL : string → bool) (db : Store) : Prop :=
  NoDup (_id <$> db) ∧ Forall (λ p, validateProfile isURL p = None) db.

End ProfileService.

(** ** User model and account bootstrap (models/user.model.js,
    services/user.service.js) *)

Module UserService.
Import ProfileModel ProfileService.

(** The body of a registration request. *)
Record UserBody := mkUserBody {
  ub_name : string;
  ub_username : string;
  ub_email : string;
  ub_fullname : string;
  ub_phone : string;
  ub_birthdate : Z;
  ub_password : string;
}.

(** A stored user; [password] holds the hash. *)
Record User := mkUser {
  user_id : ObjectId;
  name : string;
  username : string;
  email : string;
  fullname : string;
  phone : string;
  birthdate : Z;
  password : string;
  role : string;
  isEmailVerified : bool;
}.

#[global] Instance User_eq_dec : EqDecision User.
Proof. solve_decision. Defined.

(** What went to the logger: [logger.info(message)], or
    [logger.error(message, error.message)] with the second argument kept as
    the error whose message it is. *)
Inductive LogEntry :=
  | log_info (message : string)
  | log_error (message : string) (error : Error).

(** The two collections the service touches, and what went to the logger. *)
Record Db := mkDb {
  users : list User;
  profiles : ProfileModel.Store;
  logs : list LogEntry;
}.

(** Run a profile-service call on the [profiles] collection. *)
Definition onProfiles {A} (m : Async ProfileModel.Store A) : Async Db A :=
  λ db, let '(r, ps) := m (profiles db) in (r, mkDb (users db) ps (logs db)).

Definition logger_info (message : string) : Async Db unit :=
  λ db, (inr tt, mkDb (users db) (profiles db) (logs db ++ [log_info message])).

Definition logger_error (message : string) (error : Error) : Async Db unit :=
  λ db, (inr tt, mkDb (users db) (profiles db) (logs db ++ [log_error message error])).

(** [Math.floor(100000 + Math.random() * 900000)]: the product is rounded
    to a double, then the sum is; [random] is the double [Math.random()]
    returned. *)
Definition randomNumber `{!Doubles} (random : Q) : Z :=
  Qfloor (round (inject_Z 100000 + round (random * inject_Z 900000)))%Q.

(** Generate anonymous profile name with Neswa prefix and 6-digit random
    number; the template literal prints the number in decimal. *)
Definition generateAnonymousProfileName `{!Doubles} (random : Q) : string :=
  "Neswa" +:+ pretty (randomNumber random).




Section Service.
Context {stringOps : StringOps} {doubles : Doubles}.
(** [validator.isURL]; the user schema's validators (which call into the
    [validator] package and the clock) as they judge a body once the
    setters have run; [bcrypt.hash(password, 8)]. *)
Variable isURL : string → bool.
Variable validateUser : UserBody → option string.
Variable bcrypt_hash : string → string.

(** The setters of [username] and [email]: [lowercase], then [trim]. *)
Definition lowercaseTrim (value : string) : string := trim (toLowerCase value).

(** [User.isEmailTaken] / [User.isUsernameTaken]; the filter is cast to the
    schema, which runs the setters on the value looked for. *)
Definition isEmailTaken (email : string) (excludeUserId : option ObjectId)
  : Async Db bool :=
  λ db, (inr (bool_decide (Exists (λ u, UserService.email u = lowercaseTrim email ∧
                                        Some (user_id u) ≠ excludeUserId) (users db))),
         db).

Definition isUsernameTaken (username : string) (excludeUserId : option ObjectId)
  : Async Db bool :=
  λ db, (inr (bool_decide (Exists (λ u, UserService.username u = lowercaseTrim username ∧
                                        Some (user_id u) ≠ excludeUserId) (users db))),
         db).

(** [new User(userBody)] as the pre-save hook leaves it: the string paths
    as their setters leave them, the (trimmed) password hashed, schema
    defaults for [role] and [isEmailVerified]. *)
Definition constructUser (uid : ObjectId) (userBody : UserBody) : User :=
  mkUser uid (trim (ub_name userBody)) (lowercaseTrim (ub_username userBody))
    (lowercaseTrim (ub_email userBody))
    (trim (ub_fullname userBody)) (trim (ub_phone userBody)) (ub_birthdate userBody)
    (bcrypt_hash (trim (ub_password userBody))) "user" false.

(** [User.create(userBody)]: validate, hash the password in the pre-save
    hook, insert. *)
Definition User_create (uid : ObjectId) (userBody : UserBody) : Async Db User :=
  match validateUser userBody with
  | Some message => throw (ValidationError message)
  | None =>
      let user := constructUser uid userBody in
      λ db, if bool_decide (Exists (λ u, user_id u = uid) (users db))
            then (inl DuplicateKeyError, db)
            else (inr user, mkDb (users db ++ [user]) (profiles db) (logs db))
  end.

(** The conditions under which [createUser] gets past [User.create] and
    the account record is persisted: email and username are free, the body
    passes the user schema, the generated id is new. *)
Definition accountCreated (uid : ObjectId) (userBody : UserBody) (db : Db) : Prop :=
  (∀ u, u ∈ users db → email u ≠ lowercaseTrim (ub_email userBody)) ∧
  (∀ u, u ∈ users db → username u ≠ lowercaseTrim (ub_username userBody)) ∧
  validateUser userBody = None ∧
  (∀ u, u ∈ users db → user_id u ≠ uid).

(** The two bodies [createUser] passes to [profileService.createProfile]. *)
Definition publicProfileBody (user : User) (userBody : UserBody) : ProfileBody :=
  mkProfileBody (user_id user) (ub_name userBody) (ub_name userBody) (Some "") None
    (Some profileTypes_PUBLIC) (Some profileStatuses_PUBLIC) (Some true)
    (Some true).

Definition anonymousProfileBody (user : User) (random : Q) : ProfileBody :=
  mkProfileBody (user_id user) (generateAnonymousProfileName random) "Anonymous User"
    (Some "") None
    (Some profileTypes_ANONYMOUS) (Some profileStatuses_PRIVATE) (Some true)
    (Some false).

(** [createUser].  [uid], [pid1], [pid2] are the [ObjectId]s generated for
    the user and the two profiles, [random] the value of [Math.random()]. *)
Definition createUser (uid pid1 pid2 : ObjectId) (random : Q) (userBody : UserBody)
  : Async Db User :=
  await emailTaken := isEmailTaken (ub_email userBody) None in
  if emailTaken then throw (ApiError BAD_REQUEST "Email already taken") else
  await usernameTaken := isUsernameTaken (ub_username userBody) None in
  if usernameTaken then throw (ApiError BAD_REQUEST "Username already taken") else
  await user := User_create uid userBody in
  (* Create default profiles for the new user *)
  await attempted :=
    tryCatch
      ((* Create public profile using user's name *)
       await publicProfile :=
         onProfiles (createProfile isURL pid1 (publicProfileBody user userBody)) in
       (* Create anonymous profile with Neswa prefix *)
       await anonymousProfile :=
         onProfiles (createProfile isURL pid2 (anonymousProfileBody user random)) in
       logger_info
         ("Created profiles for user " +:+ email user +:+ ": public (" +:+
          profileName publicProfile +:+ ") and anonymous (" +:+
          profileName anonymousProfile +:+ ")"))
      (λ error,
         (* If profile creation fails, we should still return the user
            but log the error for debugging *)
         logger_error "Failed to create default profiles for user:" error) in
  ret user.


End Service.

End UserService.

(** ** Content lifecycle and category counters (services/question.service.js,
    services/post.service.js, services/category.service.js) *)

Module ContentService.
Import Engagement.

(** A category document, with the paths the category service names. *)
Record Category := mkCategory {
  cat_name : string;
  cat_description : string;
  postCount : Z;
  questionCount : Z;
}.

(** The three collections the two content services touch. *)
Record Collections := mkCollections {
  posts : gmap ObjectId Post;
  questions : gmap ObjectId Question;
  categories : gmap ObjectId Category;
}.

(** [{ $inc: { postCount: n } }] and [{ $inc: { questionCount: n } }]. *)
Definition inc_postCount (n : Z) (c : Category) : Category :=
  mkCategory (cat_name c) (cat_description c) (postCount c + n) (questionCount c).

Definition inc_questionCount (n : Z) (c : Category) : Category :=
  mkCategory (cat_name c) (cat_description c) (postCount c) (questionCount c + n).

(** [Category.findByIdAndUpdate(categoryId, update, { new: true })]: the
    updated document, or [null] (and nothing written) when there is none. *)
Definition findByIdAndUpdate (categoryId : ObjectId) (update : Category → Category)
  : Async Collections (option Category) :=
  λ db, let updated := alter update categoryId (categories db) in
        (inr (updated !! categoryId), mkCollections (posts db) (questions db) updated).

Definition incrementPostCount (categoryId : ObjectId) :=
  findByIdAndUpdate categoryId (inc_postCount 1).

Definition decrementPostCount (categoryId : ObjectId) :=
  findByIdAndUpdate categoryId (inc_postCount (-1)).

Definition incrementQuestionCount (categoryId : ObjectId) :=
  findByIdAndUpdate categoryId (inc_questionCount 1).

Definition decrementQuestionCount (categoryId : ObjectId) :=
  findByIdAndUpdate categoryId (inc_questionCount (-1)).

(** The body of a create request: the paths it sets, as the schema keeps
    them (after [trim] and [lowercase]); the engagement paths take their
    schema defaults. *)
Record ContentBody := mkContentBody {
  cb_profileId : option ObjectId;
  cb_categoryId : option ObjectId;
  cb_title : string;
  cb_content : string;
  cb_tags : list string;
}.

(** Schema validation of a new post or question (the two schemas ask the
    same): [required] on the two references and the two texts, [maxlength]
    200 on [title] and 5000 on [content].  Resolves to the two references. *)
Definition validateContent (body : ContentBody) : string + (ObjectId * ObjectId) :=
  match cb_profileId body, cb_categoryId body with
  | None, _ => inl "Path profileId is required."
  | _, None => inl "Path categoryId is required."
  | Some profileId, Some categoryId =>
      if bool_decide (cb_title body = "") then inl "Path title is required."
      else if Nat.ltb 200 (String.length (cb_title body))
           then inl "Path title is longer than the maximum allowed length (200)."
      else if bool_decide (cb_content body = "") then inl "Path content is required."
      else if Nat.ltb 5000 (String.length (cb_content body))
           then inl "Path content is longer than the maximum allowed length (5000)."
      else inr (profileId, categoryId)
  end.

(** [new Model(body)] with a fresh [_id] and the schema defaults. *)
Definition construct {X} (oid profileId categoryId : ObjectId) (body : ContentBody)
    (extra : X) : Content X :=
  mkContent oid profileId categoryId (cb_title body) (cb_content body) (cb_tags body)
    0 0 0 0 [] [] [] [] true extra.

(** [Question.create(questionBody)] and [Post.create(postBody)]. *)
Definition Question_create (oid : ObjectId) (questionBody : ContentBody)
  : Async Collections Question :=
  match validateContent questionBody with
  | inl message => throw (ValidationError message)
  | inr (profileId, categoryId) =>
      let question :=
        construct oid profileId categoryId questionBody (Build_QuestionExtra 0 false None) in
      λ db, match questions db !! oid with
            | Some _ => (inl DuplicateKeyError, db)
            | None =>
                (inr question,
                 mkCollections (posts db) (<[oid := question]> (questions db))
                   (categories db))
            end
  end.

Definition Post_create (oid : ObjectId) (postBody : ContentBody)
  : Async Collections Post :=
  match validateContent postBody with
  | inl message => throw (ValidationError message)
  | inr (profileId, categoryId) =>
      let post := construct oid profileId categoryId postBody tt in
      λ db, match posts db !! oid with
            | Some _ => (inl DuplicateKeyError, db)
            | None =>
                (inr post,
                 mkCollections (<[oid := post]> (posts db)) (questions db)
                   (categories db))
            end
  end.

Definition createQuestion (oid : ObjectId) (questionBody : ContentBody)
  : Async Collections Question :=
  await question := Question_create oid questionBody in
  (* Increment question count for the category *)
  await counted :=
    (match cb_categoryId questionBody with
     | Some categoryId =>
         await category := incrementQuestionCount categoryId in ret tt
     | None => ret tt
     end) in
  ret question.

Definition createPost (oid : ObjectId) (postBody : ContentBody)
  : Async Collections Post :=
  await post := Post_create oid postBody in
  (* Increment post count for the category *)
  await counted :=
    (match cb_categoryId postBody with
     | Some categoryId =>
         await category := incrementPostCount categoryId in ret tt
     | None => ret tt
     end) in
  ret post.

(** [Question.findById(id).populate('profileId categoryId')]: the document
    and what [populate] leaves in its [categoryId] path, the category
    document or [null] when the reference points nowhere. *)
Definition getQuestionById (id : ObjectId)
  : Async Collections (option (Question * option Category)) :=
  λ db, (inr (match questions db !! id with
              | Some question => Some (question, categories db !! categoryId question)
              | None => None
              end), db).

Definition getPostById (id : ObjectId)
  : Async Collections (option (Post * option Category)) :=
  λ db, (inr (match posts db !! id with
              | Some post => Some (post, categories db !! categoryId post)
              | None => None
              end), db).

(** [question.deleteOne()] / [post.deleteOne()]. *)
Definition Question_deleteOne (question : Question) : Async Collections unit :=
  λ db, (inr tt, mkCollections (posts db) (delete (_id question) (questions db))
                   (categories db)).

Definition Post_deleteOne (post : Post) : Async Collections unit :=
  λ db, (inr tt, mkCollections (delete (_id post) (posts db)) (questions db)
                   (categories db)).

(** The populated category is passed where an id is expected and is cast
    back to its [_id], which is the reference the document held. *)
Definition deleteQuestionById (questionId : ObjectId) : Async Collections Question :=
  await found := getQuestionById questionId in
  match found with
  | None => throw (ApiError NOT_FOUND "Question not found")
  | Some (question, populated) =>
      (* Decrement question count for the category *)
      await counted :=
        (match populated with
         | Some _ =>
             await category := decrementQuestionCount (categoryId question) in ret tt
         | None => ret tt
         end) in
      await deleted := Question_deleteOne question in
      ret question
  end.

Definition deletePostById (postId : ObjectId) : Async Collections Post :=
  await found := getPostById postId in
  match found with
  | None => throw (ApiError NOT_FOUND "Post not found")
  | Some (post, populated) =>
      (* Decrement post count for the category *)
      await counted :=
        (match populated with
         | Some _ =>
             await category := decrementPostCount (categoryId post) in ret tt
         | None => ret tt
         end) in
      await deleted := Post_deleteOne post in
      ret post
  end.

(** Run a call of the question service's engagement functions on the
    [questions] collection. *)
Definition onQuestions {A} (m : Async QuestionService.Store A) : Async Collections A :=
  λ db, let '(r, qs) := m (questions db) in
        (r, mkCollections (posts db) qs (categories db)).

(** [{ ...questionData, profileId: this._id }]. *)
Definition with_profileId (profileId : ObjectId) (data : ContentBody) : ContentBody :=
  mkContentBody (Some profileId) (cb_categoryId data) (cb_title data) (cb_content data)
    (cb_tags data).

(** The methods [createPost] and [createQuestion] of a profile document
    (models/profile.model.js); [this] is the profile's [_id]. *)
Definition Profile_createPost (this oid : ObjectId) (postData : ContentBody)
  : Async Collections Post :=
  let postBody := with_profileId this postData in
  Post_create oid postBody.

Definition Profile_createQuestion (this oid : ObjectId) (questionData : ContentBody)
  : Async Collections Question :=
  let questionBody := with_profileId this questionData in
  Question_create oid questionBody.

(** A call that creates or deletes content, or reacts to a question. *)
Inductive ContentCall :=
  | CreateQuestion (oid : ObjectId) (questionBody : ContentBody)
  | DeleteQuestionById (questionId : ObjectId)
  | CreatePost (oid : ObjectId) (postBody : ContentBody)
  | DeletePostById (postId : ObjectId)
  | React (r : QuestionService.Reaction) (questionId profileId : ObjectId).

(** The collections a call leaves behind, whether it resolved or rejected. *)
Definition afterContent (c : ContentCall) (db : Collections) : Collections :=
  match c with
  | CreateQuestion oid body => (createQuestion oid body db).2
  | DeleteQuestionById id => (deleteQuestionById id db).2
  | CreatePost oid body => (createPost oid body db).2
  | DeletePostById id => (deletePostById id db).2
  | React r questionId profileId =>
      (onQuestions (QuestionService.perform r questionId profileId) db).2
  end.

Definition runContent (cs : list ContentCall) (db : Collections) : Collections :=
  foldl (λ db c, afterContent c db) db cs.

(** How many documents of a collection are filed under a category. *)
Definition tally {X} (categoryId : ObjectId) (docs : gmap ObjectId (Content X)) : Z :=
  Z.of_nat (size (filter (λ kv, Engagement.categoryId kv.2 = categoryId) docs)).

(** Every category's counters say how many posts and questions it holds. *)
Definition countsMatch (db : Collections) : Prop :=
  ∀ categoryId category, categories db !! categoryId = Some category →
    postCount category = tally categoryId (posts db) ∧
    questionCount category = tally categoryId (questions db).

(** Every post and question is stored under its own [_id]. *)
Definition wfCollections (db : Collections) : Prop :=
  (∀ id post, posts db !! id = Some post → _id post = id) ∧
  QuestionService.wfStore (questions db).

End ContentService.

(** ** Search text in queries (queryQuestions, queryPosts, queryCategories) *)

Module Search.

(** The characters of the class [.*+?^${}()|[\]\\] of the source. *)
Definition special : list ascii :=
  ["."; "*"; "+"; "?"; "^"; "$"; "{"; "}"; "("; ")"; "|"; "["; "]"; "\"]%char.

Definition isSpecial (c : ascii) : bool := bool_decide (c ∈ special).

(** filter.search.replace(/[.*+?^${}()|[\]\\]/g, '\\$&'): every character
    of the class is replaced by a backslash and itself.  The class holds
    ASCII characters only, so it does not matter how the characters outside
    ASCII are encoded. *)
Fixpoint escapedQuery (search : string) : string :=
  match search with
  | EmptyString => EmptyString
  | String c rest =>
      if isSpecial c then String "\" (String c (escapedQuery rest))
      else String c (escapedQuery rest)
  end.

(** Reading a pattern that is meant literally: a character outside the
    class stands for itself, a backslash followed by a character of the
    class stands for that character, and anything else (a bare character of
    the class, a backslash before something else or at the end) is not a
    literal pattern. *)
Fixpoint readLiteral (pattern : string) : option string :=
  match pattern with
  | EmptyString => Some EmptyString
  | String c rest =>
      if Ascii.eqb c "\" then
        match rest with
        | String d rest' =>
            if isSpecial d then String d <$> readLiteral rest' else None
        | EmptyString => None
        end
      else if isSpecial c then None
      else String c <$> readLiteral rest
  end.

End Search.

(** ** Profile listing and HTTP handlers (services/profile.service.js,
    controllers/profile.controller.js) *)

Module ProfileController.
Import ProfileModel ProfileService.

Definition OK : N := 200%N.
Definition CREATED : N := 201%N.
Definition NO_CONTENT : N := 204%N.
Definition FORBIDDEN : N := 403%N.

(** What a handler sends: a profile ([null] when the service found none),
    a list of profiles, or an empty body. *)
Inductive Sent :=
  | sendProfile (profile : option Profile)
  | sendProfiles (profiles : list Profile)
  | sendNothing.

Record Response := mkResponse {
  res_status : N;
  res_send : Sent;
}.

(** [{ ...req.body, userId: req.user.id }]. *)
Definition with_userId (userId : ObjectId) (body : ProfileBody) : ProfileBody :=
  mkProfileBody userId (b_profileName body) (b_displayName body) (b_bio body)
    (b_avatar body) (b_profileType body) (b_status body) (b_isActive body)
    (b_isDefault body).

Section Controller.
Context {stringOps : StringOps}.
Variable isURL : string → bool.
(** The [createdAt] timestamp the schema option [timestamps] keeps for a
    document; it is set at insertion and not written afterwards. *)
Variable createdAt : ObjectId → Z.

(** The order of [.sort({ isDefault: -1, createdAt: 1 })]: defaults first,
    then older before newer. *)
Definition sortsBefore (p q : Profile) : Prop :=
  (isDefault p = true ∧ isDefault q = false) ∨
  (isDefault p = isDefault q ∧ createdAt (_id p) ≤ createdAt (_id q)).

#[global] Instance sortsBefore_dec p q : Decision (sortsBefore p q).
Proof. unfold sortsBefore. apply _. Defined.

(** [getProfilesByUserId] of the service.  The driver leaves the order of
    documents with equal sort keys open; [merge_sort] is one such order. *)
Definition getProfilesByUserId (userId : ObjectId) : Async Store (list Profile) :=
  await profiles := find (λ p, ProfileModel.userId p = userId) in
  ret (merge_sort sortsBefore profiles).

(** The handlers, each from the authenticated [user] ([req.user.id]) and
    the request's parameters to what it sends; an error it throws is what
    [catchAsync] hands to [next]. *)
Definition controller_createProfile (user oid : ObjectId) (reqBody : ProfileBody)
  : Async Store Response :=
  let profileBody := with_userId user reqBody in
  await profile := createProfile isURL oid profileBody in
  ret (mkResponse CREATED (sendProfile (Some profile))).

Definition controller_getProfile (user profileId : ObjectId) : Async Store Response :=
  await profile := getProfileById profileId in
  match profile with
  | None => throw (ApiError NOT_FOUND "Profile not found")
  | Some profile =>
      (* Check if the profile belongs to the authenticated user *)
      if bool_decide (userId profile ≠ user)
      then throw (ApiError FORBIDDEN "Access denied")
      else ret (mkResponse OK (sendProfile (Some profile)))
  end.

Definition controller_getUserProfiles (user : ObjectId) : Async Store Response :=
  await profiles := getProfilesByUserId user in
  ret (mkResponse OK (sendProfiles profiles)).

Definition controller_updateProfile (user profileId : ObjectId) (reqBody : UpdateBody)
  : Async Store Response :=
  await profile := getProfileById profileId in
  match profile with
  | None => throw (ApiError NOT_FOUND "Profile not found")
  | Some profile =>
      (* Check if the profile belongs to the authenticated user *)
      if bool_decide (userId profile ≠ user)
      then throw (ApiError FORBIDDEN "Access denied")
      else
        await updatedProfile := updateProfileById isURL profileId reqBody in
        ret (mkResponse OK (sendProfile (Some updatedProfile)))
  end.

Definition controller_setDefaultProfile (user profileId : ObjectId)
  : Async Store Response :=
  await profile := setDefaultProfile user profileId in
  ret (mkResponse OK (sendProfile profile)).

Definition controller_deleteProfile (user profileId : ObjectId) : Async Store Response :=
  await profile := getProfileById profileId in
  match profile with
  | None => throw (ApiError NOT_FOUND "Profile not found")
  | Some profile =>
      (* Check if the profile belongs to the authenticated user *)
      if bool_decide (userId profile ≠ user)
      then throw (ApiError FORBIDDEN "Access denied")
      else
        (* Check if this is the only profile *)
        await userProfiles := getProfilesByUserId user in
        if bool_decide (length userProfiles = 1%nat)
        then throw (ApiError BAD_REQUEST "Cannot delete the only profile")
        else
          await deleted := deleteProfileById isURL profileId in
          ret (mkResponse NO_CONTENT sendNothing)
  end.

(** A request to one of the handlers above or to the [getDefaultProfile]
    handler. *)
Inductive Request :=
  | ReqCreateProfile (oid : ObjectId) (reqBody : ProfileBody)
  | ReqGetProfile (profileId : ObjectId)
  | ReqGetUserProfiles
  | ReqGetDefaultProfile
  | ReqUpdateProfile (profileId : ObjectId) (reqBody : UpdateBody)
  | ReqSetDefaultProfile (profileId : ObjectId)
  | ReqDeleteProfile (profileId : ObjectId).

Definition handle (user : ObjectId) (req : Request) : Async Store Response :=
  match req with
  | ReqCreateProfile oid reqBody => controller_createProfile user oid reqBody
  | ReqGetProfile profileId => controller_getProfile user profileId
  | ReqGetUserProfiles => controller_getUserProfiles user
  | ReqGetDefaultProfile =>
      await profile := controller_getDefaultProfile user in
      ret (mkResponse OK (sendProfile (Some profile)))
  | ReqUpdateProfile profileId reqBody => controller_updateProfile user profileId reqBody
  | ReqSetDefaultProfile profileId => controller_setDefaultProfile user profileId
  | ReqDeleteProfile profileId => controller_deleteProfile user profileId
  end.

(** Requests made one after the other, each by its own user; the store
    each one leaves is the one the next one meets. *)
Definition serve (reqs : list (ObjectId * Request)) (db : Store) : Store :=
  foldl (λ db r, (handle r.1 r.2 db).2) db reqs.

End Controller.

(** The [_id] a create request brings along is one the driver just
    generated. *)
Definition freshRequest (req : Request) (db : Store) : Prop :=
  match req with
  | ReqCreateProfile oid _ => oid ∉ _id <$> db
  | _ => True
  end.

(** Along a run of requests every generated [_id] is new. *)
Fixpoint freshRequests `{!StringOps} (isURL : string → bool) (createdAt : ObjectId → Z)
    (reqs : list (ObjectId * Request)) (db : Store) : Prop :=
  match reqs with
  | [] => True
  | r :: reqs' =>
      freshRequest r.2 db ∧
      freshRequests isURL createdAt reqs' (handle isURL createdAt r.1 r.2 db).2
  end.

(** The profiles of every account but one, in collection order. *)
Definition othersOf (userId : ObjectId) (db : Store) : list Profile :=
  filter (λ p, ProfileModel.userId p ≠ userId) db.

(** What identifies a document and its owner. *)
Definition owned (p : Profile) : ObjectId * ObjectId := (_id p, userId p).

End ProfileController.

(** ** Further notions on engagement *)

Module EngagementNotions.
Import Engagement.

(** The profile a method call is made for. *)
Definition reactor (o : Op) : ObjectId :=
  match o with
  | AddLike p | RemoveLike p | AddDislike p | RemoveDislike p
  | AddSave p | RemoveSave p | AddShare p => p
  end.

(** Everything in a content document that is not engagement state. *)
Definition payload {X} (q : Content X) :=
  (_id q, profileId q, categoryId q, title q, content q, tags q, isActive q, extra q).

End EngagementNotions.

(** ** Further notions on the profile collection *)

Module ProfileNotions.
Import ProfileModel ProfileService.

(** No account has two default profiles. *)
Definition atMostOneDefault (db : Store) : Prop :=
  ∀ p q, p ∈ db → q ∈ db → userId p = userId q →
         isDefault p = true → isDefault q = true → _id p = _id q.

(** No account has two profiles of the same name: what the unique index on
    [(userId, profileName)] asks for. *)
Definition uniqueNames (db : Store) : Prop :=
  ∀ p q, p ∈ db → q ∈ db → userId p = userId q →
         profileName p = profileName q → _id p = _id q.

(** Two documents agree on everything the name index looks at. *)
Definition sameKey (q0 q : Profile) : Prop :=
  _id q0 = _id q ∧ userId q0 = userId q ∧ profileName q0 = profileName q.

(** Along the run every [_id] a create brings along is new. *)
Fixpoint freshIds `{!StringOps} (isURL : string → bool) (cs : list Call) (db : Store)
  : Prop :=
  match cs with
  | [] => True
  | c :: cs' => freshId c db ∧ freshIds isURL cs' (after isURL c db)
  end.

(** An update body that sets nothing but [isDefault: true]. *)
Definition makeDefaultBody : UpdateBody :=
  mkUpdateBody None None None None None None None (Some true).

(** An update body that sets nothing but the name. *)
Definition renameBody (name : string) : UpdateBody :=
  mkUpdateBody (Some name) None None None None None None None.

End ProfileNotions.

(** ** Further notions on registration *)

Module BootstrapNotions.
Import ProfileModel ProfileService UserService.

(** No two accounts share an [_id], an email or a username: what the
    unique indexes of the user schema ask for.  Emails and usernames are
    compared as the schema stores them. *)
Definition uniqueAccounts (db : Db) : Prop :=
  NoDup (user_id <$> users db) ∧
  NoDup (email <$> users db) ∧
  NoDup (username <$> users db).

(** One call of [createUser]: the body, the three generated [ObjectId]s and
    the value [Math.random()] returns. *)
Record SignUp := mkSignUp {
  su_uid : ObjectId;
  su_pid1 : ObjectId;
  su_pid2 : ObjectId;
  su_random : Q;
  su_body : UserBody;
}.

Section Runs.
Context {stringOps : StringOps} {doubles : Doubles}.
Variable isURL : string → bool.
Variable validateUser : UserBody → option string.
Variable bcrypt_hash : string → string.

Definition signUp (s : SignUp) : Async Db User :=
  createUser isURL validateUser bcrypt_hash
    (su_uid s) (su_pid1 s) (su_pid2 s) (su_random s) (su_body s).

(** Registrations made one after the other. *)
Definition signUps (l : list SignUp) (db : Db) : Db :=
  foldl (λ db s, (signUp s db).2) db l.

(** Along the run the two profile [_id]s of every registration are new. *)
Fixpoint freshSignUps (l : list SignUp) (db : Db) : Prop :=
  match l with
  | [] => True
  | s :: l' =>
      (su_pid1 s ∉ _id <$> profiles db) ∧ (su_pid2 s ∉ _id <$> profiles db) ∧
      su_pid1 s ≠ su_pid2 s ∧
      freshSignUps l' (signUp s db).2
  end.

End Runs.

End BootstrapNotions.

(** ** Sample data

    Small concrete stores and requests on which the statements below are
    exercised. *)

Module Samples.
Import ProfileModel ProfileService ProfileController UserService ProfileNotions.

(** A sample runtime.  [sampleTrim] strips ASCII white space (tab, line feed,
    vertical tab, form feed, carriage return, space) from both ends and
    [sampleLower] lowers the ASCII capitals; [sampleRound] rounds to the
    nearest multiple of 2^-33. *)
Definition isSpace (c : ascii) : bool :=
  let n := N_of_ascii c in ((9 <=? n)%N && (n <=? 13)%N) || (n =? 32)%N.

Fixpoint trimStart (s : string) : string :=
  match s with
  | EmptyString => EmptyString
  | String c rest => if isSpace c then trimStart rest else s
  end.

Fixpoint trimEnd (s : string) : string :=
  match s with
  | EmptyString => EmptyString
  | String c rest =>
      match trimEnd rest with
      | EmptyString => if isSpace c then EmptyString else String c EmptyString
      | rest' => String c rest'
      end
  end.

Definition sampleTrim (s : string) : string := trimEnd (trimStart s).

Definition lowerChar (c : ascii) : ascii :=
  let n := N_of_ascii c in
  if (65 <=? n)%N && (n <=? 90)%N then ascii_of_N (n + 32) else c.

Fixpoint sampleLower (s : string) : string :=
  match s with
  | EmptyString => EmptyString
  | String c rest => String (lowerChar c) (sampleLower rest)
  end.

#[global] Instance sampleStringOps : StringOps.
Proof.
  refine {| trim := sampleTrim; toLowerCase := sampleLower |}.
  assert (Hvis : ∀ c, visible c = true → isSpace c = false).
  { intros c. unfold visible, isSpace. cbv zeta. generalize (N_of_ascii c). intros n Hn.
    apply andb_true_iff in Hn as [H1 H2].
    apply N.leb_le in H1. apply N.leb_le in H2.
    apply orb_false_iff. split.
    - apply andb_false_iff. right. apply N.leb_gt. lia.
    - apply N.eqb_neq. lia. }
  assert (Hend : ∀ s, endsVisible s = true → trimEnd s = s).
  { induction s as [|c rest IH]; [done|]. cbn [endsVisible trimEnd].
    destruct rest as [|c' rest'].
    - intros Hc. cbn. by rewrite (Hvis c Hc).
    - intros Hrest. rewrite (IH Hrest). done. }
  intros [|c rest]; [done|]. cbn [trimmed]. intros H.
  apply andb_true_iff in H as [Hc Hrest].
  unfold sampleTrim. cbn [trimStart]. rewrite (Hvis c Hc). by apply Hend.
Defined.

Definition sampleRound (x : Q) : Q := inject_Z (Qfloor (x / ulp20 + (1 # 2))) * ulp20.

#[global] Instance sampleDoubles : Doubles.
Proof.
  refine {| round := sampleRound;
            representable := λ b, ∃ k : Z, (b == inject_Z k * ulp20)%Q |}.
  - intros x b _ [k Hb]. unfold sampleRound.
    set (t := (x / ulp20)%Q).
    set (n := Qfloor (t + (1 # 2))).
    pose proof (Qfloor_le (t + (1 # 2))) as Hlo. fold n in Hlo.
    pose proof (Qlt_floor (t + (1 # 2))) as Hhi. fold n in Hhi.
    rewrite inject_Z_plus in Hhi. change (inject_Z 1) with 1%Q in Hhi.
    assert (Ex : (x == t * ulp20)%Q) by (unfold t, ulp20; field).
    assert (E1 : (inject_Z n * ulp20 - x == (inject_Z n - t) * ulp20)%Q)
      by (rewrite Ex at 1; ring).
    assert (E2 : (b - x == (inject_Z k - t) * ulp20)%Q)
      by (rewrite Hb; rewrite Ex at 1; ring).
    rewrite E1, E2. rewrite !Qabs_Qmult.
    apply Qmult_le_compat_r; [|apply Qabs_nonneg].
    assert (Hn : (Qabs (inject_Z n - t) <= 1 # 2)%Q).
    { apply Qabs_Qle_condition. split; lra. }
    destruct (Z.lt_trichotomy k n) as [Hk|[->|Hk]].
    + assert (Hkn : (inject_Z k <= inject_Z (n + -1))%Q) by (rewrite <- Zle_Qle; lia).
      rewrite inject_Z_plus in Hkn. change (inject_Z (-1)) with (-1 # 1)%Q in Hkn.
      eapply Qle_trans; [exact Hn|].
      rewrite <- Qabs_opp. eapply Qle_trans; [|apply Qle_Qabs]. lra.
    + apply Qle_refl.
    + assert (Hkn : (inject_Z (n + 1) <= inject_Z k)%Q) by (rewrite <- Zle_Qle; lia).
      rewrite inject_Z_plus in Hkn. change (inject_Z 1) with 1%Q in Hkn.
      eapply Qle_trans; [exact Hn|].
      eapply Qle_trans; [|apply Qle_Qabs]. lra.
  - intros k _. by exists k.
  - intros r [k Hr] Hlt. rewrite Hr in *.
    assert (Hk : (inject_Z k <= inject_Z (2 ^ 33 - 1))%Q).
    { rewrite <- Zle_Qle. assert (k < 2 ^ 33); [|lia].
      rewrite Zlt_Qlt. unfold ulp20 in Hlt.
      change (inject_Z (2 ^ 33)) with 8589934592%Q. lra. }
    change (inject_Z (2 ^ 33 - 1)) with 8589934591%Q in Hk.
    unfold ulp20, eps53. lra.
Defined.

(** Sample documents used to exercise the statements below. *)
Definition sampleQuestion : Engagement.Question :=
  Engagement.mkContent 7%N 1%N 2%N "How?" "Body" ["rocq"] 2 1 1 0
    [10%N; 11%N] [12%N] [10%N] [] true
    (Engagement.Build_QuestionExtra 0 false None).

Definition sampleStore : QuestionService.Store := {[ 7%N := sampleQuestion ]}.

(** Sample data: a permissive URL validator, an account (100) with one
    default profile, and two create bodies. *)
Definition anyURL (v : string) : bool := true.

Definition mainProfile : Profile :=
  mkProfile 1%N 100%N "main" "Main" None None
    profileTypes_PUBLIC profileStatuses_PUBLIC true true.

Definition workBody : ProfileBody :=
  mkProfileBody 100%N "work" "Work" None None None None None (Some true).

Definition otherAccountBody : ProfileBody :=
  mkProfileBody 200%N "work" "Work" None None None None None None.

(** A second profile for account 100, and a run of service calls on the
    two: a create for another account, an update that turns the default
    off, a rename onto a taken name, a change of default, a delete. *)
Definition workProfile : Profile := construct 2%N workBody false.

Definition sampleRun : list Call :=
  [CreateProfile 3%N otherAccountBody;
   UpdateProfileById 1%N (mkUpdateBody None None None None None None None (Some false));
   UpdateProfileById 2%N (renameBody "main");
   SetDefaultProfile 100%N 2%N;
   DeleteProfileById 2%N].

(** Creation times that follow the [_id]s, and two runs of requests on
    the two profiles of account 100: one by another user (200), who
    creates a profile and then tries to get at those of account 100, and
    one by the owner, who deletes both profiles in turn. *)
Definition sampleCreatedAt (id : ObjectId) : Z := Z.of_N id.

Definition strangerRequests : list (ObjectId * Request) :=
  [(200%N, ReqCreateProfile 3%N workBody);
   (200%N, ReqDeleteProfile 1%N);
   (200%N, ReqUpdateProfile 2%N makeDefaultBody);
   (200%N, ReqSetDefaultProfile 2%N);
   (200%N, ReqDeleteProfile 3%N)].

Definition ownerRequests : list (ObjectId * Request) :=
  [(100%N, ReqDeleteProfile 1%N); (100%N, ReqDeleteProfile 2%N)].

(** Sample content: one category holding the sample question, a create
    body filed under it, and a run of creates, reactions and deletes. *)
Definition sampleCategory : ContentService.Category :=
  ContentService.mkCategory "General" "Anything" 0 1.

Definition sampleCollections : ContentService.Collections :=
  ContentService.mkCollections ∅ sampleStore {[ 2%N := sampleCategory ]}.

Definition sampleContentBody : ContentService.ContentBody :=
  ContentService.mkContentBody (Some 1%N) (Some 2%N) "Why?" "Body" ["rocq"].

Definition sampleContentRun : list ContentService.ContentCall :=
  [ContentService.CreateQuestion 8%N sampleContentBody;
   ContentService.CreatePost 9%N sampleContentBody;
   ContentService.React QuestionService.LikeQuestion 8%N 5%N;
   ContentService.DeleteQuestionById 7%N;
   ContentService.DeletePostById 4%N].

(** Sample registration: a stub hash, a user schema that accepts the body,
    an empty database. *)
Definition stubHash (s : string) : string := "#" +:+ s.

Definition acceptUser (b : UserBody) : option string := None.

Definition emptyDb : Db := mkDb [] [] [].

Definition registration (name : string) : UserBody :=
  mkUserBody name "ana1" "ana@example.com" "Ana Full" "+12345678901" 0 "password1".

End Samples.

(** * Properties *)

(** ** Engagement methods *)

Module EngagementFacts.
Import Engagement.

Section ArrayFacts.
Implicit Types (l : list ObjectId) (x y : ObjectId).

Lemma indexOf_lower l x : -1 ≤ indexOf l x.
Proof.
  induction l as [|y l IH]; simpl; [lia|].
  destruct (decide (y = x)); [lia|].
  destruct (decide (indexOf l x = -1)); lia.
Qed.

Lemma indexOf_absent l x : indexOf l x = -1 ↔ x ∉ l.
Proof.
  induction l as [|y l IH]; simpl.
  - split; [intros _; apply not_elem_of_nil | done].
  - destruct (decide (y = x)) as [->|Hne].
    + split; [lia | intros H; exfalso; apply H; left].
    + pose proof (indexOf_lower l x).
      rewrite not_elem_of_cons.
      destruct (decide (indexOf l x = -1)) as [E|E].
      * split; [intros _; split; [congruence | by apply IH] | done].
      * split; [lia | intros [_ H']; apply IH in H'; contradiction].
Qed.

Lemma includes_spec l x : includes l x = true ↔ x ∈ l.
Proof. unfold includes. apply bool_decide_eq_true. Qed.

(** [splice] at the index [indexOf] found takes out the first occurrence. *)
Lemma splice1_indexOf l x :
  x ∈ l →
  ∃ l1 l2, l = l1 ++ (x :: l2) ∧ (x ∉ l1) ∧ splice1 l (indexOf l x) = l1 ++ l2.
Proof.
  induction l as [|y l IH]; intros Hin.
  - by apply elem_of_nil in Hin.
  - simpl. destruct (decide (y = x)) as [->|Hne].
    + exists [], l. split; [done|]. split; [apply not_elem_of_nil|done].
    + apply elem_of_cons in Hin as [->|Hin]; [done|].
      destruct (IH Hin) as (l1 & l2 & El & Hl1 & Es).
      pose proof (indexOf_lower l x) as Hlo.
      destruct (decide (indexOf l x = -1)) as [E|E].
      { apply indexOf_absent in E. contradiction. }
      exists (y :: l1), l2. split; [by rewrite El at 1|].
      split; [rewrite not_elem_of_cons; split; [congruence|done]|].
      unfold splice1 in *.
      replace (Z.to_nat (1 + indexOf l x)) with (S (Z.to_nat (indexOf l x))) by lia.
      simpl. by rewrite Es.
Qed.

Lemma splice1_length l x :
  x ∈ l → Z.of_nat (length (splice1 l (indexOf l x))) = Z.of_nat (length l) - 1.
Proof.
  intros Hin. destruct (splice1_indexOf l x Hin) as (l1 & l2 & El & _ & ->).
  rewrite El at 1. rewrite !length_app. simpl. lia.
Qed.

Lemma splice1_subset l x y :
  x ∈ l → y ∈ splice1 l (indexOf l x) → y ∈ l.
Proof.
  intros Hin. destruct (splice1_indexOf l x Hin) as (l1 & l2 & El & _ & ->).
  rewrite El at 1. rewrite !elem_of_app, elem_of_cons. tauto.
Qed.

Lemma splice1_NoDup l x :
  x ∈ l → NoDup l → NoDup (splice1 l (indexOf l x)) ∧ x ∉ splice1 l (indexOf l x).
Proof.
  intros Hin. destruct (splice1_indexOf l x Hin) as (l1 & l2 & El & Hl1 & ->).
  rewrite El at 1. rewrite !NoDup_app, NoDup_cons.
  intros (N1 & Hd & Hx2 & N2). split.
  - split; [done|]. split; [|done].
    intros z Hz1 Hz2. apply (Hd z Hz1). by right.
  - rewrite elem_of_app. tauto.
Qed.

Lemma push_NoDup l x : x ∉ l → NoDup l → NoDup (push l x).
Proof.
  intros Hx N. unfold push. apply NoDup_app. repeat split; [done| |apply NoDup_singleton].
  intros z Hz Hz'. apply list_elem_of_singleton in Hz'. by subst.
Qed.

Lemma push_length l x : Z.of_nat (length (push l x)) = Z.of_nat (length l) + 1.
Proof. unfold push. rewrite length_app. simpl. lia. Qed.

Lemma push_elem l x y : y ∈ push l x ↔ y ∈ l ∨ y = x.
Proof. unfold push. by rewrite elem_of_app, list_elem_of_singleton. Qed.

End ArrayFacts.

Section MethodFacts.
Context {X : Type}.
Implicit Types (q : Content X) (p : ObjectId) (o : Op).

(** Open a method at a document given by its fields and split on the two
    tests it makes: membership ([includes]) and presence ([indexOf]). *)
Ltac open_method q :=
  destruct q as [i pf cat ti co tg lc uc sc shc lb db sb shb act ex];
  unfold call, addLike, removeLike, addDislike, removeDislike, addSave,
    removeSave, addShare, includes;
  cbn [likedBy dislikedBy savedBy sharedBy likeCount unlikeCount saveCount
       shareCount set_likedBy set_dislikedBy set_savedBy set_sharedBy
       set_likeCount set_unlikeCount set_saveCount set_shareCount negb];
  repeat (case_bool_decide;
    cbn [likedBy dislikedBy savedBy sharedBy likeCount unlikeCount saveCount
         shareCount set_likedBy set_dislikedBy set_savedBy set_sharedBy
         set_likeCount set_unlikeCount set_saveCount set_shareCount negb]).

Lemma call_duplicateFree q o : duplicateFree q → duplicateFree (call q o).
Proof.
  unfold duplicateFree. destruct o; open_method q; intros (N1 & N2 & N3 & N4);
    repeat match goal with
    | H : indexOf ?l ?x ≠ -1 |- _ =>
        rewrite indexOf_absent in H; apply dec_stable in H
    end;
    repeat split; try done;
    try (apply push_NoDup; done);
    try (apply splice1_NoDup; done).
Qed.

Lemma call_countersMatch q o : countersMatch q → countersMatch (call q o).
Proof.
  unfold countersMatch. destruct o; open_method q; intros (C1 & C2 & C3 & C4);
    repeat match goal with
    | H : indexOf ?l ?x ≠ -1 |- _ =>
        rewrite indexOf_absent in H; apply dec_stable in H
    end;
    rewrite ?push_length, ?splice1_length by done;
    repeat split; lia.
Qed.

Lemma call_exclusive q o : duplicateFree q → exclusive q → exclusive (call q o).
Proof.
  unfold duplicateFree, exclusive.
  destruct o; open_method q; intros (N1 & N2 & N3 & N4) Hex z [Hz1 Hz2];
    repeat match goal with
    | H : indexOf ?l ?x ≠ -1 |- _ =>
        rewrite indexOf_absent in H; apply dec_stable in H
    | H : indexOf ?l ?x = -1 |- _ => rewrite indexOf_absent in H
    end;
    repeat match goal with
    | H : _ ∈ push _ _ |- _ => apply push_elem in H as [H| ->]
    end;
    try (apply (Hex z); split; first [done | by eapply splice1_subset]);
    try done;
    try match goal with
    | Hin : ?x ∈ ?l, Hnd : NoDup ?l, Hsp : ?x ∈ splice1 ?l (indexOf ?l ?x) |- _ =>
        exact (proj2 (splice1_NoDup l x Hin Hnd) Hsp)
    end.
Qed.

Lemma call_engagementInvariant q o :
  engagementInvariant q → engagementInvariant (call q o).
Proof.
  intros (Hd & He & Hc). split; [|split].
  - by apply call_duplicateFree.
  - by apply call_exclusive.
  - by apply call_countersMatch.
Qed.

Lemma run_snoc q ops o : run q (ops ++ [o]) = call (run q ops) o.
Proof. unfold run. by rewrite foldl_app. Qed.

(** A document as the schema creates it: empty arrays, counters at 0. *)
Lemma new_document_invariant q :
  likedBy q = [] → dislikedBy q = [] → savedBy q = [] → sharedBy q = [] →
  likeCount q = 0 → unlikeCount q = 0 → saveCount q = 0 → shareCount q = 0 →
  engagementInvariant q.
Proof.
  intros L D S Sh LC UC SC ShC. unfold engagementInvariant, duplicateFree,
    exclusive, countersMatch.
  rewrite L, D, S, Sh, LC, UC, SC, ShC.
  split; [repeat split; apply NoDup_nil_2|].
  split; [intros p [Hp _]; by apply elem_of_nil in Hp | done].
Qed.

Lemma run_engagementInvariant q ops :
  engagementInvariant q → engagementInvariant (run q ops).
Proof.
  intros Hq. induction ops as [|o ops IH] using rev_ind; [done|].
  rewrite run_snoc. by apply call_engagementInvariant.
Qed.

(** A method that finds its work already done returns the document as is. *)
Lemma addLike_present q p : p ∈ likedBy q → addLike q p = q.
Proof. open_method q; intros Hin; first [done | contradiction]. Qed.

Lemma addDislike_present q p : p ∈ dislikedBy q → addDislike q p = q.
Proof. open_method q; intros Hin; first [done | contradiction]. Qed.

Lemma addSave_present q p : p ∈ savedBy q → addSave q p = q.
Proof. open_method q; intros Hin; first [done | contradiction]. Qed.

Lemma addShare_present q p : p ∈ sharedBy q → addShare q p = q.
Proof. open_method q; intros Hin; first [done | contradiction]. Qed.

Lemma removeLike_absent q p : p ∉ likedBy q → removeLike q p = q.
Proof. open_method q; intros Hin; first [done | by apply indexOf_absent in Hin]. Qed.

Lemma removeDislike_absent q p : p ∉ dislikedBy q → removeDislike q p = q.
Proof. open_method q; intros Hin; first [done | by apply indexOf_absent in Hin]. Qed.

Lemma removeSave_absent q p : p ∉ savedBy q → removeSave q p = q.
Proof. open_method q; intros Hin; first [done | by apply indexOf_absent in Hin]. Qed.

(** After an add, the profile is a member. *)
Lemma addLike_member q p : p ∈ likedBy (addLike q p).
Proof. open_method q; try done; apply push_elem; by right. Qed.

Lemma addDislike_member q p : p ∈ dislikedBy (addDislike q p).
Proof. open_method q; try done; apply push_elem; by right. Qed.

Lemma addSave_member q p : p ∈ savedBy (addSave q p).
Proof. open_method q; try done; apply push_elem; by right. Qed.

Lemma addShare_member q p : p ∈ sharedBy (addShare q p).
Proof. open_method q; try done; apply push_elem; by right. Qed.

(** No method touches [_id]. *)
Lemma call_id q o : _id (call q o) = _id q.
Proof. destruct o; by open_method q. Qed.

End MethodFacts.

End EngagementFacts.

(** ** Profile store and [save] *)

Module ProfileFacts.
Import ProfileModel ProfileService.

Section StoreFacts.
Context {stringOps : StringOps}.
Variable isURL : string → bool.
Implicit Types (db : Store) (p q : Profile) (u x : ObjectId).

Lemma filter_none (P : Profile → Prop) `{!∀ p, Decision (P p)} db :
  (∀ p, p ∈ db → ¬ P p) → filter P db = [].
Proof.
  induction db as [|q db IH]; intros Hno; [done|].
  rewrite filter_cons_False by (apply Hno; left).
  apply IH. intros p Hp. apply Hno. by right.
Qed.

Lemma validate_set_isDefault v p :
  validateProfile isURL (set_isDefault v p) = validateProfile isURL p.
Proof. by destruct p. Qed.

Lemma validate_construct oid body d :
  validateProfile isURL (construct oid body d) = validateProfile isURL (construct 0%N body false).
Proof. done. Qed.

Lemma unsetOthers_cons u x p db :
  unsetOthers u x (p :: db) =
  (if decide (userId p = u ∧ _id p ≠ x) then set_isDefault false p else p)
    :: unsetOthers u x db.
Proof. done. Qed.

Lemma unsetOthers_ids u x db : _id <$> unsetOthers u x db = _id <$> db.
Proof.
  induction db as [|p db IH]; [done|].
  rewrite unsetOthers_cons, !fmap_cons, IH. by case_decide.
Qed.

Lemma unsetOthers_valid u x db :
  Forall (λ p, validateProfile isURL p = None) db →
  Forall (λ p, validateProfile isURL p = None) (unsetOthers u x db).
Proof.
  induction 1 as [|p db Hp Hdb IH]; [constructor|].
  rewrite unsetOthers_cons. constructor; [|done].
  case_decide; [by rewrite validate_set_isDefault | done].
Qed.

(** What the hook's [updateMany] does to each document. *)
Lemma unsetOthers_elem u x db q :
  q ∈ unsetOthers u x db ↔
  ∃ p, p ∈ db ∧ q = if decide (userId p = u ∧ _id p ≠ x) then set_isDefault false p else p.
Proof. unfold unsetOthers, updateMany. cbn. rewrite list_elem_of_fmap. naive_solver. Qed.

Lemma unsetOthers_wf u x db : wfStore isURL db → wfStore isURL (unsetOthers u x db).
Proof.
  intros [Hn Hv]. split; [by rewrite unsetOthers_ids | by apply unsetOthers_valid].
Qed.

(** A filter that does not look at [isDefault] sees the same documents, up
    to that flag. *)
Lemma unsetOthers_filter_nil (P : Profile → Prop) `{!∀ p, Decision (P p)} u x db :
  (∀ p v, P (set_isDefault v p) ↔ P p) →
  filter P db = [] → filter P (unsetOthers u x db) = [].
Proof.
  intros HP Hnil. apply filter_none. intros q Hq HPq.
  apply unsetOthers_elem in Hq as (p & Hp & ->).
  apply (filter_nil_not_elem_of P db p Hnil); [|done].
  case_decide; [by apply HP in HPq | done].
Qed.

(** With unique [_id]s, writing the first match by id writes the only one. *)
Lemma updateFirst_by_id x (set : Profile → Profile) db :
  updateFirst (λ p, _id p = x) set db =
  match db with
  | [] => []
  | p :: db' => if decide (_id p = x) then set p :: db'
                else p :: updateFirst (λ p, _id p = x) set db'
  end.
Proof. by destruct db. Qed.

Lemma updateFirst_ids x q db :
  _id q = x → _id <$> updateFirst (λ p, _id p = x) (λ _, q) db = _id <$> db.
Proof.
  intros Hq. induction db as [|p db IH]; [done|].
  cbn. case_decide; cbn; [congruence | by rewrite IH].
Qed.

Lemma updateFirst_elem x q db r :
  r ∈ updateFirst (λ p, _id p = x) (λ _, q) db → r = q ∨ r ∈ db.
Proof.
  induction db as [|p db IH]; cbn; [by right|].
  case_decide; rewrite !elem_of_cons; naive_solver.
Qed.

Lemma updateFirst_absent x q db :
  x ∉ _id <$> db → updateFirst (λ p, _id p = x) (λ _, q) db = db.
Proof.
  induction db as [|p db IH]; [done|].
  rewrite fmap_cons, not_elem_of_cons. intros [Hne Hx].
  cbn. case_decide; [congruence | by rewrite IH].
Qed.

Lemma deleteFirst_elem x db r :
  r ∈ deleteFirst (λ p, _id p = x) db → r ∈ db.
Proof.
  induction db as [|p db IH]; cbn; [done|].
  case_decide; rewrite !elem_of_cons; naive_solver.
Qed.

Lemma deleteFirst_absent x db :
  x ∉ _id <$> db → deleteFirst (λ p, _id p = x) db = db.
Proof.
  induction db as [|p db IH]; [done|].
  rewrite fmap_cons, not_elem_of_cons. intros [Hne Hx].
  cbn. case_decide; [congruence | by rewrite IH].
Qed.

(** With unique [_id]s, [deleteOne] by id keeps exactly the other ids. *)
Lemma deleteFirst_filter x db :
  NoDup (_id <$> db) →
  deleteFirst (λ p, _id p = x) db = filter (λ p, _id p ≠ x) db.
Proof.
  induction db as [|p db IH]; [done|].
  rewrite fmap_cons, NoDup_cons. intros [Hp Hn]. cbn [deleteFirst].
  case_decide as E.
  - rewrite filter_cons_False by (intros Hne; by apply Hne).
    symmetry. clear IH. subst x.
    induction db as [|r db IH]; [done|].
    rewrite fmap_cons, not_elem_of_cons in Hp. destruct Hp as [Hr Hp].
    apply NoDup_cons in Hn as [_ Hn].
    rewrite filter_cons_True by congruence. f_equal. by apply IH.
  - rewrite filter_cons_True by done. f_equal. by apply IH.
Qed.

Lemma nameFree_filter u name x db :
  nameFree u name db →
  filter (λ p, profileName p = name ∧ userId p = u ∧ _id p ≠ x) db = [].
Proof. intros Hfree. apply filter_none. intros p Hp (Hn & Hu & _). by apply (Hfree p Hp). Qed.

Lemma insertOne_fresh p db :
  _id p ∉ _id <$> db → insertOne p db = (inr tt, db ++ [p]).
Proof.
  intros Hfresh. unfold insertOne. rewrite bool_decide_eq_false_2; [done|].
  rewrite Exists_exists. intros (q & Hq & Hid). apply Hfresh.
  rewrite <- Hid. by apply list_elem_of_fmap_2.
Qed.

Lemma bind_inr {S A B} (m : Async S A) (k : A → Async S B) s a s' :
  m s = (inr a, s') → bind m k s = k a s'.
Proof. unfold bind. by intros ->. Qed.

Lemma bind_inl {S A B} (m : Async S A) (k : A → Async S B) s e s' :
  m s = (inl e, s') → bind m k s = (inl e, s').
Proof. unfold bind. by intros ->. Qed.

(** The first hook never rejects. *)
Lemma preSave_default_run d db :
  preSave_default d db
  = (inr tt, if isModified_isDefault d && isDefault (this d)
             then unsetOthers (userId (this d)) (_id (this d)) db else db).
Proof. unfold preSave_default. by destruct (_ && _). Qed.

(** The second hook passes when the name is unchanged or free. *)
Lemma preSave_profileName_unmodified d db :
  isModified_profileName d = false → preSave_profileName d db = (inr tt, db).
Proof. unfold preSave_profileName. by intros ->. Qed.

Lemma preSave_profileName_free d db :
  filter (λ p, profileName p = profileName (this d) ∧
               userId p = userId (this d) ∧ _id p ≠ _id (this d)) db = [] →
  preSave_profileName d db = (inr tt, db).
Proof.
  intros Hnil. unfold preSave_profileName.
  destruct (isModified_profileName d); [|done].
  unfold bind, findOne. by rewrite Hnil.
Qed.

(** [save] of a new, valid document whose name is free and whose [_id] is
    fresh: siblings lose [isDefault] when the new document has it, and the
    document is appended. *)
Lemma save_new p db :
  validateProfile isURL p = None →
  _id p ∉ _id <$> db →
  nameFree (userId p) (profileName p) db →
  save isURL (mkDocument true p p) db
  = (inr p, (if isDefault p then unsetOthers (userId p) (_id p) db else db) ++ [p]).
Proof.
  intros Hv Hfresh Hfree.
  unfold save. cbn [isNew this loaded]. rewrite Hv.
  erewrite bind_inr by apply preSave_default_run.
  cbn [isModified_isDefault isNew this loaded orb andb].
  erewrite bind_inr; cycle 1.
  { apply preSave_profileName_free. cbn [this].
    destruct (isDefault p).
    - apply unsetOthers_filter_nil; [by intros [] ? | by apply nameFree_filter].
    - by apply nameFree_filter. }
  erewrite bind_inr; cycle 1.
  { apply insertOne_fresh. destruct (isDefault p); [by rewrite unsetOthers_ids | done]. }
  done.
Qed.

(** [save] of a loaded document whose [profileName] was not touched. *)
Lemma save_loaded_same_name p0 p db :
  validateProfile isURL p = None →
  profileName p0 = profileName p →
  save isURL (mkDocument false p0 p) db
  = (inr p,
     updateFirst (λ q, _id q = _id p) (λ _, p)
       (if bool_decide (isDefault p0 ≠ isDefault p) && isDefault p
        then unsetOthers (userId p) (_id p) db else db)).
Proof.
  intros Hv Hname.
  unfold save. cbn [isNew this loaded]. rewrite Hv.
  erewrite bind_inr by apply preSave_default_run.
  erewrite bind_inr; cycle 1.
  { apply preSave_profileName_unmodified.
    unfold isModified_profileName. cbn [isNew this loaded orb].
    apply bool_decide_eq_false_2. intros Hne. by apply Hne. }
  done.
Qed.

Lemma isProfileNameTaken_free name u db :
  nameFree u (trim name) db → isProfileNameTaken name u None db = (inr false, db).
Proof.
  intros Hfree. unfold isProfileNameTaken, bind, findOne, ret.
  rewrite filter_none; [done|].
  intros p Hp (Hn & Hu & _). by apply (Hfree p Hp).
Qed.

Lemma isProfileNameTaken_taken name u db p :
  p ∈ db → userId p = u → profileName p = trim name →
  isProfileNameTaken name u None db = (inr true, db).
Proof.
  intros Hp Hu Hn. unfold isProfileNameTaken, bind, findOne, ret.
  destruct (filter _ db) as [|q l] eqn:E; [|done].
  exfalso. eapply (filter_nil_not_elem_of _ db p E); [|done]. done.
Qed.

(** The result of a create whose name is free, whose body is valid and whose
    [_id] is fresh. *)
Lemma createProfile_ok oid body db :
  nameFree (b_userId body) (trim (b_profileName body)) db →
  validBody isURL body →
  oid ∉ _id <$> db →
  let isDefault :=
    bool_decide (profilesOf (b_userId body) db = []) || default false (b_isDefault body) in
  let profile := construct oid body isDefault in
  createProfile isURL oid body db
  = (inr profile,
     (if isDefault then unsetOthers (b_userId body) oid db else db) ++ [profile]).
Proof.
  intros Hfree Hvalid Hfresh isDefault0 profile.
  unfold createProfile, bind at 1. rewrite isProfileNameTaken_free by done.
  unfold bind, find, Profile_create.
  assert (Hd : bool_decide (length (filter (λ p, userId p = b_userId body) db) = 0%nat)
               || default false (b_isDefault body) || false = isDefault0).
  { unfold isDefault0, profilesOf. rewrite orb_false_r. f_equal.
    apply bool_decide_ext. by rewrite length_zero_iff_nil. }
  rewrite Hd. fold profile.
  rewrite save_new; [done| | |]; try done.
Qed.




Lemma filter_ids_NoDup (P : Profile → Prop) `{!∀ p, Decision (P p)} db :
  NoDup (_id <$> db) → NoDup (_id <$> filter P db).
Proof.
  intros Hn. eapply sublist_NoDup; [exact Hn|]. apply fmap_sublist, sublist_filter.
Qed.

(** [findById] on a collection with unique [_id]s. *)
Lemma getProfileById_found db p :
  NoDup (_id <$> db) → p ∈ db → getProfileById (_id p) db = (inr (Some p), db).
Proof.
  intros Hn Hp. unfold getProfileById, findOne. f_equal. f_equal.
  induction db as [|q db IH]; [by apply elem_of_nil in Hp|].
  rewrite fmap_cons, NoDup_cons in Hn. destruct Hn as [Hq Hn].
  apply elem_of_cons in Hp as [->|Hp].
  - by rewrite filter_cons_True.
  - rewrite filter_cons_False; [by apply IH|].
    intros Heq. apply Hq. rewrite Heq. by apply list_elem_of_fmap_2.
Qed.

Lemma getProfileById_missing db x :
  x ∉ _id <$> db → getProfileById x db = (inr None, db).
Proof.
  intros Hx. unfold getProfileById, findOne. rewrite filter_none; [done|].
  intros p Hp <-. apply Hx. by apply list_elem_of_fmap_2.
Qed.

(** With unique [_id]s, the write-back of [save] replaces exactly the
    document with that [_id]. *)
Lemma updateFirst_fmap x q db :
  NoDup (_id <$> db) →
  updateFirst (λ p, _id p = x) (λ _, q) db
  = (λ r, if decide (_id r = x) then q else r) <$> db.
Proof.
  induction db as [|r db IH]; [done|].
  rewrite fmap_cons, NoDup_cons. intros [Hr Hn].
  cbn [updateFirst]. rewrite fmap_cons. case_decide as E.
  - f_equal. rewrite <- (list_fmap_id db) at 1. apply list_fmap_ext.
    intros i r' Hr'. rewrite decide_False; [done|].
    intros Heq. apply Hr. rewrite E, <- Heq.
    apply list_elem_of_fmap_2. by eapply list_elem_of_lookup_2.
  - f_equal. by apply IH.
Qed.

(** A property that at most the document with id [x] can have, and that
    some stored document has, holds of exactly one stored document. *)
Lemma filter_unique_by_id (P : Profile → Prop) `{!∀ p, Decision (P p)} x db :
  NoDup (_id <$> db) →
  (∀ q, q ∈ db → P q → _id q = x) →
  (∃ q, q ∈ db ∧ P q) →
  length (filter P db) = 1%nat.
Proof.
  intros Hn Hall (q & Hq & HPq).
  induction db as [|r db IH]; [by apply elem_of_nil in Hq|].
  rewrite fmap_cons, NoDup_cons in Hn. destruct Hn as [Hr Hn].
  destruct (decide (P r)) as [HPr|HPr].
  - rewrite filter_cons_True by done. cbn. f_equal.
    rewrite filter_none; [done|]. intros r' Hr' HPr'. apply Hr.
    rewrite (Hall r) by (done || by left).
    rewrite <- (Hall r') by (done || by right).
    by apply list_elem_of_fmap_2.
  - rewrite filter_cons_False by done.
    apply elem_of_cons in Hq as [->|Hq]; [done|].
    apply IH; [done| |done]. intros r' Hr'. apply Hall. by right.
Qed.

Lemma promoteSibling_ids p db : _id <$> promoteSibling p db = _id <$> db.
Proof.
  unfold promoteSibling. destruct (isDefault p); [|done].
  destruct (head _) as [o|]; [|done].
  rewrite updateFirst_ids by done. case_bool_decide; [apply unsetOthers_ids | done].
Qed.

Lemma deleteProfileById_found db p :
  wfStore isURL db → p ∈ db →
  deleteProfileById isURL (_id p) db
  = (inr p, filter (λ q, _id q ≠ _id p) (promoteSibling p db)).
Proof.
  intros [Hn Hv] Hp. unfold deleteProfileById.
  erewrite bind_inr by (by apply getProfileById_found).
  assert (Hstep : ∀ (m : Async Store unit) db1,
    m db = (inr tt, db1) → _id <$> db1 = _id <$> db →
    bind m (λ _, await deleted := deleteOne (λ q, _id q = _id p) in ret p) db
    = (inr p, filter (λ q, _id q ≠ _id p) db1)).
  { intros m db1 Hm Hids. erewrite bind_inr by exact Hm.
    unfold bind, deleteOne, ret. rewrite deleteFirst_filter; [done|]. by rewrite Hids. }
  apply Hstep; [|apply promoteSibling_ids].
  unfold promoteSibling. destruct (isDefault p); [|done].
  unfold bind at 1, findOne.
  destruct (head _) as [o|] eqn:Ho; [|done].
  assert (Hof : o ∈ db).
  { apply head_Some_elem_of in Ho. by apply list_elem_of_filter in Ho as [_ ?]. }
  erewrite bind_inr; [reflexivity|].
  rewrite save_loaded_same_name; [|rewrite validate_set_isDefault|by destruct o].
  - cbn [isDefault set_isDefault userId _id]. by rewrite andb_true_r.
  - rewrite Forall_forall in Hv. by apply Hv.
Qed.

Lemma save_invalid d db m :
  validateProfile isURL (this d) = Some m →
  save isURL d db = (inl (ValidationError m), db).
Proof. intros Hv. unfold save. by rewrite Hv. Qed.

(** [save] of a loaded document whose new name, if it changed, is free. *)
Lemma save_loaded p0 p db :
  validateProfile isURL p = None →
  profileName p0 = profileName p ∨
    filter (λ q, profileName q = profileName p ∧ userId q = userId p ∧ _id q ≠ _id p) db = [] →
  save isURL (mkDocument false p0 p) db
  = (inr p,
     updateFirst (λ q, _id q = _id p) (λ _, p)
       (if bool_decide (isDefault p0 ≠ isDefault p) && isDefault p
        then unsetOthers (userId p) (_id p) db else db)).
Proof.
  intros Hv [Hname|Hfree]; [by apply save_loaded_same_name|].
  unfold save. cbn [isNew this loaded]. rewrite Hv.
  erewrite bind_inr by apply preSave_default_run.
  cbn [isModified_isDefault isNew this loaded orb].
  erewrite bind_inr; cycle 1.
  { apply preSave_profileName_free. cbn [this].
    destruct (_ && _); [|done].
    apply unsetOthers_filter_nil; [by intros [] ? | done]. }
  done.
Qed.

(** With unique [_id]s, [updateOne] by id rewrites exactly that document. *)
Lemma updateFirst_fmap_gen x (g : Profile → Profile) db :
  NoDup (_id <$> db) →
  updateFirst (λ p, _id p = x) g db
  = (λ r, if decide (_id r = x) then g r else r) <$> db.
Proof.
  induction db as [|r db IH]; [done|].
  rewrite fmap_cons, NoDup_cons. intros [Hr Hn].
  cbn [updateFirst]. rewrite fmap_cons. case_decide as E.
  - f_equal. rewrite <- (list_fmap_id db) at 1. apply list_fmap_ext.
    intros i r' Hr'. rewrite decide_False; [done|].
    intros Heq. apply Hr. rewrite E, <- Heq.
    apply list_elem_of_fmap_2. by eapply list_elem_of_lookup_2.
  - f_equal. by apply IH.
Qed.

(** [length (defaultsOf u db) = 1], read through the documents. *)
Lemma defaultsOf_one u db :
  NoDup (_id <$> db) →
  length (defaultsOf u db) = 1%nat ↔ hasUniqueDefault u db.
Proof.
  intros Hn. split.
  - intros Hlen. unfold defaultsOf in Hlen.
    destruct (filter _ db) as [|d [|d' l]] eqn:E; cbn in Hlen; try lia.
    assert (Hd : d ∈ filter (λ p, userId p = u ∧ isDefault p = true) db)
      by (rewrite E; by left).
    apply list_elem_of_filter in Hd as [[Hdu Hdd] Hd].
    exists d. split; [done|]. split; [done|]. split; [done|].
    intros q Hq Hqu Hqd.
    assert (Hq' : q ∈ filter (λ p, userId p = u ∧ isDefault p = true) db)
      by (by apply list_elem_of_filter).
    rewrite E in Hq'. apply list_elem_of_singleton in Hq'. by subst q.
  - intros (d & Hd & Hdu & Hdd & Huniq).
    apply (filter_unique_by_id _ (_id d)); [done| |by exists d].
    intros q Hq [Hqu Hqd]. by apply Huniq.
Qed.

Lemma profilesOf_nonempty u db :
  profilesOf u db ≠ [] ↔ ∃ p, p ∈ db ∧ userId p = u.
Proof.
  unfold profilesOf. split.
  - intros Hne. destruct (filter _ db) as [|p l] eqn:E; [done|].
    assert (Hp : p ∈ filter (λ p, userId p = u) db) by (rewrite E; by left).
    apply list_elem_of_filter in Hp as [? ?]. by exists p.
  - intros (p & Hp & Hu) Hnil. by eapply (filter_nil_not_elem_of _ db p Hnil).
Qed.

(** [singleDefault], read through the documents. *)
Lemma singleDefault_alt db :
  NoDup (_id <$> db) →
  singleDefault db ↔ ∀ u, (∃ p, p ∈ db ∧ userId p = u) → hasUniqueDefault u db.
Proof.
  intros Hn. unfold singleDefault. split; intros H u Hu.
  - apply defaultsOf_one; [done|]. apply H. by apply profilesOf_nonempty.
  - apply defaultsOf_one; [done|]. apply H. by apply profilesOf_nonempty.
Qed.

(** An account whose documents are the same in two stores has a unique
    default in one iff it has one in the other. *)
Lemma hasUniqueDefault_same u db db' :
  (∀ q, userId q = u → q ∈ db' ↔ q ∈ db) →
  hasUniqueDefault u db → hasUniqueDefault u db'.
Proof.
  intros Hsame (d & Hd & Hdu & Hdd & Huniq).
  exists d. split; [by apply Hsame|]. split; [done|]. split; [done|].
  intros q Hq Hqu Hqd. apply Huniq; [by apply Hsame | done | done].
Qed.

(** The hook's [updateMany] on account [a] leaves other accounts alone. *)
Lemma unsetOthers_other_account a x db q :
  userId q ≠ a → q ∈ unsetOthers a x db ↔ q ∈ db.
Proof.
  intros Hq. rewrite unsetOthers_elem. split.
  - intros (p & Hp & ->). case_decide as E; [|done].
    destruct E as [E _]. by destruct p.
  - intros Hin. exists q. split; [done|].
    rewrite decide_False; [done|]. intros [E _]. by apply Hq.
Qed.

End StoreFacts.

End ProfileFacts.

(** ** The single-default invariant, call by call *)

Module DefaultInvariant.
Import ProfileModel ProfileService ProfileFacts.

Section Preservation.
Context {stringOps : StringOps}.
Variable isURL : string → bool.
Implicit Types (db : Store) (p q : Profile) (u x : ObjectId).

Lemma id_inj db p q :
  NoDup (_id <$> db) → p ∈ db → q ∈ db → _id p = _id q → p = q.
Proof.
  induction db as [|r db IH]; intros Hn Hp Hq Hid; [by apply elem_of_nil in Hp|].
  rewrite fmap_cons, NoDup_cons in Hn. destruct Hn as [Hr Hn].
  apply elem_of_cons in Hp as [->|Hp]; apply elem_of_cons in Hq as [->|Hq].
  - done.
  - exfalso. apply Hr. rewrite Hid. by apply list_elem_of_fmap_2.
  - exfalso. apply Hr. rewrite <- Hid. by apply list_elem_of_fmap_2.
  - by apply IH.
Qed.

Lemma fmap_keeps_ids (f : Profile → Profile) db :
  (∀ r, _id (f r) = _id r) → _id <$> (f <$> db) = _id <$> db.
Proof.
  intros Hf. rewrite <- list_fmap_compose. apply list_fmap_ext. intros i r _. apply Hf.
Qed.

(** A create either leaves the collection as it was (name taken, or body
    rejected by the schema) or goes through as [createProfile_ok] says. *)
Lemma createProfile_cases oid body db :
  oid ∉ _id <$> db →
  (createProfile isURL oid body db).2 = db ∨
  (nameFree (b_userId body) (trim (b_profileName body)) db ∧ validBody isURL body).
Proof.
  intros Hfresh.
  destruct (filter (λ p, profileName p = trim (b_profileName body) ∧
                         userId p = b_userId body ∧ Some (_id p) ≠ None) db)
    as [|p0 l] eqn:E.
  - assert (Hfree : nameFree (b_userId body) (trim (b_profileName body)) db).
    { intros p Hp [Hu Hn]. by eapply (filter_nil_not_elem_of _ db p E). }
    destruct (validateProfile isURL (construct 0%N body false)) as [m|] eqn:Hv.
    + left. unfold createProfile.
      erewrite bind_inr by (by apply isProfileNameTaken_free).
      unfold bind, find, Profile_create.
      erewrite save_invalid; [done|]. cbn [this]. exact Hv.
    + right. by split.
  - assert (Hp0 : p0 ∈ filter (λ p, profileName p = trim (b_profileName body) ∧
                                    userId p = b_userId body ∧ Some (_id p) ≠ None) db)
      by (rewrite E; by left).
    apply list_elem_of_filter in Hp0 as [(Hn0 & Hu0 & _) Hp0].
    left. unfold createProfile.
    by erewrite bind_inr by (by eapply isProfileNameTaken_taken).
Qed.

Lemma create_preserves oid body db :
  wfStore isURL db → singleDefault db → oid ∉ _id <$> db →
  wfStore isURL (createProfile isURL oid body db).2 ∧
  singleDefault (createProfile isURL oid body db).2.
Proof.
  intros Hwf Hsd Hfresh.
  destruct (createProfile_cases oid body db Hfresh) as [->|[Hfree Hvalid]]; [done|].
  pose proof (createProfile_ok isURL oid body db Hfree Hvalid Hfresh) as Hok.
  cbv zeta in Hok. rewrite Hok. cbn [snd]. clear Hok.
  destruct Hwf as [Hn Hv].
  set (a := b_userId body).
  set (isD := bool_decide (profilesOf a db = []) || default false (b_isDefault body)).
  set (new := construct oid body isD).
  set (D := if isD then unsetOthers a oid db else db).
  assert (HDids : _id <$> D = _id <$> db)
    by (unfold D; destruct isD; [apply unsetOthers_ids | done]).
  assert (Hn' : NoDup (_id <$> (D ++ [new]))).
  { rewrite fmap_app, HDids. apply NoDup_app. split; [done|]. split.
    - intros i Hi Hi'. apply list_elem_of_singleton in Hi'. subst i. by apply Hfresh.
    - apply NoDup_singleton. }
  split.
  { split; [done|]. apply Forall_app. split.
    - unfold D. destruct isD; [by apply unsetOthers_valid | done].
    - constructor; [exact Hvalid|constructor]. }
  apply (singleDefault_alt _ Hn').
  pose proof (proj1 (singleDefault_alt db Hn) Hsd) as Hsd'. clear Hsd. rename Hsd' into Hsd.
  intros u (p & Hp & Hpu).
  destruct (decide (u = a)) as [->|Hua].
  - destruct isD eqn:HisD.
    + exists new. split; [apply elem_of_app; right; by left|].
      split; [done|]. split; [done|].
      intros q Hq Hqu Hqd. apply elem_of_app in Hq as [Hq|Hq].
      * exfalso. unfold D in Hq. apply unsetOthers_elem in Hq as (r & Hr & ->).
        case_decide as E; [discriminate Hqd|]. apply E. split; [done|].
        intros <-. apply Hfresh. by apply list_elem_of_fmap_2.
      * apply list_elem_of_singleton in Hq. by subst q.
    + unfold isD in HisD. apply orb_false_elim in HisD as [Hfirst _].
      apply bool_decide_eq_false_1, profilesOf_nonempty in Hfirst.
      destruct (Hsd a Hfirst) as (d & Hd & Hdu & Hdd & Huniq).
      exists d. split; [apply elem_of_app; by left|]. split; [done|]. split; [done|].
      intros q Hq Hqu Hqd. apply elem_of_app in Hq as [Hq|Hq]; [by apply Huniq|].
      apply list_elem_of_singleton in Hq. subst q. discriminate Hqd.
  - assert (Hsame : ∀ q, userId q = u → q ∈ D ++ [new] ↔ q ∈ db).
    { intros q Hqu. rewrite elem_of_app, list_elem_of_singleton.
      assert (q ≠ new) by (intros ->; by apply Hua).
      assert (q ∈ D ↔ q ∈ db) as ->; [|tauto].
      unfold D. destruct isD; [|done].
      apply unsetOthers_other_account. congruence. }
    apply (hasUniqueDefault_same u db); [done|].
    apply Hsd. exists p. split; [by apply Hsame | done].
Qed.

(** A store in which the document with id [x] has been rewritten to a
    default [d] of account [a] and every other document of [a] is not a
    default, while the other accounts are as in [db]: the invariant carries
    over. *)
Lemma singleDefault_promoted a d db db' :
  NoDup (_id <$> db) → NoDup (_id <$> db') →
  singleDefault db →
  d ∈ db' → userId d = a → isDefault d = true →
  (∀ q, q ∈ db' → userId q = a → isDefault q = true → _id q = _id d) →
  (∀ u q, u ≠ a → userId q = u → q ∈ db' ↔ q ∈ db) →
  singleDefault db'.
Proof.
  intros Hn Hn' Hsd Hd Hda Hdd Huniq Hsame.
  apply (singleDefault_alt _ Hn').
  pose proof (proj1 (singleDefault_alt db Hn) Hsd) as Hsd'.
  intros u (p & Hp & Hpu). destruct (decide (u = a)) as [->|Hua].
  - by exists d.
  - apply (hasUniqueDefault_same u db); [intros q Hq; exact (Hsame u q Hua Hq)|].
    apply Hsd'. exists p. split; [by apply (Hsame u p Hua Hpu) | done].
Qed.

Lemma setDefaultProfile_cases u x db :
  NoDup (_id <$> db) →
  (setDefaultProfile u x db).2 = db ∨
  ∃ p, p ∈ db ∧ _id p = x ∧ userId p = u ∧
       (setDefaultProfile u x db).2
       = (λ r, if decide (_id r = x) then set_isDefault true r else r)
           <$> unsetOthers u x db.
Proof.
  intros Hn.
  unfold setDefaultProfile.
  destruct (head (filter (λ p : Profile, _id p = x ∧ userId p = u) db)) as [p|] eqn:Hp.
  - erewrite bind_inr by (unfold findOne; by rewrite Hp).
    apply head_Some_elem_of, list_elem_of_filter in Hp as [[Hpi Hpu] Hp].
    right. exists p. split; [done|]. split; [done|]. split; [done|].
    unfold bind, updateOne, getProfileById, findOne.
    change (updateMany _ _ db) with (inr (A := Error) tt, unsetOthers u x db).
    cbn [snd]. apply updateFirst_fmap_gen. by rewrite unsetOthers_ids.
  - left. by erewrite bind_inr by (unfold findOne; by rewrite Hp).
Qed.

Lemma setDefault_preserves u x db :
  wfStore isURL db → singleDefault db →
  wfStore isURL (setDefaultProfile u x db).2 ∧
  singleDefault (setDefaultProfile u x db).2.
Proof.
  intros Hwf Hsd. pose proof Hwf as [Hn Hv].
  destruct (setDefaultProfile_cases u x db Hn) as [->|(p & Hp & Hpi & Hpu & ->)]; [done|].
  set (f := λ r, if decide (_id r = x) then set_isDefault true r else r).
  assert (Hids : _id <$> (f <$> unsetOthers u x db) = _id <$> db).
  { rewrite fmap_keeps_ids; [apply unsetOthers_ids|].
    intros r. unfold f. by case_decide. }
  assert (Hn' : NoDup (_id <$> (f <$> unsetOthers u x db))) by (by rewrite Hids).
  split.
  { split; [done|]. apply Forall_fmap.
    eapply Forall_impl; [by apply unsetOthers_valid|].
    intros r Hr. cbn. unfold f. case_decide; [by rewrite validate_set_isDefault | done]. }
  apply (singleDefault_promoted u (set_isDefault true p) db); try done.
  - apply list_elem_of_fmap. exists p. split.
    + unfold f. by rewrite decide_True.
    + apply unsetOthers_elem. exists p. split; [done|].
      rewrite decide_False; [done|]. intros [_ H']. by apply H'.
  - intros q Hq Hqu Hqd.
    apply list_elem_of_fmap in Hq as (r & -> & Hr). unfold f in *.
    case_decide as E; [by rewrite <- Hpi in E|].
    apply unsetOthers_elem in Hr as (r0 & Hr0 & ->).
    case_decide as E'; [discriminate Hqd|].
    exfalso. apply E'. by split.
  - intros u' q Hu' Hqu. split.
    + intros Hq. apply list_elem_of_fmap in Hq as (r & -> & Hr). unfold f in *.
      case_decide as E.
      * exfalso. apply unsetOthers_elem in Hr as (r0 & Hr0 & ->).
        assert (r0 = p) as ->.
        { apply (id_inj db); [done..|]. rewrite Hpi, <- E. by case_decide. }
        apply Hu'. rewrite <- Hqu. by case_decide.
      * apply unsetOthers_other_account in Hr; [done | congruence].
    + intros Hq. apply list_elem_of_fmap. exists q. split.
      * unfold f. rewrite decide_False; [done|]. intros E.
        assert (q = p) as -> by (apply (id_inj db); [done..|congruence]).
        congruence.
      * apply unsetOthers_other_account; [congruence | done].
Qed.

(** Taking out a profile that is not a default, or that is its account's
    last profile, keeps the invariant. *)
Lemma singleDefault_removed p db :
  NoDup (_id <$> db) → singleDefault db → p ∈ db →
  isDefault p = false ∨ (∀ q, q ∈ db → userId q = userId p → _id q = _id p) →
  singleDefault (filter (λ q, _id q ≠ _id p) db).
Proof.
  intros Hn Hsd Hp Hcase.
  apply singleDefault_alt; [by apply filter_ids_NoDup|].
  pose proof (proj1 (singleDefault_alt db Hn) Hsd) as Hsd'.
  intros u (q & Hq & Hqu). apply list_elem_of_filter in Hq as [Hqi Hq].
  destruct (Hsd' u) as (d & Hd & Hdu & Hdd & Huniq); [by exists q|].
  assert (Hdp : _id d ≠ _id p).
  { intros E. assert (d = p) as -> by (by apply (id_inj db)).
    destruct Hcase as [Hnd|Hlast]; [congruence|].
    apply Hqi. apply Hlast; [done | congruence]. }
  exists d. split; [by apply list_elem_of_filter|]. split; [done|]. split; [done|].
  intros q' Hq' Hqu' Hqd'. apply list_elem_of_filter in Hq' as [_ Hq'].
  by apply Huniq.
Qed.

Lemma promoteSibling_valid p db :
  Forall (λ q, validateProfile isURL q = None) db →
  Forall (λ q, validateProfile isURL q = None) (promoteSibling p db).
Proof.
  intros Hv. unfold promoteSibling. destruct (isDefault p); [|done].
  destruct (head _) as [o|] eqn:Ho; [|done].
  apply head_Some_elem_of, list_elem_of_filter in Ho as [_ Ho].
  apply Forall_forall. intros r Hr.
  apply updateFirst_elem in Hr as [->|Hr].
  - rewrite validate_set_isDefault. rewrite Forall_forall in Hv. by apply Hv.
  - revert r Hr. apply Forall_forall.
    case_bool_decide; [by apply unsetOthers_valid | done].
Qed.

Lemma delete_preserves x db :
  wfStore isURL db → singleDefault db →
  wfStore isURL (deleteProfileById isURL x db).2 ∧
  singleDefault (deleteProfileById isURL x db).2.
Proof.
  intros Hwf Hsd. pose proof Hwf as [Hn Hv].
  destruct (decide (x ∈ _id <$> db)) as [Hin|Hout]; cycle 1.
  { unfold deleteProfileById.
    by erewrite bind_inr by (by apply getProfileById_missing). }
  apply list_elem_of_fmap in Hin as (p & -> & Hp).
  rewrite deleteProfileById_found by done. cbn [snd].
  assert (Hn' : NoDup (_id <$> filter (λ q, _id q ≠ _id p) (promoteSibling p db))).
  { apply filter_ids_NoDup. by rewrite promoteSibling_ids. }
  split.
  { split; [done|]. apply Forall_forall. intros r Hr.
    apply list_elem_of_filter in Hr as [_ Hr]. revert r Hr. apply Forall_forall.
    by apply promoteSibling_valid. }
  pose proof (proj1 (singleDefault_alt db Hn) Hsd) as Hsd'.
  unfold promoteSibling in *.
  destruct (isDefault p) eqn:Hpd; [|apply singleDefault_removed; auto].
  destruct (head _) as [o|] eqn:Ho; cycle 1.
  { apply head_None in Ho. apply singleDefault_removed; [done..|]. right.
    intros q Hq Hqu. destruct (decide (_id q = _id p)) as [|Hne]; [done|].
    exfalso. by eapply (filter_nil_not_elem_of _ db q Ho). }
  apply head_Some_elem_of, list_elem_of_filter in Ho as [[Hou Hoi] Ho].
  assert (Hod : isDefault o = false).
  { destruct (isDefault o) eqn:E; [|done]. exfalso.
    destruct (Hsd' (userId p)) as (d & Hd & Hdu & Hdd & Huniq); [by exists p|].
    apply Hoi. rewrite (Huniq o), (Huniq p); done. }
  rewrite bool_decide_eq_true_2 in * by (rewrite Hod; discriminate).
  rewrite updateFirst_fmap in * by (by rewrite unsetOthers_ids).
  apply (singleDefault_promoted (userId p) (set_isDefault true o) db); try done.
  - apply list_elem_of_filter. split; [done|].
    apply list_elem_of_fmap. exists o. split.
    + by rewrite decide_True.
    + apply unsetOthers_elem. exists o. split; [done|].
      rewrite decide_False; [done|]. intros [_ H']. by apply H'.
  - intros q Hq Hqu Hqd.
    apply list_elem_of_filter in Hq as [Hqi Hq].
    apply list_elem_of_fmap in Hq as (r & -> & Hr).
    case_decide as E; [done|].
    apply unsetOthers_elem in Hr as (r0 & Hr0 & ->).
    case_decide as E'; [discriminate Hqd|].
    exfalso. apply E'. split; [congruence | exact E].
  - intros u' q Hu' Hqu. rewrite list_elem_of_filter, list_elem_of_fmap. split.
    + intros [Hqi (r & -> & Hr)]. case_decide as E.
      * exfalso. apply Hu'. by rewrite <- Hqu.
      * apply unsetOthers_other_account in Hr; [done | congruence].
    + intros Hq.
      assert (_id q ≠ _id p).
      { intros E. assert (q = p) as -> by (by apply (id_inj db)). congruence. }
      assert (_id q ≠ _id o).
      { intros E. assert (q = o) as -> by (by apply (id_inj db)). congruence. }
      split; [done|]. exists q. split; [by rewrite decide_False|].
      apply unsetOthers_other_account; [congruence | done].
Qed.

(** Rewriting a document without touching its id, account or flag keeps
    the invariant. *)
Lemma singleDefault_replaced p p' db :
  NoDup (_id <$> db) → singleDefault db → p ∈ db →
  _id p' = _id p → userId p' = userId p → isDefault p' = isDefault p →
  singleDefault ((λ r, if decide (_id r = _id p) then p' else r) <$> db).
Proof.
  intros Hn Hsd Hp Hid Hu Hd.
  set (f := λ r, if decide (_id r = _id p) then p' else r).
  assert (Hfid : ∀ r, _id (f r) = _id r) by (intros r; unfold f; case_decide; congruence).
  assert (Hfp : ∀ r, r ∈ db → userId (f r) = userId r ∧ isDefault (f r) = isDefault r).
  { intros r Hr. unfold f. case_decide as E; [|done].
    assert (r = p) as -> by (by apply (id_inj db)). done. }
  apply singleDefault_alt; [by rewrite fmap_keeps_ids|].
  pose proof (proj1 (singleDefault_alt db Hn) Hsd) as Hsd'.
  intros u (q & Hq & Hqu). apply list_elem_of_fmap in Hq as (r & -> & Hr).
  destruct (Hfp r Hr) as [Hru _].
  destruct (Hsd' u) as (d & Hdin & Hdu & Hdd & Huniq); [exists r; split; congruence|].
  destruct (Hfp d Hdin) as [Hfdu Hfdd].
  exists (f d). split; [by apply list_elem_of_fmap_2|].
  split; [congruence|]. split; [congruence|].
  intros q' Hq' Hqu' Hqd'. apply list_elem_of_fmap in Hq' as (r' & -> & Hr').
  destruct (Hfp r' Hr') as [Hru' Hrd'].
  rewrite !Hfid. apply Huniq; congruence.
Qed.

(** An update either leaves the collection as it was (name taken, or
    document rejected by the schema) or writes the assigned document back,
    after the hook has unset the siblings if the flag went to true. *)
Lemma updateProfileById_cases p body db :
  wfStore isURL db → p ∈ db →
  let p' := Object_assign p body in
  (updateProfileById isURL (_id p) body db).2 = db ∨
  (validateProfile isURL p' = None ∧
   (updateProfileById isURL (_id p) body db).2
   = (λ r, if decide (_id r = _id p) then p' else r)
       <$> (if bool_decide (isDefault p ≠ isDefault p') && isDefault p'
            then unsetOthers (userId p) (_id p) db else db)).
Proof.
  intros [Hn Hv] Hp p'.
  assert (Hsave :
    profileName p = profileName p' ∨
      filter (λ q, profileName q = profileName p' ∧ userId q = userId p' ∧
                   _id q ≠ _id p') db = [] →
    (save isURL (mkDocument false p p') db).2 = db ∨
    (validateProfile isURL p' = None ∧
     (save isURL (mkDocument false p p') db).2
     = (λ r, if decide (_id r = _id p) then p' else r)
         <$> (if bool_decide (isDefault p ≠ isDefault p') && isDefault p'
              then unsetOthers (userId p) (_id p) db else db))).
  { intros Hname. destruct (validateProfile isURL p') as [m|] eqn:Hvp.
    - left. by erewrite save_invalid.
    - right. split; [done|]. rewrite save_loaded by done. cbn [snd].
      change (_id p') with (_id p). change (userId p') with (userId p).
      apply updateFirst_fmap. destruct (_ && _); [by rewrite unsetOthers_ids | done]. }
  unfold updateProfileById.
  erewrite bind_inr by (by apply getProfileById_found).
  destruct (u_profileName body) as [n|] eqn:Hn0.
  - destruct (decide (n = "")) as [Hempty|Hempty].
    + rewrite (bool_decide_eq_true_2 (n = "")) by done.
      left. erewrite bind_inr by reflexivity. cbn iota.
      erewrite save_invalid; [done|].
      cbn [this]. unfold validateProfile.
      assert (profileName (Object_assign p body) = "") as ->
        by (unfold Object_assign; cbn; rewrite Hn0, Hempty; cbn; by apply trim_trimmed).
      done.
    + rewrite (bool_decide_eq_false_2 (n = "")) by done.
      destruct (filter (λ q, profileName q = trim n ∧ userId q = userId p ∧
                             Some (_id q) ≠ Some (_id p)) db) as [|q0 l] eqn:E.
      * erewrite bind_inr; cycle 1.
        { unfold isProfileNameTaken, bind, findOne, ret. by rewrite E. }
        cbn [bool_decide]. apply Hsave. right.
        apply filter_none. intros q Hq (Hqn & Hqu & Hqi).
        eapply (filter_nil_not_elem_of _ db q E); [|done].
        split; [|split]; [|exact Hqu|intros [= E']; by apply Hqi].
        rewrite Hqn. unfold p', Object_assign. cbn. by rewrite Hn0.
      * left. erewrite bind_inr; cycle 1.
        { unfold isProfileNameTaken, bind, findOne, ret. by rewrite E. }
        done.
  - erewrite bind_inr by reflexivity. cbn iota. apply Hsave. left.
    unfold p', Object_assign. cbn. by rewrite Hn0.
Qed.

Lemma update_preserves x body db :
  wfStore isURL db → singleDefault db →
  ¬ unsetsDefault (UpdateProfileById x body) db →
  wfStore isURL (updateProfileById isURL x body db).2 ∧
  singleDefault (updateProfileById isURL x body db).2.
Proof.
  intros Hwf Hsd Hkeep. pose proof Hwf as [Hn Hv].
  destruct (decide (x ∈ _id <$> db)) as [Hin|Hout]; cycle 1.
  { unfold updateProfileById.
    by erewrite bind_inr by (by apply getProfileById_missing). }
  apply list_elem_of_fmap in Hin as (p & -> & Hp).
  destruct (updateProfileById_cases p body db Hwf Hp) as [->|[Hvp ->]]; [done|].
  set (p' := Object_assign p body) in *.
  set (f := λ r, if decide (_id r = _id p) then p' else r).
  assert (Hfid : ∀ r, _id (f r) = _id r) by (intros r; unfold f; by case_decide).
  set (D := if _ && _ then _ else db).
  assert (HDids : _id <$> D = _id <$> db)
    by (unfold D; destruct (_ && _); [apply unsetOthers_ids | done]).
  assert (Hn' : NoDup (_id <$> (f <$> D))) by (by rewrite fmap_keeps_ids, HDids).
  split.
  { split; [done|]. apply Forall_fmap. apply Forall_forall. intros r Hr. cbn.
    unfold f. case_decide as E; [done|]. clear E. revert r Hr. apply Forall_forall.
    unfold D. destruct (_ && _); [by apply unsetOthers_valid | done]. }
  unfold D. destruct (bool_decide (isDefault p ≠ isDefault p') && isDefault p') eqn:Hflag.
  - apply andb_true_iff in Hflag as [_ Hd'].
    apply (singleDefault_promoted (userId p) p' db); try done.
    + apply list_elem_of_fmap. exists p. split; [unfold f; by rewrite decide_True|].
      apply unsetOthers_elem. exists p. split; [done|].
      rewrite decide_False; [done|]. intros [_ H']. by apply H'.
    + intros q Hq Hqu Hqd. apply list_elem_of_fmap in Hq as (r & -> & Hr). unfold f in *.
      case_decide as E; [done|].
      apply unsetOthers_elem in Hr as (r0 & Hr0 & ->).
      case_decide as E'; [discriminate Hqd|].
      exfalso. apply E'. by split.
    + intros u' q Hu' Hqu. rewrite list_elem_of_fmap. split.
      * intros (r & -> & Hr). unfold f in *. case_decide as E.
        -- exfalso. by apply Hu'.
        -- apply unsetOthers_other_account in Hr; [done | congruence].
      * intros Hq. exists q. split.
        -- unfold f. rewrite decide_False; [done|]. intros E.
           assert (q = p) as -> by (by apply (id_inj db)). by apply Hu'.
        -- apply unsetOthers_other_account; [congruence | done].
  - apply singleDefault_replaced; try done.
    destruct (isDefault p) eqn:Hpd, (isDefault p') eqn:Hpd'; try done.
    exfalso. apply Hkeep. split; [|by exists p].
    unfold p', Object_assign in Hpd'. cbn in Hpd'. rewrite Hpd in Hpd'.
    by destruct (u_isDefault body) as [[]|].
Qed.

(** One call that keeps defaults, then any run of them. *)
Lemma after_preserves c db :
  wfStore isURL db → singleDefault db →
  freshId c db → ¬ unsetsDefault c db →
  wfStore isURL (after isURL c db) ∧ singleDefault (after isURL c db).
Proof.
  intros Hwf Hsd Hfresh Hkeep. destruct c; cbn [after].
  - by apply create_preserves.
  - by apply update_preserves.
  - by apply setDefault_preserves.
  - by apply delete_preserves.
Qed.

Lemma runCalls_preserves cs db :
  wfStore isURL db → singleDefault db → keepsDefaults isURL cs db →
  wfStore isURL (runCalls isURL cs db) ∧ singleDefault (runCalls isURL cs db).
Proof.
  revert db. induction cs as [|c cs IH]; intros db Hwf Hsd Hk; [done|].
  destruct Hk as (Hfresh & Hkeep & Hk).
  destruct (after_preserves c db Hwf Hsd Hfresh Hkeep) as [Hwf' Hsd'].
  cbn [runCalls foldl]. by apply IH.
Qed.

End Preservation.

End DefaultInvariant.

(** ** Claims about the engagement state machine *)

Module EngagementClaims.
Import Engagement QuestionService EngagementFacts Samples.

Lemma sampleQuestion_invariant : engagementInvariant sampleQuestion.
Proof.
  split; [|split].
  - repeat split; cbn; by apply (bool_decide_unpack _).
  - intros p [H1 H2]. cbn in H1, H2. apply list_elem_of_singleton in H2. subst p.
    exact (bool_decide_unpack (12%N ∉ [10%N; 11%N]) I H1).
  - by repeat split.
Qed.

Lemma sampleStore_wf : wfStore sampleStore.
Proof.
  intros id q. unfold sampleStore. intros H.
  apply lookup_singleton_Some in H as [<- <-]. done.
Qed.

(** C2. From a document satisfying the engagement invariant (membership
    arrays are sets, like and dislike exclude each other, counters equal
    cardinalities), any sequence of the seven engagement methods leads to a
    document where a profile is in at most one of [likedBy] / [dislikedBy]
    and every counter equals the size of its membership array. *)
Theorem C2_engagement_invariant {X} (q : Content X) (ops : list Op) (p : ObjectId) :
  engagementInvariant q →
  let q' := run q ops in
  ¬ (p ∈ likedBy q' ∧ p ∈ dislikedBy q') ∧
  likeCount q' = Z.of_nat (length (likedBy q')) ∧
  unlikeCount q' = Z.of_nat (length (dislikedBy q')) ∧
  saveCount q' = Z.of_nat (length (savedBy q')) ∧
  shareCount q' = Z.of_nat (length (sharedBy q')) ∧
  engagementInvariant q'.
Proof.
  intros Hq q'.
  pose proof (run_engagementInvariant q ops Hq) as Hq'.
  destruct Hq' as (Hd & He & (C1 & C2 & C3 & C4)).
  split; [exact (He p)|].
  split; [exact C1|]. split; [exact C2|]. split; [exact C3|]. split; [exact C4|].
  exact (conj Hd (conj He (conj C1 (conj C2 (conj C3 C4))))).
Qed.

Lemma C2_engagement_invariant_witness :
  engagementInvariant sampleQuestion ∧
  let q' := run sampleQuestion [AddDislike 10%N; AddLike 12%N; RemoveSave 10%N; AddShare 3%N] in
  ¬ (10%N ∈ likedBy q' ∧ 10%N ∈ dislikedBy q') ∧
  likeCount q' = Z.of_nat (length (likedBy q')) ∧
  unlikeCount q' = Z.of_nat (length (dislikedBy q')) ∧
  saveCount q' = Z.of_nat (length (savedBy q')) ∧
  shareCount q' = Z.of_nat (length (sharedBy q')) ∧
  engagementInvariant q'.
Proof.
  split; [exact sampleQuestion_invariant|].
  apply (C2_engagement_invariant sampleQuestion _ 10%N).
  exact sampleQuestion_invariant.
Defined.

(** The exclusivity half of the invariant leans on duplicate-freedom:
    [splice] takes out one occurrence only, so a profile stored twice in
    [dislikedBy] is still there after it likes the item. *)
Example addLike_needs_duplicateFree :
  let q := mkContent 7%N 1%N 2%N "t" "c" [] 0 2 0 0 [] [5%N; 5%N] [] [] true tt in
  likedBy (addLike q 5%N) = [5%N] ∧ dislikedBy (addLike q 5%N) = [5%N].
Proof. by split. Qed.

(** The spec's scenario: [like(item, P2)] then [dislike(item, P2)]. *)
Example like_then_dislike :
  let q := mkContent 7%N 1%N 2%N "t" "c" [] 0 0 0 0 [] [] [] [] true tt in
  engagementState (run q [AddLike 2%N; AddDislike 2%N])
  = ([], [2%N], [], [], (0, 1, 0, 0)).
Proof. reflexivity. Qed.

(** C9. Liking twice is the same as liking once, and saving twice the same
    as saving once: on the document (question or post) and, through the
    service, on the stored collection and the value returned. *)
Theorem C9_like_save_idempotent {X} (q : Content X) (p : ObjectId)
    (s : Store) (questionId : ObjectId) :
  addLike (addLike q p) p = addLike q p ∧
  addSave (addSave q p) p = addSave q p ∧
  engagementState (run q [AddLike p; AddLike p]) = engagementState (run q [AddLike p]) ∧
  engagementState (run q [AddSave p; AddSave p]) = engagementState (run q [AddSave p]) ∧
  (await first := likeQuestion questionId p in likeQuestion questionId p) s
    = likeQuestion questionId p s ∧
  (await first := saveQuestion questionId p in saveQuestion questionId p) s
    = saveQuestion questionId p s.
Proof.
  assert (HL : ∀ Y (d : Content Y), addLike (addLike d p) p = addLike d p)
    by (intros; apply addLike_present, addLike_member).
  assert (HS : ∀ Y (d : Content Y), addSave (addSave d p) p = addSave d p)
    by (intros; apply addSave_present, addSave_member).
  split; [apply HL|]. split; [apply HS|].
  split; [cbn; by rewrite HL|]. split; [cbn; by rewrite HS|].
  unfold likeQuestion, saveQuestion, bind, getQuestionById, save, throw.
  split.
  - destruct (s !! questionId) as [d|] eqn:E; [|done].
    pose proof (call_id d (AddLike p)) as Hid. cbn in Hid.
    destruct (decide (_id d = questionId)) as [Heq|Hne].
    + rewrite Hid, Heq, lookup_insert_eq, HL.
      pose proof (call_id (addLike d p) (AddLike p)) as Hid2. cbn in Hid2.
      by rewrite HL, Hid, Heq, insert_insert_eq in *.
    + rewrite Hid, lookup_insert_ne, E by done.
      by rewrite Hid, insert_insert_eq.
  - destruct (s !! questionId) as [d|] eqn:E; [|done].
    pose proof (call_id d (AddSave p)) as Hid. cbn in Hid.
    destruct (decide (_id d = questionId)) as [Heq|Hne].
    + rewrite Hid, Heq, lookup_insert_eq, HS.
      by rewrite Hid, Heq, insert_insert_eq in *.
    + rewrite Hid, lookup_insert_ne, E by done.
      by rewrite Hid, insert_insert_eq.
Qed.

(** C10. Starting from membership arrays without repetition, every
    engagement method, and hence every sequence of them, leaves each of
    [likedBy], [dislikedBy], [savedBy], [sharedBy] without repetition; an add
    on a profile that is already a member changes nothing. *)
Theorem C10_membership_duplicate_free {X} (q : Content X) (o : Op) (ops : list Op) :
  duplicateFree q →
  duplicateFree (call q o) ∧
  duplicateFree (run q ops) ∧
  (∀ p, p ∈ likedBy q → addLike q p = q) ∧
  (∀ p, p ∈ dislikedBy q → addDislike q p = q) ∧
  (∀ p, p ∈ savedBy q → addSave q p = q) ∧
  (∀ p, p ∈ sharedBy q → addShare q p = q).
Proof.
  intros Hq. split; [by apply call_duplicateFree|]. split.
  - induction ops as [|o' ops IH] using rev_ind; [done|].
    rewrite run_snoc. by apply call_duplicateFree.
  - repeat split; intros p Hp.
    + by apply addLike_present.
    + by apply addDislike_present.
    + by apply addSave_present.
    + by apply addShare_present.
Qed.

Lemma C10_membership_duplicate_free_witness :
  duplicateFree sampleQuestion ∧
  duplicateFree (call sampleQuestion (AddLike 12%N)) ∧
  duplicateFree (run sampleQuestion [AddSave 10%N; AddSave 13%N; AddDislike 11%N]).
Proof.
  split; [exact (proj1 sampleQuestion_invariant)|].
  pose proof (C10_membership_duplicate_free sampleQuestion (AddLike 12%N)
                [AddSave 10%N; AddSave 13%N; AddDislike 11%N]
                (proj1 sampleQuestion_invariant)) as (H1 & H2 & _).
  exact (conj H1 H2).
Defined.

Lemma method_redundant r (q : Question) p : redundant r q p → method r q p = q.
Proof.
  destruct r; cbn; intros H.
  - by apply addLike_present.
  - by apply removeLike_absent.
  - by apply addDislike_present.
  - by apply removeDislike_absent.
  - by apply addSave_present.
  - by apply removeSave_absent.
  - by apply addShare_present.
Qed.

Lemma method_adds r (q : Question) p :
  adds r = true → redundant r (method r q p) p.
Proof.
  destruct r; cbn; intros H; try discriminate.
  - apply addLike_member.
  - apply addDislike_member.
  - apply addSave_member.
  - apply addShare_member.
Qed.

Lemma method_id r (q : Question) p : _id (method r q p) = _id q.
Proof.
  destruct r; cbn.
  - apply (call_id q (AddLike p)).
  - apply (call_id q (RemoveLike p)).
  - apply (call_id q (AddDislike p)).
  - apply (call_id q (RemoveDislike p)).
  - apply (call_id q (AddSave p)).
  - apply (call_id q (RemoveSave p)).
  - apply (call_id q (AddShare p)).
Qed.

(** Each entry point is: look the question up, reject with 404 when it is
    missing, otherwise run the method and save. *)
Lemma perform_unfold r questionId profileId (s : Store) :
  perform r questionId profileId s =
  match s !! questionId with
  | None => (inl (ApiError NOT_FOUND "Question not found"), s)
  | Some q => (inr (method r q profileId),
               <[_id (method r q profileId) := method r q profileId]> s)
  end.
Proof. destruct r; cbn; unfold bind, getQuestionById; by destruct (s !! questionId). Qed.

(** C6. Each of the seven engagement entry points of the question service
    rejects exactly when the question does not exist, and then with
    [NOT_FOUND]; on an existing question it resolves with the document after
    the method and stores it; when the reaction is redundant (already there,
    or nothing to remove) document and collection are returned unchanged; and
    a second identical add leaves what the first one produced. *)
Theorem C6_engagement_only_not_found (r : Reaction) (s : Store)
    (questionId profileId : ObjectId) :
  wfStore s →
  (∀ e, (perform r questionId profileId s).1 = inl e ↔
        e = ApiError NOT_FOUND "Question not found" ∧ s !! questionId = None) ∧
  (s !! questionId = None →
     perform r questionId profileId s
     = (inl (ApiError NOT_FOUND "Question not found"), s)) ∧
  (∀ q, s !! questionId = Some q →
     perform r questionId profileId s
     = (inr (method r q profileId), <[questionId := method r q profileId]> s) ∧
     (redundant r q profileId →
        perform r questionId profileId s = (inr q, s)) ∧
     (adds r = true →
        perform r questionId profileId (perform r questionId profileId s).2
        = perform r questionId profileId s)).
Proof.
  intros Hwf. rewrite perform_unfold.
  destruct (s !! questionId) as [q|] eqn:E.
  - assert (Hid : _id (method r q profileId) = questionId)
      by (rewrite method_id; by apply Hwf).
    rewrite Hid. split; [|split].
    + intros e. cbn. split; [discriminate | intros [_ ?]; discriminate].
    + discriminate.
    + intros q0 [= <-]. split; [done|]. split.
      * intros Hr. rewrite (method_redundant _ _ _ Hr). by rewrite insert_id.
      * intros Ha. cbn [snd]. rewrite perform_unfold, lookup_insert_eq.
        rewrite (method_redundant r (method r q profileId) profileId)
          by (by apply method_adds).
        by rewrite Hid, insert_insert_eq.
  - split; [|split].
    + intros e. cbn. split; [intros [= <-]; done | intros [-> _]; done].
    + done.
    + intros q0 [=].
Qed.

Lemma C6_engagement_only_not_found_witness :
  wfStore sampleStore ∧
  perform LikeQuestion 7%N 10%N sampleStore = (inr sampleQuestion, sampleStore) ∧
  perform UnsaveQuestion 8%N 10%N sampleStore
  = (inl (ApiError NOT_FOUND "Question not found"), sampleStore).
Proof.
  split; [exact sampleStore_wf|].
  destruct (C6_engagement_only_not_found LikeQuestion sampleStore 7%N 10%N sampleStore_wf)
    as (_ & _ & Hsome).
  destruct (C6_engagement_only_not_found UnsaveQuestion sampleStore 8%N 10%N sampleStore_wf)
    as (_ & Hnone & _).
  split.
  - apply (Hsome sampleQuestion); [reflexivity|].
    cbn. by apply (bool_decide_unpack _).
  - apply Hnone. reflexivity.
Defined.

End EngagementClaims.

(** ** Claims about the profile service *)

Module ProfileClaims.
Import ProfileModel ProfileService ProfileFacts Samples.

Lemma mainStore_wf : wfStore anyURL [mainProfile].
Proof. split; [by apply (bool_decide_unpack _) | by repeat constructor]. Qed.

(** C4. [getDefaultProfile] finds the account's default profile when the
    account has exactly one, and the controller sends it; when no profile of
    the account is default the service resolves to [null] and the controller
    rejects with [NOT_FOUND]. *)
Theorem C4_getDefaultProfile (userId : ObjectId) (db : Store) :
  (∀ p, p ∈ db → ProfileModel.userId p = userId → isDefault p = true →
        (∀ p', p' ∈ db → ProfileModel.userId p' = userId → isDefault p' = true → p' = p) →
        getDefaultProfile userId db = (inr (Some p), db) ∧
        controller_getDefaultProfile userId db = (inr p, db)) ∧
  ((∀ p, p ∈ db → ProfileModel.userId p = userId → isDefault p = false) →
        getDefaultProfile userId db = (inr None, db) ∧
        controller_getDefaultProfile userId db
        = (inl (ApiError NOT_FOUND "No default profile found"), db)).
Proof.
  split.
  - intros p Hp Hu Hd Huniq.
    assert (E : getDefaultProfile userId db = (inr (Some p), db)).
    { unfold getDefaultProfile, findOne.
      destruct (filter _ db) as [|q l] eqn:E.
      - exfalso. by eapply (filter_nil_not_elem_of _ db p E).
      - assert (Hq : q ∈ filter (λ p, ProfileModel.userId p = userId ∧ isDefault p = true) db)
          by (rewrite E; left).
        apply list_elem_of_filter in Hq as [[Hqu Hqd] Hq].
        by rewrite (Huniq q Hq Hqu Hqd). }
    split; [done|]. unfold controller_getDefaultProfile.
    by erewrite bind_inr by exact E.
  - intros Hnone.
    assert (E : getDefaultProfile userId db = (inr None, db)).
    { unfold getDefaultProfile, findOne. rewrite filter_none; [done|].
      intros p Hp [Hu Hd]. rewrite (Hnone p Hp Hu) in Hd. discriminate. }
    split; [done|]. unfold controller_getDefaultProfile.
    by erewrite bind_inr by exact E.
Qed.

Lemma C4_getDefaultProfile_witness :
  controller_getDefaultProfile 100%N [mainProfile] = (inr mainProfile, [mainProfile]) ∧
  controller_getDefaultProfile 200%N [mainProfile]
  = (inl (ApiError NOT_FOUND "No default profile found"), [mainProfile]).
Proof.
  split.
  - apply (proj1 (C4_getDefaultProfile 100%N [mainProfile]) mainProfile);
      [by left | reflexivity | reflexivity |].
    intros p' Hp' _ _. by apply list_elem_of_singleton in Hp'.
  - apply (proj2 (C4_getDefaultProfile 200%N [mainProfile])).
    intros p Hp Hu. apply list_elem_of_singleton in Hp. subst p. discriminate Hu.
Defined.









(** An account with two stored profiles has one whose [_id] is not [x]. *)
Lemma sibling_exists isURL u x db :
  wfStore isURL db → (2 ≤ length (profilesOf u db))%nat →
  ∃ q, q ∈ db ∧ userId q = u ∧ _id q ≠ x.
Proof.
  intros [Hn _] Hlen.
  pose proof (filter_ids_NoDup (λ p, userId p = u) db Hn) as Hn'.
  fold (profilesOf u db) in Hn'.
  assert (Hin : ∀ q, q ∈ profilesOf u db → q ∈ db ∧ userId q = u).
  { intros q Hq. apply list_elem_of_filter in Hq. tauto. }
  destruct (profilesOf u db) as [|a [|b l]]; cbn in Hlen; [lia|lia|].
  rewrite !fmap_cons, !NoDup_cons, not_elem_of_cons in Hn'.
  destruct Hn' as ((Hab & _) & _).
  destruct (decide (_id a = x)) as [Ha|Ha].
  - exists b. destruct (Hin b) as [? ?]; [right; by left|]. split; [done|].
    split; [done|]. congruence.
  - exists a. destruct (Hin a) as [? ?]; [by left|]. done.
Qed.

(** C5. [deleteProfileById] rejects with [NOT_FOUND] when no profile has the
    id.  Otherwise it resolves with the deleted profile and removes exactly
    that document.  When the deleted profile was the default of an account
    holding at least two profiles, exactly one remaining profile of the
    account is default afterwards; when it was the account's only profile,
    the account is left with none. *)
Theorem C5_deleteProfileById isURL (profileId : ObjectId) (db : Store) :
  wfStore isURL db →
  (profileId ∉ _id <$> db →
     deleteProfileById isURL profileId db
     = (inl (ApiError NOT_FOUND "Profile not found"), db)) ∧
  (∀ p, p ∈ db → _id p = profileId →
     ∃ db',
       deleteProfileById isURL profileId db = (inr p, db') ∧
       _id <$> db' = filter (λ i, i ≠ profileId) (_id <$> db) ∧
       (isDefault p = true →
        (∀ q, q ∈ db → userId q = userId p → isDefault q = true → q = p) →
        (2 ≤ length (profilesOf (userId p) db))%nat →
          length (defaultsOf (userId p) db') = 1%nat) ∧
       (profilesOf (userId p) db = [p] → profilesOf (userId p) db' = [])).
Proof.
  intros Hwf. pose proof Hwf as [Hn Hv]. split.
  - intros Hmissing. unfold deleteProfileById.
    by erewrite bind_inr by (by apply getProfileById_missing).
  - intros p Hp <-. eexists. split; [by apply deleteProfileById_found|].
    assert (Hids : ∀ l : Store,
      _id <$> filter (λ q, _id q ≠ _id p) l = filter (λ i, i ≠ _id p) (_id <$> l)).
    { induction l as [|r l IH]; [done|]. rewrite fmap_cons.
      destruct (decide (_id r = _id p)) as [E|E].
      - rewrite !filter_cons_False by (intros H'; by apply H'). done.
      - rewrite !filter_cons_True by done. rewrite fmap_cons. by f_equal. }
    split; [by rewrite Hids, promoteSibling_ids|]. split.
    + intros Hd Honly Htwo.
      destruct (sibling_exists isURL (userId p) (_id p) db Hwf Htwo)
        as (s0 & Hs0 & Hs0u & Hs0i).
      unfold promoteSibling. rewrite Hd.
      destruct (head _) as [o|] eqn:Ho; cycle 1.
      { apply head_None in Ho.
        exfalso. by eapply (filter_nil_not_elem_of _ db s0 Ho). }
      apply head_Some_elem_of, list_elem_of_filter in Ho as [[Hou Hoi] Ho].
      assert (Hod : isDefault o = false).
      { destruct (isDefault o) eqn:E; [|done]. destruct Hoi. by rewrite (Honly o). }
      rewrite bool_decide_eq_true_2 by (rewrite Hod; discriminate).
      rewrite updateFirst_fmap by (by rewrite unsetOthers_ids).
      unfold defaultsOf.
      apply (filter_unique_by_id _ (_id o)).
      * rewrite Hids. apply NoDup_filter.
        rewrite <- list_fmap_compose.
        erewrite list_fmap_ext; [rewrite unsetOthers_ids; exact Hn|].
        intros i r Hr. cbn. by case_decide.
      * intros q Hq [Hqu Hqd].
        apply list_elem_of_filter in Hq as [Hqi Hq].
        apply list_elem_of_fmap in Hq as (r & -> & Hr).
        case_decide as E; [done|].
        apply unsetOthers_elem in Hr as (r0 & Hr0 & ->).
        case_decide as E'; [discriminate Hqd|].
        exfalso. apply E'. split; [congruence|]. exact E.
      * exists (set_isDefault true o). split; [|by rewrite <- Hou].
        apply list_elem_of_filter. split; [done|].
        apply list_elem_of_fmap.
        exists (if decide (userId o = userId o ∧ _id o ≠ _id o)
                then set_isDefault false o else o).
        split; [|apply unsetOthers_elem; by exists o].
        rewrite (decide_False (P := userId o = userId o ∧ _id o ≠ _id o))
          by (intros [_ H']; by apply H').
        by rewrite decide_True.
    + intros Hlast.
      assert (Hnone : filter (λ q, userId q = userId p ∧ _id q ≠ _id p) db = []).
      { apply filter_none. intros q Hq [Hqu Hqi]. apply Hqi.
        assert (Hq' : q ∈ profilesOf (userId p) db) by (by apply list_elem_of_filter).
        rewrite Hlast in Hq'. apply list_elem_of_singleton in Hq'. by subst q. }
      unfold promoteSibling. rewrite Hnone. cbn [head].
      replace (if isDefault p then db else db) with db by (by destruct (isDefault p)).
      apply filter_none. intros q Hq Hqu.
      apply list_elem_of_filter in Hq as [Hqi Hq].
      eapply (filter_nil_not_elem_of _ db q Hnone); done.
Qed.

Lemma twoProfiles_wf :
  wfStore anyURL [mainProfile; construct 2%N workBody false].
Proof. split; [by apply (bool_decide_unpack _) | by repeat constructor]. Qed.

Lemma C5_deleteProfileById_witness :
  deleteProfileById anyURL 9%N [mainProfile; construct 2%N workBody false]
  = (inl (ApiError NOT_FOUND "Profile not found"),
     [mainProfile; construct 2%N workBody false]) ∧
  ∃ db', deleteProfileById anyURL 1%N [mainProfile; construct 2%N workBody false]
         = (inr mainProfile, db') ∧
         length (defaultsOf 100%N db') = 1%nat.
Proof.
  destruct (C5_deleteProfileById anyURL 9%N _ twoProfiles_wf) as [Hmissing _].
  destruct (C5_deleteProfileById anyURL 1%N _ twoProfiles_wf) as [_ Hfound].
  split.
  - apply Hmissing. by apply (bool_decide_unpack _).
  - destruct (Hfound mainProfile) as (db' & E & _ & Hdef & _); [by left | reflexivity |].
    exists db'. split; [exact E|]. apply Hdef.
    + reflexivity.
    + intros q Hq _ Hd. apply elem_of_cons in Hq as [->|Hq]; [done|].
      apply list_elem_of_singleton in Hq. subst q. discriminate Hd.
    + vm_compute. lia.
Defined.

Lemma mainStore_singleDefault : singleDefault [mainProfile].
Proof.
  intros u Hu. unfold profilesOf, defaultsOf in *.
  destruct (decide (userId mainProfile = u)) as [E|E].
  - by rewrite filter_cons_True.
  - by rewrite filter_cons_False in Hu.
Qed.

(** C1 does not hold of [updateProfileById].  Account 100 has one profile,
    its default; the update [{ isDefault: false }], which the update
    validation admits, is saved as is: the pre-save hook only acts when the
    flag is set to true, and nothing promotes another profile or refuses the
    change.  The account is left with a profile and no default. *)
Theorem C1_update_can_unset_the_only_default :
  let db := [mainProfile] in
  let updateBody := mkUpdateBody None None None None None None None (Some false) in
  let db' := after anyURL (UpdateProfileById 1%N updateBody) db in
  wfStore anyURL db ∧ singleDefault db ∧
  updateProfileById anyURL 1%N updateBody db
  = (inr (set_isDefault false mainProfile), [set_isDefault false mainProfile]) ∧
  profilesOf 100%N db' = [set_isDefault false mainProfile] ∧
  defaultsOf 100%N db' = [] ∧
  ¬ singleDefault db'.
Proof.
  cbv zeta. split; [exact mainStore_wf|]. split; [exact mainStore_singleDefault|].
  split; [reflexivity|]. split; [reflexivity|]. split; [reflexivity|].
  intros Hsingle. specialize (Hsingle 100%N). discriminate Hsingle. discriminate.
Qed.

End ProfileClaims.

(** ** Claims about the account bootstrap *)

Module BootstrapClaims.
Import ProfileModel ProfileService ProfileFacts UserService Samples.





Section Bootstrap.
Context {stringOps : StringOps} {doubles : Doubles}.
Variable isURL : string → bool.
Variable validateUser : UserBody → option string.
Variable bcrypt_hash : string → string.

Lemma isEmailTaken_free e db :
  (∀ u, u ∈ users db → email u ≠ lowercaseTrim e) →
  isEmailTaken e None db = (inr false, db).
Proof.
  intros Hfree. unfold isEmailTaken. rewrite bool_decide_eq_false_2; [done|].
  rewrite Exists_exists. intros (u & Hu & He & _). by apply (Hfree u).
Qed.

Lemma isUsernameTaken_free n db :
  (∀ u, u ∈ users db → username u ≠ lowercaseTrim n) →
  isUsernameTaken n None db = (inr false, db).
Proof.
  intros Hfree. unfold isUsernameTaken. rewrite bool_decide_eq_false_2; [done|].
  rewrite Exists_exists. intros (u & Hu & He & _). by apply (Hfree u).
Qed.

Lemma User_create_fresh uid userBody db :
  validateUser userBody = None →
  (∀ u, u ∈ users db → user_id u ≠ uid) →
  User_create validateUser bcrypt_hash uid userBody db
  = (inr (constructUser bcrypt_hash uid userBody),
     mkDb (users db ++ [constructUser bcrypt_hash uid userBody]) (profiles db) (logs db)).
Proof.
  intros Hvalid Hfresh. unfold User_create. rewrite Hvalid.
  rewrite bool_decide_eq_false_2; [done|].
  rewrite Exists_exists. intros (u & Hu & He). by apply (Hfresh u).
Qed.

(** Once the account record is stored, [createUser] is: try the public
    profile; if that resolved, try the anonymous one; log; resolve with the
    user whatever happened. *)
Lemma createUser_run uid pid1 pid2 random userBody db :
  accountCreated validateUser uid userBody db →
  let user := constructUser bcrypt_hash uid userBody in
  let publicBody := publicProfileBody user userBody in
  let anonymousBody := anonymousProfileBody user random in
  ∃ db',
    createUser isURL validateUser bcrypt_hash uid pid1 pid2 random userBody db
    = (inr user, db') ∧
    users db' = users db ++ [user] ∧
    profiles db' =
      match createProfile isURL pid1 publicBody (profiles db) with
      | (inl _, ps) => ps
      | (inr _, ps) => (createProfile isURL pid2 anonymousBody ps).2
      end ∧
    logs db' = logs db ++ [
      match createProfile isURL pid1 publicBody (profiles db) with
      | (inl error, _) => log_error "Failed to create default profiles for user:" error
      | (inr publicProfile, ps) =>
          match (createProfile isURL pid2 anonymousBody ps).1 with
          | inl error => log_error "Failed to create default profiles for user:" error
          | inr anonymousProfile =>
              log_info ("Created profiles for user " +:+ email user +:+ ": public (" +:+
                        profileName publicProfile +:+ ") and anonymous (" +:+
                        profileName anonymousProfile +:+ ")")
          end
      end].
Proof.
  intros (Hemail & Husername & Hvalid & Hfresh) user publicBody anonymousBody.
  set (db1 := mkDb (users db ++ [user]) (profiles db) (logs db)).
  assert (Hpre :
    createUser isURL validateUser bcrypt_hash uid pid1 pid2 random userBody db
    = bind
        (tryCatch
           (await publicProfile := onProfiles (createProfile isURL pid1 publicBody) in
            await anonymousProfile := onProfiles (createProfile isURL pid2 anonymousBody) in
            logger_info
              ("Created profiles for user " +:+ email user +:+ ": public (" +:+
               profileName publicProfile +:+ ") and anonymous (" +:+
               profileName anonymousProfile +:+ ")"))
           (λ error,
              logger_error "Failed to create default profiles for user:" error))
        (λ _, ret user) db1).
  { unfold createUser.
    rewrite (bind_inr _ _ _ _ _ (isEmailTaken_free _ _ Hemail)).
    rewrite (bind_inr _ _ _ _ _ (isUsernameTaken_free _ _ Husername)).
    rewrite (bind_inr _ _ _ _ _ (User_create_fresh _ _ _ Hvalid Hfresh)).
    reflexivity. }
  rewrite Hpre. clear Hpre.
  unfold bind at 1, tryCatch, bind at 1, onProfiles at 1. cbn [profiles users logs db1].
  destruct (createProfile isURL pid1 publicBody (profiles db)) as [[e1|p1] ps1].
  { eexists. split; [reflexivity|]. cbn. by repeat split. }
  unfold bind at 1, onProfiles. cbn [profiles users logs].
  destruct (createProfile isURL pid2 anonymousBody ps1) as [[e2|p2] ps2].
  { eexists. split; [reflexivity|]. cbn. by repeat split. }
  eexists. split; [reflexivity|]. cbn. by repeat split.
Qed.






End Bootstrap.




End BootstrapClaims.

(** * Further properties of the code *)

(** ** Engagement: round trips, frames, monotonicity *)

Module EngagementExtras.
Import Engagement QuestionService EngagementFacts EngagementNotions Samples.

Section Methods.
Context {X : Type}.
Implicit Types (q : Content X) (p : ObjectId) (o : Op).

Lemma splice1_push (l : list ObjectId) (x : ObjectId) :
  x ∉ l → splice1 (push l x) (indexOf (push l x) x) = l.
Proof.
  intros Hx. destruct (splice1_indexOf (push l x) x) as (l1 & l2 & El & Hl1 & ->).
  { apply push_elem. by right. }
  unfold push in El.
  assert (Hlen : length l1 = length l).
  { destruct (decide (length l1 < length l)%nat) as [Hlt|Hge].
    - exfalso. apply Hx.
      assert (l !! length l1 = Some x) as Hlk.
      { rewrite <- (lookup_app_l l [x]) by done. rewrite El.
        by rewrite list_lookup_middle. }
      by eapply list_elem_of_lookup_2.
    - apply (f_equal length) in El. rewrite !length_app in El. cbn in El. lia. }
  assert (l1 = l ∧ x :: l2 = [x]) as [-> E2] by (by apply app_inj_1).
  injection E2 as ->. by rewrite app_nil_r.
Qed.

Lemma content_eq q q' :
  payload q = payload q' → engagementState q = engagementState q' → q = q'.
Proof.
  destruct q, q'. unfold payload, engagementState. cbn. intros [=] [=]. by subst.
Qed.

Lemma call_payload q o : payload (call q o) = payload q.
Proof.
  destruct o; destruct q as [i pf cat ti co tg lc uc sc shc lb db sb shb act ex];
    unfold call, addLike, removeLike, addDislike, removeDislike, addSave,
      removeSave, addShare, includes; cbn;
    repeat (case_bool_decide; cbn); done.
Qed.

Ltac open_call q :=
  destruct q as [i pf cat ti co tg lc uc sc shc lb db sb shb act ex];
  unfold call, addLike, removeLike, addDislike, removeDislike, addSave,
    removeSave, addShare, includes;
  cbn [likedBy dislikedBy savedBy sharedBy likeCount unlikeCount saveCount
       shareCount set_likedBy set_dislikedBy set_savedBy set_sharedBy
       set_likeCount set_unlikeCount set_saveCount set_shareCount negb];
  repeat (case_bool_decide;
    cbn [likedBy dislikedBy savedBy sharedBy likeCount unlikeCount saveCount
         shareCount set_likedBy set_dislikedBy set_savedBy set_sharedBy
         set_likeCount set_unlikeCount set_saveCount set_shareCount negb]);
  repeat match goal with
  | H : indexOf ?l ?x ≠ -1 |- _ =>
      rewrite indexOf_absent in H; apply dec_stable in H
  | H : indexOf ?l ?x = -1 |- _ => rewrite indexOf_absent in H
  end.

(** X1. On a document whose counters are the sizes of its arrays (so that
    adding and subtracting one is exact), a like (dislike, save) by a
    profile that had no reaction of that pair (was not saved) is undone
    exactly by the matching removal: the document is back to what it was,
    counters included. *)
Theorem add_then_remove_round_trip q p :
  countersMatch q →
  (p ∉ likedBy q → p ∉ dislikedBy q →
     removeLike (addLike q p) p = q ∧ removeDislike (addDislike q p) p = q) ∧
  (p ∉ savedBy q → removeSave (addSave q p) p = q).
Proof.
  intros _.
  assert (Hlast : ∀ l : list ObjectId, bool_decide (indexOf (push l p) p = -1) = false).
  { intros l. apply bool_decide_eq_false_2. rewrite indexOf_absent.
    intros H. apply H, push_elem. by right. }
  destruct q as [i pf cat ti co tg lc uc sc shc lb db sb shb act ex].
  unfold addLike, removeLike, addDislike, removeDislike, addSave, removeSave, includes.
  cbn [likedBy dislikedBy savedBy]. split.
  - intros Hl Hd.
    rewrite (bool_decide_eq_false_2 (p ∈ lb)), (bool_decide_eq_false_2 (p ∈ db)) by done.
    cbn. rewrite (bool_decide_eq_true_2 (indexOf db p = -1)) by (by apply indexOf_absent).
    rewrite (bool_decide_eq_true_2 (indexOf lb p = -1)) by (by apply indexOf_absent).
    cbn. rewrite !Hlast. cbn. rewrite !splice1_push by done.
    split; cbv [set_likeCount set_likedBy set_unlikeCount set_dislikedBy]; cbn;
      f_equal; lia.
  - intros Hs. rewrite (bool_decide_eq_false_2 (p ∈ sb)) by done.
    cbn. rewrite Hlast. cbn. rewrite splice1_push by done.
    cbv [set_saveCount set_savedBy]. cbn. f_equal. lia.
Qed.

Lemma splice1_other (l : list ObjectId) (x y : ObjectId) :
  x ∈ l → y ≠ x → y ∈ splice1 l (indexOf l x) ↔ y ∈ l.
Proof.
  intros Hin Hne. destruct (splice1_indexOf l x Hin) as (l1 & l2 & El & _ & ->).
  rewrite El at 1. rewrite !elem_of_app, elem_of_cons. naive_solver.
Qed.

(** X2. A method call made for one profile changes no other profile's
    membership in any of the four arrays, and never touches the rest of the
    document (owner, category, title, body, tags, active flag). *)
Theorem call_frame q o (p' : ObjectId) :
  p' ≠ reactor o →
  (p' ∈ likedBy (call q o) ↔ p' ∈ likedBy q) ∧
  (p' ∈ dislikedBy (call q o) ↔ p' ∈ dislikedBy q) ∧
  (p' ∈ savedBy (call q o) ↔ p' ∈ savedBy q) ∧
  (p' ∈ sharedBy (call q o) ↔ p' ∈ sharedBy q) ∧
  payload (call q o) = payload q.
Proof.
  intros Hne. split; [|split; [|split; [|split; [|apply call_payload]]]];
    destruct o; cbn [reactor] in Hne; open_call q;
    rewrite ?push_elem, ?splice1_other by done; naive_solver.
Qed.

(** X3. The last of like / dislike wins and removals take effect: on a
    document whose arrays are duplicate-free and whose like and dislike sets
    are disjoint, after [addLike] the profile is liked and not disliked,
    after [addDislike] disliked and not liked, and after a removal it is out
    of the array it was removed from. *)
Theorem reaction_takes_effect q p :
  duplicateFree q → exclusive q →
  (p ∈ likedBy (addLike q p) ∧ p ∉ dislikedBy (addLike q p)) ∧
  (p ∈ dislikedBy (addDislike q p) ∧ p ∉ likedBy (addDislike q p)) ∧
  (p ∉ likedBy (removeLike q p)) ∧
  (p ∉ dislikedBy (removeDislike q p)) ∧
  (p ∉ savedBy (removeSave q p)).
Proof.
  intros Hd He.
  pose proof (call_exclusive q (AddLike p) Hd He p) as H1.
  pose proof (call_exclusive q (AddDislike p) Hd He p) as H2.
  cbn [call] in H1, H2.
  pose proof (addLike_member q p). pose proof (addDislike_member q p).
  split; [split; [done|tauto]|]. split; [split; [done|tauto]|].
  destruct Hd as (N1 & N2 & N3 & N4).
  split; [|split].
  - open_call q; [done|]. cbn in *. by apply splice1_NoDup.
  - open_call q; [done|]. cbn in *. by apply splice1_NoDup.
  - open_call q; [done|]. cbn in *. by apply splice1_NoDup.
Qed.

(** X4. Shares are never retracted: over any run of method calls the old
    [sharedBy] array is a prefix of the new one and [shareCount] does not
    decrease. *)
Theorem shares_only_grow q (ops : list Op) :
  sharedBy q `prefix_of` sharedBy (run q ops) ∧
  shareCount q ≤ shareCount (run q ops).
Proof.
  induction ops as [|o ops [IH1 IH2]] using rev_ind; [done|].
  rewrite run_snoc.
  assert (Hstep : ∀ d : Content X,
    sharedBy d `prefix_of` sharedBy (call d o) ∧ shareCount d ≤ shareCount (call d o)).
  { intros d. destruct o; open_call d; split; try done; try lia.
    unfold push. by apply prefix_app_r. }
  destruct (Hstep (run q ops)) as [H1 H2].
  split; [by etrans | lia].
Qed.

End Methods.

Lemma add_then_remove_round_trip_witness :
  removeLike (addLike sampleQuestion 13%N) 13%N = sampleQuestion ∧
  removeSave (addSave sampleQuestion 13%N) 13%N = sampleQuestion.
Proof.
  destruct (add_then_remove_round_trip sampleQuestion 13%N) as [Hlike Hsave].
  { exact (proj2 (proj2 EngagementClaims.sampleQuestion_invariant)). }
  split.
  - apply Hlike; by apply (bool_decide_unpack _).
  - apply Hsave. by apply (bool_decide_unpack _).
Defined.

Lemma call_frame_witness :
  (11%N ∈ likedBy (call sampleQuestion (AddDislike 10%N)) ↔ 11%N ∈ likedBy sampleQuestion) ∧
  payload (call sampleQuestion (AddDislike 10%N)) = payload sampleQuestion.
Proof.
  destruct (call_frame sampleQuestion (AddDislike 10%N) 11%N) as (H1 & _ & _ & _ & H5).
  - discriminate.
  - exact (conj H1 H5).
Defined.

Lemma reaction_takes_effect_witness :
  10%N ∈ dislikedBy (addDislike sampleQuestion 10%N) ∧
  10%N ∉ likedBy (addDislike sampleQuestion 10%N).
Proof.
  destruct (reaction_takes_effect sampleQuestion 10%N) as (_ & H2 & _).
  - exact (proj1 EngagementClaims.sampleQuestion_invariant).
  - exact (proj1 (proj2 EngagementClaims.sampleQuestion_invariant)).
  - exact H2.
Defined.

(** X5. An engagement call on one question leaves every other question as
    it was, adds or removes no question, and keeps each document stored
    under its own [_id]. *)
Theorem perform_frame (r : Reaction) (s : Store) (questionId profileId : ObjectId) :
  wfStore s →
  let s' := (perform r questionId profileId s).2 in
  wfStore s' ∧
  dom s' = dom s ∧
  ∀ other, other ≠ questionId → s' !! other = s !! other.
Proof.
  intros Hwf s'. unfold s'. rewrite EngagementClaims.perform_unfold.
  destruct (s !! questionId) as [q|] eqn:E; [|done]. cbn [snd].
  assert (Hid : _id (method r q profileId) = questionId)
    by (rewrite EngagementClaims.method_id; by apply Hwf).
  rewrite Hid. split; [|split].
  - intros i d Hd. destruct (decide (i = questionId)) as [->|Hne].
    + rewrite lookup_insert_eq in Hd. by injection Hd as <-.
    + rewrite lookup_insert_ne in Hd by done. by apply Hwf.
  - rewrite dom_insert_L. apply elem_of_dom_2 in E. set_solver.
  - intros other Hne. by rewrite lookup_insert_ne.
Qed.

Lemma perform_frame_witness :
  wfStore (perform LikeQuestion 7%N 13%N sampleStore).2 ∧
  dom (perform LikeQuestion 7%N 13%N sampleStore).2 = dom sampleStore.
Proof.
  destruct (perform_frame LikeQuestion sampleStore 7%N 13%N
              EngagementClaims.sampleStore_wf) as (H1 & H2 & _).
  exact (conj H1 H2).
Defined.

End EngagementExtras.

(** ** Profile service: what every call keeps *)

Module ProfileExtras.
Import ProfileModel ProfileService ProfileFacts DefaultInvariant ProfileNotions Samples.

Section Invariants.
Context {stringOps : StringOps}.
Variable isURL : string → bool.
Implicit Types (db : Store) (p q : Profile) (u x : ObjectId).

Lemma sameKey_refl q : sameKey q q.
Proof. done. Qed.

Lemma sameKey_set_isDefault v q : sameKey q (set_isDefault v q).
Proof. by destruct q. Qed.

Lemma unsetOthers_sameKey a x db q :
  q ∈ unsetOthers a x db → ∃ q0, q0 ∈ db ∧ sameKey q0 q.
Proof.
  intros Hq. apply unsetOthers_elem in Hq as (q0 & Hq0 & ->).
  exists q0. split; [done|]. case_decide; [apply sameKey_set_isDefault | done].
Qed.

Lemma atMostOne_sub db db' :
  atMostOneDefault db →
  (∀ q, q ∈ db' → isDefault q = true →
        ∃ q0, q0 ∈ db ∧ _id q0 = _id q ∧ userId q0 = userId q ∧ isDefault q0 = true) →
  atMostOneDefault db'.
Proof.
  intros Hone Hsub p q Hp Hq Hu Hpd Hqd.
  destruct (Hsub p Hp Hpd) as (p0 & Hp0 & Hpi & Hpu & Hp0d).
  destruct (Hsub q Hq Hqd) as (q0 & Hq0 & Hqi & Hqu & Hq0d).
  rewrite <- Hpi, <- Hqi. apply Hone; try done. congruence.
Qed.

Lemma atMostOne_from a x db db' :
  atMostOneDefault db →
  (∀ q, q ∈ db' → userId q = a → isDefault q = true → _id q = x) →
  (∀ q, q ∈ db' → userId q ≠ a → isDefault q = true →
        ∃ q0, q0 ∈ db ∧ _id q0 = _id q ∧ userId q0 = userId q ∧ isDefault q0 = true) →
  atMostOneDefault db'.
Proof.
  intros Hone Ha Hother p q Hp Hq Hu Hpd Hqd.
  destruct (decide (userId p = a)) as [Hpa|Hpa].
  - rewrite (Ha p), (Ha q); try done. congruence.
  - destruct (Hother p Hp Hpa Hpd) as (p0 & Hp0 & Hpi & Hpu & Hp0d).
    destruct (Hother q Hq) as (q0 & Hq0 & Hqi & Hqu & Hq0d); [congruence|done|].
    rewrite <- Hpi, <- Hqi. apply Hone; try done. congruence.
Qed.

Lemma uniqueNames_sub db db' :
  uniqueNames db →
  (∀ q, q ∈ db' → ∃ q0, q0 ∈ db ∧ sameKey q0 q) →
  uniqueNames db'.
Proof.
  intros Huniq Hsub p q Hp Hq Hu Hn.
  destruct (Hsub p Hp) as (p0 & Hp0 & Hpi & Hpu & Hpn).
  destruct (Hsub q Hq) as (q0 & Hq0 & Hqi & Hqu & Hqn).
  rewrite <- Hpi, <- Hqi. apply Huniq; try done; congruence.
Qed.

(** A create that is turned down (name taken, or body rejected by the
    schema) has written nothing. *)
Lemma createProfile_rejected oid body db :
  oid ∉ _id <$> db →
  (∃ e, createProfile isURL oid body db = (inl e, db) ∧
        (e = ApiError BAD_REQUEST "Profile name already exists for this user" ∨
         ∃ m, e = ValidationError m)) ∨
  (nameFree (b_userId body) (trim (b_profileName body)) db ∧ validBody isURL body).
Proof.
  intros Hfresh.
  destruct (filter (λ p, profileName p = trim (b_profileName body) ∧
                         userId p = b_userId body ∧ Some (_id p) ≠ None) db)
    as [|p0 l] eqn:E.
  - assert (Hfree : nameFree (b_userId body) (trim (b_profileName body)) db).
    { intros p Hp [Hu Hn]. by eapply (filter_nil_not_elem_of _ db p E). }
    destruct (validateProfile isURL (construct 0%N body false)) as [m|] eqn:Hv.
    + left. exists (ValidationError m). split; [|right; by exists m].
      unfold createProfile.
      erewrite bind_inr by (by apply isProfileNameTaken_free).
      unfold bind, find, Profile_create.
      erewrite save_invalid; [done|]. cbn [this]. exact Hv.
    + right. by split.
  - assert (Hp0 : p0 ∈ filter (λ p, profileName p = trim (b_profileName body) ∧
                                    userId p = b_userId body ∧ Some (_id p) ≠ None) db)
      by (rewrite E; by left).
    apply list_elem_of_filter in Hp0 as [(Hn0 & Hu0 & _) Hp0].
    left. eexists. split; [|by left]. unfold createProfile.
    by erewrite bind_inr by (by eapply isProfileNameTaken_taken).
Qed.

Lemma create_keeps oid body db :
  wfStore isURL db → oid ∉ _id <$> db →
  let db' := (createProfile isURL oid body db).2 in
  wfStore isURL db' ∧
  (atMostOneDefault db → atMostOneDefault db') ∧
  (uniqueNames db → uniqueNames db').
Proof.
  intros Hwf Hfresh db'. unfold db'. clear db'.
  destruct (createProfile_rejected oid body db Hfresh) as [(e & -> & _)|[Hfree Hvalid]];
    [done|].
  pose proof (createProfile_ok isURL oid body db Hfree Hvalid Hfresh) as Hok.
  cbv zeta in Hok. rewrite Hok. cbn [snd]. clear Hok.
  destruct Hwf as [Hn Hv].
  set (a := b_userId body).
  set (isD := bool_decide (profilesOf a db = []) || default false (b_isDefault body)).
  set (new := construct oid body isD).
  set (D := if isD then unsetOthers a oid db else db).
  assert (HDids : _id <$> D = _id <$> db)
    by (unfold D; destruct isD; [apply unsetOthers_ids | done]).
  assert (HDkey : ∀ q, q ∈ D → ∃ q0, q0 ∈ db ∧ sameKey q0 q).
  { unfold D. destruct isD; [apply unsetOthers_sameKey|]. intros q Hq. by exists q. }
  split; [|split].
  - split.
    + rewrite fmap_app, HDids. apply NoDup_app. split; [done|]. split.
      * intros i Hi Hi'. apply list_elem_of_singleton in Hi'. subst i. by apply Hfresh.
      * apply NoDup_singleton.
    + apply Forall_app. split.
      * unfold D. destruct isD; [by apply unsetOthers_valid | done].
      * constructor; [exact Hvalid|constructor].
  - intros Hone. destruct isD eqn:HisD.
    + apply (atMostOne_from a oid db); [done| |].
      * intros q Hq Hqu Hqd. apply elem_of_app in Hq as [Hq|Hq].
        -- unfold D in Hq. apply unsetOthers_elem in Hq as (r & Hr & ->).
           case_decide as E; [discriminate Hqd|].
           destruct (decide (_id r = oid)) as [|Hne]; [done|].
           exfalso. apply E. by split.
        -- apply list_elem_of_singleton in Hq. by subst q.
      * intros q Hq Hqu Hqd. apply elem_of_app in Hq as [Hq|Hq].
        -- unfold D in Hq. apply unsetOthers_other_account in Hq; [|done].
           by exists q.
        -- apply list_elem_of_singleton in Hq. by subst q.
    + apply (atMostOne_sub db); [done|].
      intros q Hq Hqd. apply elem_of_app in Hq as [Hq|Hq]; [by exists q|].
      apply list_elem_of_singleton in Hq. subst q. discriminate Hqd.
  - intros Huniq p q Hp Hq Hu Hname.
    apply elem_of_app in Hp as [Hp|Hp]; apply elem_of_app in Hq as [Hq|Hq].
    + destruct (HDkey p Hp) as (p0 & Hp0 & Hpi & Hpu & Hpn).
      destruct (HDkey q Hq) as (q0 & Hq0 & Hqi & Hqu & Hqn).
      rewrite <- Hpi, <- Hqi. apply Huniq; try done; congruence.
    + apply list_elem_of_singleton in Hq. subst q.
      destruct (HDkey p Hp) as (p0 & Hp0 & Hpi & Hpu & Hpn).
      exfalso. apply (Hfree p0 Hp0). split; [by rewrite Hpu, Hu | by rewrite Hpn, Hname].
    + apply list_elem_of_singleton in Hp. subst p.
      destruct (HDkey q Hq) as (q0 & Hq0 & Hqi & Hqu & Hqn).
      exfalso. apply (Hfree q0 Hq0). split; [by rewrite Hqu, <- Hu | by rewrite Hqn, <- Hname].
    + apply list_elem_of_singleton in Hp, Hq. by subst.
Qed.

Lemma setDefault_keeps u x db :
  wfStore isURL db →
  let db' := (setDefaultProfile u x db).2 in
  wfStore isURL db' ∧
  (atMostOneDefault db → atMostOneDefault db') ∧
  (uniqueNames db → uniqueNames db').
Proof.
  intros Hwf db'. unfold db'. clear db'. pose proof Hwf as [Hn Hv].
  destruct (setDefaultProfile_cases u x db Hn) as [->|(p & Hp & Hpi & Hpu & ->)]; [done|].
  set (f := λ r, if decide (_id r = x) then set_isDefault true r else r).
  assert (Hkey : ∀ q, q ∈ f <$> unsetOthers u x db → ∃ q0, q0 ∈ db ∧ sameKey q0 q).
  { intros q Hq. apply list_elem_of_fmap in Hq as (r & -> & Hr).
    destruct (unsetOthers_sameKey _ _ _ _ Hr) as (q0 & Hq0 & Hk).
    exists q0. split; [done|]. unfold f. case_decide; [|done].
    destruct Hk as (? & ? & ?). by destruct r. }
  split; [|split].
  - split.
    + rewrite fmap_keeps_ids; [by rewrite unsetOthers_ids|].
      intros r. unfold f. by case_decide.
    + apply Forall_fmap. eapply Forall_impl; [by apply unsetOthers_valid|].
      intros r Hr. cbn. unfold f. case_decide; [by rewrite validate_set_isDefault | done].
  - intros Hone. apply (atMostOne_from u x db); [done| |].
    + intros q Hq Hqu Hqd. apply list_elem_of_fmap in Hq as (r & -> & Hr). unfold f in *.
      case_decide as E; [by destruct r|].
      apply unsetOthers_elem in Hr as (r0 & Hr0 & ->).
      case_decide as E'; [discriminate Hqd|].
      exfalso. apply E'. by split.
    + intros q Hq Hqu Hqd. apply list_elem_of_fmap in Hq as (r & -> & Hr). unfold f in *.
      case_decide as E.
      * exfalso. apply unsetOthers_elem in Hr as (r0 & Hr0 & ->).
        assert (r0 = p) as ->.
        { apply (id_inj db); [done..|]. rewrite Hpi, <- E. by case_decide. }
        apply Hqu. rewrite <- Hpu. by case_decide.
      * apply unsetOthers_other_account in Hr; [by exists r | done].
  - intros Huniq. by apply (uniqueNames_sub db).
Qed.

Lemma delete_keeps x db :
  wfStore isURL db →
  let db' := (deleteProfileById isURL x db).2 in
  wfStore isURL db' ∧
  (atMostOneDefault db → atMostOneDefault db') ∧
  (uniqueNames db → uniqueNames db').
Proof.
  intros Hwf db'. unfold db'. clear db'. pose proof Hwf as [Hn Hv].
  destruct (decide (x ∈ _id <$> db)) as [Hin|Hout]; cycle 1.
  { unfold deleteProfileById.
    by erewrite bind_inr by (by apply getProfileById_missing). }
  apply list_elem_of_fmap in Hin as (p & -> & Hp).
  rewrite deleteProfileById_found by done. cbn [snd].
  assert (Helem : ∀ q, q ∈ filter (λ q, _id q ≠ _id p) (promoteSibling p db) →
    (q ∈ db) ∨
    (∃ o, o ∈ db ∧ userId o = userId p ∧ q = set_isDefault true o ∧
          (isDefault o = true ∨
           ∀ r, r ∈ filter (λ q, _id q ≠ _id p) (promoteSibling p db) →
                userId r = userId p → isDefault r = true → _id r = _id o)) ∨
    (∃ q0, q0 ∈ db ∧ sameKey q0 q ∧ isDefault q = false)).
  { intros q Hq. apply list_elem_of_filter in Hq as [Hqi Hq].
    revert Hq. unfold promoteSibling at 1.
    destruct (isDefault p) eqn:Hpd; [|by left].
    destruct (head _) as [o|] eqn:Ho; [|by left].
    pose proof (head_Some_elem_of _ _ Ho) as Ho'.
    apply list_elem_of_filter in Ho'. destruct Ho' as [[Hou Hoi] Hoin].
    intros Hq. apply updateFirst_elem in Hq as Hq'.
    destruct Hq' as [->|Hq'].
    - right. left. exists o. split; [done|]. split; [done|]. split; [done|].
      destruct (isDefault o) eqn:Hod; [by left|]. right.
      intros r Hr Hru Hrd. apply list_elem_of_filter in Hr as [Hri Hr].
      unfold promoteSibling in Hr. rewrite Hpd, Ho in Hr.
      rewrite bool_decide_eq_true_2 in Hr by (rewrite Hod; discriminate).
      rewrite updateFirst_fmap in Hr by (by rewrite unsetOthers_ids).
      apply list_elem_of_fmap in Hr as (r1 & -> & Hr1).
      case_decide as E; [done|].
      apply unsetOthers_elem in Hr1 as (r0 & Hr0 & ->).
      case_decide as E'; [discriminate Hrd|].
      exfalso. apply E'. split; [congruence | exact E].
    - case_bool_decide as Hmod; [|by left].
      apply unsetOthers_elem in Hq' as (q0 & Hq0 & ->).
      case_decide; [|by left]. right. right. exists q0.
      split; [done|]. split; [apply sameKey_set_isDefault | done]. }
  split; [|split].
  - split.
    + apply filter_ids_NoDup. by rewrite promoteSibling_ids.
    + apply Forall_forall. intros r Hr.
      apply list_elem_of_filter in Hr as [_ Hr]. revert r Hr. apply Forall_forall.
      by apply promoteSibling_valid.
  - intros Hone q1 q2 H1 H2 Hu Hd1 Hd2.
    assert (Hback : ∀ q, q ∈ filter (λ q, _id q ≠ _id p) (promoteSibling p db) →
      isDefault q = true →
      (∃ q0, q0 ∈ db ∧ _id q0 = _id q ∧ userId q0 = userId q ∧ isDefault q0 = true) ∨
      (userId q = userId p ∧
       ∀ r, r ∈ filter (λ q, _id q ≠ _id p) (promoteSibling p db) →
            userId r = userId p → isDefault r = true → _id r = _id q)).
    { intros q Hq Hqd. destruct (Helem q Hq) as [Hin|[(o & Ho & Hou & -> & Hcase)|(q0 & _ & _ & Hf)]].
      - left. by exists q.
      - destruct Hcase as [Hod|Hall].
        + left. exists o. by destruct o.
        + right. split; [by destruct o|]. intros r Hr Hru Hrd.
          rewrite (Hall r Hr Hru Hrd). by destruct o.
      - congruence. }
    destruct (Hback q1 H1 Hd1) as [(p1 & Hp1 & Hi1 & Hu1 & Hpd1)|[Hua1 Hall1]].
    + destruct (Hback q2 H2 Hd2) as [(p2 & Hp2 & Hi2 & Hu2 & Hpd2)|[Hua2 Hall2]].
      * rewrite <- Hi1, <- Hi2. apply Hone; try done. congruence.
      * apply Hall2; [done | congruence | done].
    + symmetry. apply Hall1; [done | congruence | done].
  - intros Huniq. apply (uniqueNames_sub db); [done|].
    intros q Hq. destruct (Helem q Hq) as [Hin|[(o & Ho & Hou & -> & _)|(q0 & Hq0 & Hk & _)]].
    + by exists q.
    + exists o. split; [done | apply sameKey_set_isDefault].
    + by exists q0.
Qed.

(** An update of a stored profile is either turned down, having written
    nothing, or writes the assigned document back; in the second case the
    name is the old one or is borne by no other profile of the account. *)
Lemma updateProfileById_outcome p body db :
  wfStore isURL db → p ∈ db →
  let p' := Object_assign p body in
  (∃ e, updateProfileById isURL (_id p) body db = (inl e, db) ∧
        (e = ApiError BAD_REQUEST "Profile name already exists for this user" ∨
         ∃ m, e = ValidationError m)) ∨
  (validateProfile isURL p' = None ∧
   (profileName p' = profileName p ∨
    ∀ q, q ∈ db → userId q = userId p → profileName q = profileName p' →
         _id q = _id p) ∧
   updateProfileById isURL (_id p) body db
   = (inr p',
      (λ r, if decide (_id r = _id p) then p' else r)
        <$> (if bool_decide (isDefault p ≠ isDefault p') && isDefault p'
             then unsetOthers (userId p) (_id p) db else db))).
Proof.
  intros [Hn Hv] Hp p'.
  assert (Hsave :
    profileName p = profileName p' ∨
      filter (λ q, profileName q = profileName p' ∧ userId q = userId p' ∧
                   _id q ≠ _id p') db = [] →
    (∃ e, save isURL (mkDocument false p p') db = (inl e, db) ∧
          (e = ApiError BAD_REQUEST "Profile name already exists for this user" ∨
           ∃ m, e = ValidationError m)) ∨
    (validateProfile isURL p' = None ∧
     (profileName p' = profileName p ∨
      ∀ q, q ∈ db → userId q = userId p → profileName q = profileName p' →
           _id q = _id p) ∧
     save isURL (mkDocument false p p') db
     = (inr p',
        (λ r, if decide (_id r = _id p) then p' else r)
          <$> (if bool_decide (isDefault p ≠ isDefault p') && isDefault p'
               then unsetOthers (userId p) (_id p) db else db)))).
  { intros Hname. destruct (validateProfile isURL p') as [m|] eqn:Hvp.
    - left. exists (ValidationError m). split; [by erewrite save_invalid|].
      right. by exists m.
    - right. split; [done|]. split.
      + destruct Hname as [Hname|Hfree]; [by left|]. right.
        intros q Hq Hqu Hqn. destruct (decide (_id q = _id p)) as [|Hne]; [done|].
        exfalso. by eapply (filter_nil_not_elem_of _ db q Hfree).
      + rewrite save_loaded by done.
        change (_id p') with (_id p). change (userId p') with (userId p).
        f_equal. apply updateFirst_fmap.
        destruct (_ && _); [by rewrite unsetOthers_ids | done]. }
  unfold updateProfileById.
  erewrite bind_inr by (by apply getProfileById_found).
  destruct (u_profileName body) as [n|] eqn:Hn0.
  - destruct (decide (n = "")) as [Hempty|Hempty].
    + rewrite (bool_decide_eq_true_2 (n = "")) by done.
      left. erewrite bind_inr by reflexivity. cbn iota.
      eexists. split; [|right; by eexists]. apply save_invalid.
      cbn [this]. unfold validateProfile.
      assert (profileName (Object_assign p body) = "") as ->
        by (unfold Object_assign; cbn; rewrite Hn0, Hempty; cbn; by apply trim_trimmed).
      done.
    + rewrite (bool_decide_eq_false_2 (n = "")) by done.
      destruct (filter (λ q, profileName q = trim n ∧ userId q = userId p ∧
                             Some (_id q) ≠ Some (_id p)) db) as [|q0 l] eqn:E.
      * erewrite bind_inr; cycle 1.
        { unfold isProfileNameTaken, bind, findOne, ret. by rewrite E. }
        cbn [bool_decide]. apply Hsave. right.
        apply filter_none. intros q Hq (Hqn & Hqu & Hqi).
        eapply (filter_nil_not_elem_of _ db q E); [|done].
        split; [|split]; [|exact Hqu|intros [= E']; by apply Hqi].
        rewrite Hqn. unfold p', Object_assign. cbn. by rewrite Hn0.
      * left. erewrite bind_inr; cycle 1.
        { unfold isProfileNameTaken, bind, findOne, ret. by rewrite E. }
        eexists. split; [done | by left].
  - erewrite bind_inr by reflexivity. cbn iota. apply Hsave. left.
    unfold p', Object_assign. cbn. by rewrite Hn0.
Qed.

Lemma update_keeps x body db :
  wfStore isURL db →
  let db' := (updateProfileById isURL x body db).2 in
  wfStore isURL db' ∧
  (atMostOneDefault db → atMostOneDefault db') ∧
  (uniqueNames db → uniqueNames db').
Proof.
  intros Hwf db'. unfold db'. clear db'. pose proof Hwf as [Hn Hv].
  destruct (decide (x ∈ _id <$> db)) as [Hin|Hout]; cycle 1.
  { unfold updateProfileById.
    by erewrite bind_inr by (by apply getProfileById_missing). }
  apply list_elem_of_fmap in Hin as (p & -> & Hp).
  destruct (updateProfileById_outcome p body db Hwf Hp)
    as [(e & -> & _)|(Hvp & Hname & ->)]; [done|].
  cbn [snd].
  set (p' := Object_assign p body) in *.
  set (f := λ r, if decide (_id r = _id p) then p' else r).
  set (flag := bool_decide (isDefault p ≠ isDefault p') && isDefault p').
  set (D := if flag then unsetOthers (userId p) (_id p) db else db).
  assert (HDids : _id <$> D = _id <$> db)
    by (unfold D; destruct flag; [apply unsetOthers_ids | done]).
  assert (HDkey : ∀ q, q ∈ D → ∃ q0, q0 ∈ db ∧ sameKey q0 q).
  { unfold D. destruct flag; [apply unsetOthers_sameKey|]. intros q Hq. by exists q. }
  split; [|split].
  - split.
    + rewrite fmap_keeps_ids; [by rewrite HDids|]. intros r. unfold f. by case_decide.
    + apply Forall_fmap. apply Forall_forall. intros r Hr. cbn.
      unfold f. case_decide as E; [done|]. clear E. revert r Hr. apply Forall_forall.
      unfold D. destruct flag; [by apply unsetOthers_valid | done].
  - intros Hone. unfold D. destruct flag eqn:Hflag.
    + apply (atMostOne_from (userId p) (_id p) db); [done| |].
      * intros q Hq Hqu Hqd. apply list_elem_of_fmap in Hq as (r & -> & Hr). unfold f in *.
        case_decide as E; [done|].
        apply unsetOthers_elem in Hr as (r0 & Hr0 & ->).
        case_decide as E'; [discriminate Hqd|].
        exfalso. apply E'. by split.
      * intros q Hq Hqu Hqd. apply list_elem_of_fmap in Hq as (r & -> & Hr). unfold f in *.
        case_decide as E; [done|].
        apply unsetOthers_other_account in Hr; [by exists r | done].
    + apply (atMostOne_sub db); [done|].
      intros q Hq Hqd. apply list_elem_of_fmap in Hq as (r & -> & Hr). unfold f in *.
      case_decide as E; [|by exists r].
      exists p. split; [done|]. split; [done|]. split; [done|].
      unfold flag in Hflag. rewrite Hqd, andb_true_r in Hflag.
      apply bool_decide_eq_false_1 in Hflag. by apply dec_stable in Hflag.
  - intros Huniq q1 q2 H1 H2 Hu Hnm.
    apply list_elem_of_fmap in H1 as (r1 & -> & Hr1).
    apply list_elem_of_fmap in H2 as (r2 & -> & Hr2).
    destruct (HDkey r1 Hr1) as (s1 & Hs1 & Hi1 & Hu1 & Hn1).
    destruct (HDkey r2 Hr2) as (s2 & Hs2 & Hi2 & Hu2 & Hn2).
    assert (Hown : ∀ r s0, s0 ∈ db → sameKey s0 r → userId r = userId p →
                          profileName r = profileName p' → _id r = _id p).
    { intros r s0 Hs0 (Hi & Hus & Hns) Hru Hrn. rewrite <- Hi.
      destruct Hname as [Hsame|Hfree].
      - apply Huniq; [done..| |]; congruence.
      - apply Hfree; [done| |]; congruence. }
    unfold f in *.
    destruct (decide (_id r1 = _id p)) as [E1|E1],
             (decide (_id r2 = _id p)) as [E2|E2].
    + done.
    + symmetry. change (_id p') with (_id p). by apply (Hown r2 s2).
    + change (_id p') with (_id p). by apply (Hown r1 s1).
    + rewrite <- Hi1, <- Hi2. apply Huniq; try done; congruence.
Qed.

Lemma after_keeps c db :
  wfStore isURL db → freshId c db →
  wfStore isURL (after isURL c db) ∧
  (atMostOneDefault db → atMostOneDefault (after isURL c db)) ∧
  (uniqueNames db → uniqueNames (after isURL c db)).
Proof.
  intros Hwf Hfresh. destruct c; cbn [after].
  - by apply create_keeps.
  - by apply update_keeps.
  - by apply setDefault_keeps.
  - by apply delete_keeps.
Qed.

(** X6. Whatever sequence of service calls is made, with whatever bodies, no
    account ends up with two default profiles; unique [_id]s and schema
    validity of the stored documents are kept along the way. *)
Theorem never_two_defaults (cs : list Call) db :
  wfStore isURL db → atMostOneDefault db → freshIds isURL cs db →
  wfStore isURL (runCalls isURL cs db) ∧ atMostOneDefault (runCalls isURL cs db).
Proof.
  revert db. induction cs as [|c cs IH]; intros db Hwf Hone Hfresh; [done|].
  destruct Hfresh as [Hc Hfresh].
  destruct (after_keeps c db Hwf Hc) as (Hwf' & Hone' & _).
  cbn [runCalls foldl]. apply IH; auto.
Qed.

(** X7. Whatever sequence of service calls is made, no account ends up with two
    profiles of the same name: the service checks keep what the unique index
    on [(userId, profileName)] demands. *)
Theorem names_stay_unique (cs : list Call) db :
  wfStore isURL db → uniqueNames db → freshIds isURL cs db →
  uniqueNames (runCalls isURL cs db).
Proof.
  revert db. induction cs as [|c cs IH]; intros db Hwf Huniq Hfresh; [done|].
  destruct Hfresh as [Hc Hfresh].
  destruct (after_keeps c db Hwf Hc) as (Hwf' & _ & Huniq').
  cbn [runCalls foldl]. apply IH; auto.
Qed.


(** X9. A create that rejects has written nothing, and rejects either with the
    400 for a taken name or with a schema validation error; a create that
    resolves has appended exactly one document, the one it returns, under
    the generated [_id] and for the account named in the body. *)
Theorem create_all_or_nothing (oid : ObjectId) (body : ProfileBody) db :
  oid ∉ _id <$> db →
  (∀ e, (createProfile isURL oid body db).1 = inl e →
        (createProfile isURL oid body db).2 = db ∧
        (e = ApiError BAD_REQUEST "Profile name already exists for this user" ∨
         ∃ m, e = ValidationError m)) ∧
  (∀ p, (createProfile isURL oid body db).1 = inr p →
        _id p = oid ∧ userId p = b_userId body ∧
        profileName p = trim (b_profileName body) ∧
        _id <$> (createProfile isURL oid body db).2 = (_id <$> db) ++ [oid] ∧
        last (createProfile isURL oid body db).2 = Some p).
Proof.
  intros Hfresh.
  destruct (createProfile_rejected oid body db Hfresh) as [(e & E & He)|[Hfree Hvalid]].
  - rewrite E. cbn. split; [by intros ? [= <-] | intros ? [=]].
  - pose proof (createProfile_ok isURL oid body db Hfree Hvalid Hfresh) as Hok.
    cbv zeta in Hok. rewrite Hok. cbn [fst snd]. split; [intros ? [=]|].
    intros p [= <-]. split; [done|]. split; [done|]. split; [done|]. split.
    + rewrite fmap_app. f_equal.
      match goal with |- context [if ?c then _ else _] => destruct c end;
        [apply unsetOthers_ids | done].
    + by rewrite last_snoc.
Qed.

Lemma isProfileNameTaken_sibling name u x db q :
  q ∈ db → userId q = u → profileName q = trim name → _id q ≠ x →
  isProfileNameTaken name u (Some x) db = (inr true, db).
Proof.
  intros Hq Hu Hn Hi. unfold isProfileNameTaken, bind, findOne, ret.
  destruct (filter _ db) as [|r l] eqn:E; [|done].
  exfalso. eapply (filter_nil_not_elem_of _ db q E); [|done].
  split; [done|]. split; [done|]. congruence.
Qed.

(** X10. An update of a profile that does not exist rejects with [NOT_FOUND]; a
    rename to a name that, once trimmed, is the name of another profile of
    the same account rejects with the 400; every rejected update has written
    nothing.  An update that resolves returns the stored profile with the
    body assigned onto it (the schema's setters trimming the strings), and
    has neither added nor removed a document nor changed any [_id] or
    owner. *)
Theorem update_outcomes (x : ObjectId) (body : UpdateBody) db :
  wfStore isURL db →
  (x ∉ _id <$> db →
     updateProfileById isURL x body db
     = (inl (ApiError NOT_FOUND "Profile not found"), db)) ∧
  (∀ p q n, p ∈ db → _id p = x → q ∈ db → userId q = userId p → _id q ≠ x →
            profileName q = trim n → n ≠ "" → u_profileName body = Some n →
     updateProfileById isURL x body db
     = (inl (ApiError BAD_REQUEST "Profile name already exists for this user"), db)) ∧
  (∀ e, (updateProfileById isURL x body db).1 = inl e →
        (updateProfileById isURL x body db).2 = db) ∧
  (∀ p', (updateProfileById isURL x body db).1 = inr p' →
     (∃ p, p ∈ db ∧ _id p = x ∧ p' = Object_assign p body) ∧
     p' ∈ (updateProfileById isURL x body db).2 ∧
     (_id <$> (updateProfileById isURL x body db).2 = _id <$> db) ∧
     (userId <$> (updateProfileById isURL x body db).2 = userId <$> db)).
Proof.
  intros Hwf. pose proof Hwf as [Hn Hv].
  assert (Hmiss : x ∉ _id <$> db →
     updateProfileById isURL x body db
     = (inl (ApiError NOT_FOUND "Profile not found"), db)).
  { intros Hout. unfold updateProfileById.
    by erewrite bind_inr by (by apply getProfileById_missing). }
  split; [exact Hmiss|]. split.
  { intros p q n Hp <- Hq Hqu Hqi Hqn Hne Hbody. unfold updateProfileById.
    erewrite bind_inr by (by apply getProfileById_found).
    rewrite Hbody, (bool_decide_eq_false_2 (n = "")) by done.
    by erewrite bind_inr by (by eapply isProfileNameTaken_sibling). }
  destruct (decide (x ∈ _id <$> db)) as [Hin|Hout]; cycle 1.
  { rewrite (Hmiss Hout). cbn. split; [done | intros ? [=]]. }
  apply list_elem_of_fmap in Hin as (p & -> & Hp).
  destruct (updateProfileById_outcome p body db Hwf Hp)
    as [(e & -> & _)|(Hvp & Hname & ->)].
  { cbn. split; [done | intros ? [=]]. }
  cbn [fst snd]. split; [intros ? [=]|]. intros p' [= <-].
  set (p' := Object_assign p body).
  set (f := λ r, if decide (_id r = _id p) then p' else r).
  set (D := if _ && _ then _ else db).
  assert (HDp : ∃ r, r ∈ D ∧ _id r = _id p).
  { unfold D. destruct (_ && _); [|by exists p].
    eexists. split; [apply unsetOthers_elem; by exists p|]. by case_decide. }
  split; [by exists p|]. split; [|split].
  - destruct HDp as (r & Hr & Hri). apply list_elem_of_fmap. exists r.
    split; [|done]. unfold f. by rewrite decide_True.
  - rewrite fmap_keeps_ids; [|intros r; unfold f; by case_decide].
    unfold D. destruct (_ && _); [apply unsetOthers_ids | done].
  - transitivity (userId <$> D).
    + rewrite <- list_fmap_compose. apply list_fmap_ext. intros i r Hr. cbn.
      unfold f. case_decide as E; [|done].
      apply list_elem_of_lookup_2 in Hr.
      assert (∃ r0, r0 ∈ db ∧ sameKey r0 r) as (r0 & Hr0 & Hk).
      { unfold D in Hr. destruct (_ && _); [by apply unsetOthers_sameKey in Hr|].
        by exists r. }
      destruct Hk as (Hk1 & Hk2 & _). rewrite <- Hk2.
      assert (r0 = p) as -> by (apply (id_inj db); [done..|congruence]). done.
    + unfold D. destruct (_ && _); [|done].
      unfold unsetOthers, updateMany. cbn [snd].
      rewrite <- list_fmap_compose. apply list_fmap_ext. intros i r _. cbn.
      case_decide; [by destruct r | done].
Qed.

Lemma set_isDefault_same q : set_isDefault (isDefault q) q = q.
Proof. by destruct q. Qed.

Lemma setDefaultProfile_found p db :
  NoDup (_id <$> db) → p ∈ db →
  setDefaultProfile (userId p) (_id p) db
  = (inr (Some (set_isDefault true p)),
     (λ r, if decide (_id r = _id p) then set_isDefault true r else r)
       <$> unsetOthers (userId p) (_id p) db).
Proof.
  intros Hn Hp. unfold setDefaultProfile.
  assert (Hfind : findOne (λ q, _id q = _id p ∧ userId q = userId p) db
                  = (inr (Some p), db)).
  { unfold findOne. f_equal. f_equal.
    destruct (filter _ db) as [|r l] eqn:E.
    - exfalso. by eapply (filter_nil_not_elem_of _ db p E).
    - assert (Hr : r ∈ filter (λ q, _id q = _id p ∧ userId q = userId p) db)
        by (rewrite E; by left).
      apply list_elem_of_filter in Hr as [[Hri _] Hr].
      cbn. f_equal. by apply (id_inj db). }
  rewrite (bind_inr _ _ _ _ _ Hfind).
  unfold bind, updateOne.
  change (updateMany _ _ db) with (inr (A := Error) tt, unsetOthers (userId p) (_id p) db).
  cbn iota beta.
  rewrite updateFirst_fmap_gen by (by rewrite unsetOthers_ids).
  set (db' := _ <$> unsetOthers _ _ db).
  assert (Hp' : set_isDefault true p ∈ db').
  { apply list_elem_of_fmap. exists p. split; [by rewrite decide_True|].
    apply unsetOthers_elem. exists p. split; [done|].
    rewrite decide_False; [done|]. intros [_ H']. by apply H'. }
  assert (Hn' : NoDup (_id <$> db')).
  { unfold db'. rewrite fmap_keeps_ids; [by rewrite unsetOthers_ids|].
    intros r. by case_decide. }
  change (_id p) with (_id (set_isDefault true p)) at 1.
  by rewrite getProfileById_found.
Qed.

Lemma setDefaultProfile_missing (u x : ObjectId) db :
  (∀ p, p ∈ db → _id p = x → userId p ≠ u) →
  setDefaultProfile u x db = (inl (ApiError NOT_FOUND "Profile not found"), db).
Proof.
  intros Hnone. unfold setDefaultProfile, bind, findOne.
  rewrite filter_none; [done|]. intros p Hp [Hi Hu]. by apply (Hnone p).
Qed.

(** X11. [setDefaultProfile] rejects with [NOT_FOUND], writing nothing, when no
    profile with that id belongs to the account (it is missing, or someone
    else's).  Otherwise it resolves with the profile, now default; that
    profile is then the account's only default, every other profile of the
    account is stored with [isDefault = false] and otherwise unchanged, and
    the documents of other accounts are untouched. *)
Theorem setDefault_outcomes (u x : ObjectId) db :
  NoDup (_id <$> db) →
  ((∀ p, p ∈ db → _id p = x → userId p ≠ u) →
     setDefaultProfile u x db = (inl (ApiError NOT_FOUND "Profile not found"), db)) ∧
  (∀ p, p ∈ db → _id p = x → userId p = u →
     ∃ db',
       setDefaultProfile u x db = (inr (Some (set_isDefault true p)), db') ∧
       defaultsOf u db' = [set_isDefault true p] ∧
       (∀ q, q ∈ db → userId q = u → _id q ≠ x → set_isDefault false q ∈ db') ∧
       (∀ q, userId q ≠ u → q ∈ db' ↔ q ∈ db) ∧
       _id <$> db' = _id <$> db).
Proof.
  intros Hn. split.
  - apply setDefaultProfile_missing.
  - intros p Hp <- <-. eexists. split; [by apply setDefaultProfile_found|].
    set (f := λ r, if decide (_id r = _id p) then set_isDefault true r else r).
    set (db' := f <$> unsetOthers (userId p) (_id p) db).
    assert (Hids : _id <$> db' = _id <$> db).
    { unfold db'. rewrite fmap_keeps_ids; [by rewrite unsetOthers_ids|].
      intros r. unfold f. by case_decide. }
    assert (Hp' : set_isDefault true p ∈ db').
    { apply list_elem_of_fmap. exists p. split; [unfold f; by rewrite decide_True|].
      apply unsetOthers_elem. exists p. split; [done|].
      rewrite decide_False; [done|]. intros [_ H']. by apply H'. }
    split; [|split; [|split; [|done]]].
    + assert (Hlen : length (defaultsOf (userId p) db') = 1%nat).
      { apply (filter_unique_by_id _ (_id p)); [by rewrite Hids| |].
        - intros q Hq [Hqu Hqd]. apply list_elem_of_fmap in Hq as (r & -> & Hr).
          unfold f in *. case_decide as E; [by destruct r|].
          apply unsetOthers_elem in Hr as (r0 & Hr0 & ->).
          case_decide as E'; [discriminate Hqd|]. exfalso. apply E'. by split.
        - exists (set_isDefault true p). by destruct p. }
      assert (Hin : set_isDefault true p ∈ defaultsOf (userId p) db').
      { apply list_elem_of_filter. split; [by destruct p | done]. }
      destruct (defaultsOf (userId p) db') as [|d [|d' l]]; cbn in Hlen; try lia.
      apply list_elem_of_singleton in Hin. by subst d.
    + intros q Hq Hqu Hqi. apply list_elem_of_fmap. exists (set_isDefault false q).
      split; [unfold f; rewrite decide_False; [done | by destruct q]|].
      apply unsetOthers_elem. exists q. split; [done|]. by rewrite decide_True.
    + intros q Hqu. unfold db'. rewrite list_elem_of_fmap. split.
      * intros (r & -> & Hr). unfold f in *. case_decide as E.
        -- exfalso. apply unsetOthers_elem in Hr as (r0 & Hr0 & ->).
           assert (r0 = p) as ->.
           { apply (id_inj db); [done..|]. rewrite <- E. by case_decide. }
           apply Hqu. by case_decide.
        -- by apply unsetOthers_other_account in Hr.
      * intros Hq. exists q. split.
        -- unfold f. rewrite decide_False; [done|]. intros E.
           assert (q = p) as -> by (by apply (id_inj db)). done.
        -- by apply unsetOthers_other_account.
Qed.

(** X12. Setting the same default twice is the same as setting it once: same
    answer, same collection. *)
Theorem setDefault_idempotent (u x : ObjectId) db :
  NoDup (_id <$> db) →
  setDefaultProfile u x (setDefaultProfile u x db).2 = setDefaultProfile u x db.
Proof.
  intros Hn.
  destruct (decide (Exists (λ p, _id p = x ∧ userId p = u) db)) as [Hyes|Hno];
    rewrite Exists_exists in *.
  - destruct Hyes as (p & Hp & <- & <-).
    rewrite (setDefaultProfile_found p db Hn Hp). cbn [snd].
    set (f := λ r, if decide (_id r = _id p) then set_isDefault true r else r).
    set (db' := f <$> unsetOthers (userId p) (_id p) db).
    assert (Hn' : NoDup (_id <$> db')).
    { unfold db'. rewrite fmap_keeps_ids; [by rewrite unsetOthers_ids|].
      intros r. unfold f. by case_decide. }
    assert (Hp' : set_isDefault true p ∈ db').
    { apply list_elem_of_fmap. exists p. split; [unfold f; by rewrite decide_True|].
      apply unsetOthers_elem. exists p. split; [done|].
      rewrite decide_False; [done|]. intros [_ H']. by apply H'. }
    pose proof (setDefaultProfile_found (set_isDefault true p) db' Hn' Hp') as E.
    change (userId (set_isDefault true p)) with (userId p) in E.
    change (_id (set_isDefault true p)) with (_id p) in E.
    rewrite E. f_equal; try (by destruct p).
    fold f. rewrite <- (list_fmap_id db') at 2.
    unfold unsetOthers, updateMany. cbn [snd]. rewrite <- list_fmap_compose.
    apply list_fmap_ext. intros i q Hq. apply list_elem_of_lookup_2 in Hq. cbn.
    unfold db' in Hq. apply list_elem_of_fmap in Hq as (r & -> & Hr).
    apply unsetOthers_elem in Hr as (r0 & Hr0 & ->).
    unfold f. destruct r0 as [i0 u0 n0 d0 b0 a0 t0 s0 ac0 df0]. cbn.
    repeat (case_decide; cbn in *); try done; naive_solver.
  - assert (Hnone : ∀ p, p ∈ db → _id p = x → userId p ≠ u).
    { intros p Hp Hi Hu. apply Hno. by exists p. }
    rewrite (setDefaultProfile_missing u x db Hnone). cbn [snd].
    by rewrite (setDefaultProfile_missing u x db Hnone).
Qed.

(** X13. Where every account that has a profile has exactly one default, every
    sequence of service calls keeps it so, as long as no update turns the
    flag off on a current default: creates, renames, changes of default and
    deletes demote and promote as needed. *)
Theorem exactly_one_default_kept (cs : list Call) db :
  wfStore isURL db → singleDefault db → keepsDefaults isURL cs db →
  wfStore isURL (runCalls isURL cs db) ∧ singleDefault (runCalls isURL cs db).
Proof.
  revert db. induction cs as [|c cs IH]; intros db Hwf Hsingle Hkeeps; [done|].
  destruct Hkeeps as (Hfresh & Hkeep & Hkeeps).
  destruct (after_preserves isURL c db Hwf Hsingle Hfresh Hkeep) as [Hwf' Hsingle'].
  cbn [runCalls foldl]. by apply IH.
Qed.

(** X14. On a collection with at most one default per account, the update
    [{ isDefault: true }] and [setDefaultProfile] do the same thing: both
    resolve with the profile, now default, and leave the same collection. *)
Theorem patch_default_is_setDefault p db :
  wfStore isURL db → atMostOneDefault db → p ∈ db →
  updateProfileById isURL (_id p) makeDefaultBody db
  = (inr (set_isDefault true p), (setDefaultProfile (userId p) (_id p) db).2) ∧
  (setDefaultProfile (userId p) (_id p) db).1 = inr (Some (set_isDefault true p)).
Proof.
  intros [Hn Hv] Hone Hp.
  rewrite (setDefaultProfile_found p db Hn Hp). cbn [fst snd]. split; [|done].
  assert (Hassign : Object_assign p makeDefaultBody = set_isDefault true p)
    by (by destruct p).
  unfold updateProfileById.
  erewrite bind_inr by (by apply getProfileById_found).
  cbn [u_profileName makeDefaultBody]. erewrite bind_inr by reflexivity. cbn iota.
  rewrite Hassign.
  rewrite save_loaded_same_name; cycle 1.
  { rewrite validate_set_isDefault. rewrite Forall_forall in Hv. by apply Hv. }
  { by destruct p. }
  f_equal. cbn [isDefault set_isDefault _id userId]. rewrite andb_true_r.
  change (_id (set_isDefault true p)) with (_id p).
  change (userId (set_isDefault true p)) with (userId p).
  assert (Hd : ∀ r0, _id r0 = _id p → r0 ∈ db → r0 = p)
    by (intros r0 E Hr0; by apply (id_inj db)).
  case_bool_decide as Hflag.
  - rewrite updateFirst_fmap by (by rewrite unsetOthers_ids).
    apply list_fmap_ext. intros i r Hr. apply list_elem_of_lookup_2 in Hr.
    case_decide as E; [|done].
    apply unsetOthers_elem in Hr as (r0 & Hr0 & ->).
    assert (r0 = p) as -> by (apply Hd; [|done]; rewrite <- E; by case_decide).
    rewrite decide_False; [done|]. intros [_ H']. by apply H'.
  - rewrite updateFirst_fmap by done.
    unfold unsetOthers, updateMany. cbn [snd]. rewrite <- list_fmap_compose.
    apply list_fmap_ext. intros i r0 Hr0. apply list_elem_of_lookup_2 in Hr0. cbn.
    destruct (decide (_id r0 = _id p)) as [E|E].
    + assert (r0 = p) as -> by (by apply Hd).
      rewrite (decide_False (P := userId p = userId p ∧ _id p ≠ _id p))
        by (intros [_ H']; by apply H').
      by rewrite decide_True.
    + assert (Hkeep : (if decide (userId r0 = userId p ∧ _id r0 ≠ _id p)
                       then set_isDefault false r0 else r0) = r0).
      { case_decide as E'; [|done]. destruct E' as [Hu _].
        destruct (isDefault r0) eqn:Hrd.
        - exfalso. apply E. by apply Hone.
        - by rewrite <- Hrd, set_isDefault_same. }
      rewrite Hkeep. by rewrite decide_False.
Qed.

End Invariants.

(** The runs below start from two accounts' worth of sample data. *)
Lemma twoProfiles_atMostOne :
  atMostOneDefault [mainProfile; construct 2%N workBody false].
Proof.
  intros p q Hp Hq _ Hpd Hqd.
  assert (Hmain : ∀ r, r ∈ [mainProfile; construct 2%N workBody false] →
                       isDefault r = true → r = mainProfile).
  { intros r Hr Hrd. apply elem_of_cons in Hr as [->|Hr]; [done|].
    apply list_elem_of_singleton in Hr. subst r. discriminate Hrd. }
  by rewrite (Hmain p Hp Hpd), (Hmain q Hq Hqd).
Qed.

Lemma twoProfiles_uniqueNames :
  uniqueNames [mainProfile; construct 2%N workBody false].
Proof.
  intros p q Hp Hq _ Hn.
  apply elem_of_cons in Hp as [->|Hp]; apply elem_of_cons in Hq as [->|Hq];
    try apply list_elem_of_singleton in Hp; try apply list_elem_of_singleton in Hq;
    subst; try done; discriminate Hn.
Qed.

Lemma never_two_defaults_witness :
  atMostOneDefault
    (runCalls anyURL sampleRun [mainProfile; construct 2%N workBody false]).
Proof.
  refine (proj2 (never_two_defaults anyURL sampleRun _
                   ProfileClaims.twoProfiles_wf twoProfiles_atMostOne _)).
  vm_compute. repeat split; try done.
  intros H. repeat (apply elem_of_cons in H as [H|H]; [discriminate H|]).
  by apply elem_of_nil in H.
Defined.

Lemma names_stay_unique_witness :
  uniqueNames
    (runCalls anyURL sampleRun [mainProfile; construct 2%N workBody false]).
Proof.
  refine (names_stay_unique anyURL sampleRun _
            ProfileClaims.twoProfiles_wf twoProfiles_uniqueNames _).
  vm_compute. repeat split; try done.
  intros H. repeat (apply elem_of_cons in H as [H|H]; [discriminate H|]).
  by apply elem_of_nil in H.
Defined.

Lemma exactly_one_default_kept_witness :
  singleDefault
    (runCalls anyURL
       [CreateProfile 3%N otherAccountBody;
        UpdateProfileById 2%N (renameBody "main");
        SetDefaultProfile 100%N 2%N;
        DeleteProfileById 2%N]
       [mainProfile; workProfile]).
Proof.
  refine (proj2 (exactly_one_default_kept anyURL
                   [CreateProfile 3%N otherAccountBody;
                    UpdateProfileById 2%N (renameBody "main");
                    SetDefaultProfile 100%N 2%N;
                    DeleteProfileById 2%N]
                   [mainProfile; workProfile] ProfileClaims.twoProfiles_wf _ _)).
  - apply singleDefault_alt; [exact (proj1 ProfileClaims.twoProfiles_wf)|].
    intros u (p & Hp & Hu). exists mainProfile.
    assert (u = 100%N) as ->.
    { apply elem_of_cons in Hp as [->|Hp]; [done|].
      apply list_elem_of_singleton in Hp. by subst p. }
    split; [apply elem_of_cons; by left|]. split; [done|]. split; [done|].
    intros q Hq _ Hqd. apply elem_of_cons in Hq as [->|Hq]; [done|].
    apply list_elem_of_singleton in Hq. subst q. discriminate Hqd.
  - vm_compute. repeat split; try tauto; try (intros [H _]; discriminate H).
    intros H. repeat (apply elem_of_cons in H as [H|H]; [discriminate H|]).
    by apply elem_of_nil in H.
Defined.


Lemma create_all_or_nothing_witness :
  (createProfile anyURL 2%N
     (mkProfileBody 100%N "main" "Again" None None None None None None)
     [mainProfile]).2 = [mainProfile] ∧
  last (createProfile anyURL 2%N workBody [mainProfile]).2
  = Some (construct 2%N workBody true).
Proof.
  assert (Hfresh : 2%N ∉ _id <$> [mainProfile]).
  { intros H. apply list_elem_of_singleton in H. discriminate H. }
  split.
  - destruct (create_all_or_nothing anyURL 2%N
                (mkProfileBody 100%N "main" "Again" None None None None None None)
                [mainProfile] Hfresh) as [Hrejected _].
    exact (proj1 (Hrejected _ eq_refl)).
  - destruct (create_all_or_nothing anyURL 2%N workBody [mainProfile] Hfresh)
      as [_ Hresolved].
    exact (proj2 (proj2 (proj2 (proj2 (Hresolved _ eq_refl))))).
Defined.

Lemma update_outcomes_witness :
  updateProfileById anyURL 9%N makeDefaultBody [mainProfile; workProfile]
  = (inl (ApiError NOT_FOUND "Profile not found"), [mainProfile; workProfile]) ∧
  updateProfileById anyURL 2%N (renameBody "main") [mainProfile; workProfile]
  = (inl (ApiError BAD_REQUEST "Profile name already exists for this user"),
     [mainProfile; workProfile]).
Proof.
  split.
  - apply (update_outcomes anyURL 9%N makeDefaultBody _ ProfileClaims.twoProfiles_wf).
    intros H. repeat (apply elem_of_cons in H as [H|H]; [discriminate H|]).
    by apply elem_of_nil in H.
  - refine (proj1 (proj2 (update_outcomes anyURL 2%N (renameBody "main") _
                            ProfileClaims.twoProfiles_wf))
              workProfile mainProfile "main" _ eq_refl _ eq_refl _ eq_refl _ eq_refl).
    + apply elem_of_cons. right. apply elem_of_cons. by left.
    + apply elem_of_cons. by left.
    + discriminate.
    + discriminate.
Defined.

Lemma setDefault_outcomes_witness :
  setDefaultProfile 200%N 1%N [mainProfile; workProfile]
  = (inl (ApiError NOT_FOUND "Profile not found"), [mainProfile; workProfile]) ∧
  ∃ db',
    setDefaultProfile 100%N 2%N [mainProfile; workProfile]
    = (inr (Some (set_isDefault true workProfile)), db') ∧
    defaultsOf 100%N db' = [set_isDefault true workProfile].
Proof.
  pose proof (setDefault_outcomes 200%N 1%N [mainProfile; workProfile]
                (proj1 ProfileClaims.twoProfiles_wf)) as [Hmissing _].
  pose proof (setDefault_outcomes 100%N 2%N [mainProfile; workProfile]
                (proj1 ProfileClaims.twoProfiles_wf)) as [_ Hfound].
  split.
  - apply Hmissing. intros p Hp Hi.
    apply elem_of_cons in Hp as [->|Hp]; [discriminate|].
    apply list_elem_of_singleton in Hp. subst p. discriminate Hi.
  - destruct (Hfound workProfile) as (db' & E & Hd & _); [|reflexivity|reflexivity|].
    + apply elem_of_cons. right. apply elem_of_cons. by left.
    + exists db'. by split.
Defined.

Lemma setDefault_idempotent_witness :
  setDefaultProfile 100%N 2%N
    (setDefaultProfile 100%N 2%N [mainProfile; workProfile]).2
  = setDefaultProfile 100%N 2%N [mainProfile; workProfile].
Proof.
  apply setDefault_idempotent. exact (proj1 ProfileClaims.twoProfiles_wf).
Defined.

Lemma patch_default_is_setDefault_witness :
  updateProfileById anyURL 2%N makeDefaultBody [mainProfile; workProfile]
  = (inr (set_isDefault true workProfile),
     (setDefaultProfile 100%N 2%N [mainProfile; workProfile]).2).
Proof.
  refine (proj1 (patch_default_is_setDefault anyURL workProfile
                   [mainProfile; workProfile]
                   ProfileClaims.twoProfiles_wf twoProfiles_atMostOne _)).
  apply elem_of_cons. right. apply elem_of_cons. by left.
Defined.

End ProfileExtras.

(** ** The HTTP handlers: access control and what a request can reach *)

Module ControllerExtras.
Import ProfileModel ProfileService ProfileController ProfileFacts DefaultInvariant
  ProfileNotions Samples.

Section Handlers.
Context {stringOps : StringOps}.
Variable isURL : string → bool.
Variable createdAt : ObjectId → Z.
Implicit Types (db : Store) (p q r : Profile) (u v x : ObjectId).

(** *** Who owns what is never rewritten *)

Lemma owned_fmap_elem (g : Profile → Profile) db :
  (∀ r, r ∈ db → owned (g r) = owned r) → owned <$> (g <$> db) = owned <$> db.
Proof.
  intros Hg. rewrite <- list_fmap_compose. apply list_fmap_ext.
  intros i r Hr. apply Hg. by eapply list_elem_of_lookup_2.
Qed.

Lemma owned_unsetOthers u x db : owned <$> unsetOthers u x db = owned <$> db.
Proof.
  unfold unsetOthers, updateMany. cbn [snd]. apply owned_fmap_elem.
  intros r _. by case_decide.
Qed.

Lemma owned_elem db db' r :
  owned <$> db' = owned <$> db → r ∈ db' → ∃ r0, r0 ∈ db ∧ owned r0 = owned r.
Proof.
  intros E Hr. apply (list_elem_of_fmap_2 owned) in Hr. rewrite E in Hr.
  apply list_elem_of_fmap in Hr as (r0 & E0 & Hr0). by exists r0.
Qed.

Lemma owned_ids db db' : owned <$> db' = owned <$> db → _id <$> db' = _id <$> db.
Proof.
  intros E. apply (f_equal (fmap fst)) in E.
  by rewrite <- !list_fmap_compose in E.
Qed.

Lemma owned_same db p r :
  NoDup (_id <$> db) → p ∈ db → r ∈ db → _id r = _id p → owned r = owned p.
Proof. intros Hn Hp Hr E. by rewrite (id_inj db r p Hn Hr Hp E). Qed.

(** Replacing the document of a given [_id] by one of the same owner. *)
Lemma owned_replace x q db L :
  NoDup (_id <$> db) → owned <$> L = owned <$> db →
  (∀ p, p ∈ db → _id p = x → owned q = owned p) →
  owned <$> ((λ r, if decide (_id r = x) then q else r) <$> L) = owned <$> db.
Proof.
  intros Hn E Hq. rewrite <- E. apply owned_fmap_elem. intros r Hr.
  case_decide as Hx; [|done].
  destruct (owned_elem db L r E Hr) as (r0 & Hr0 & E0).
  rewrite <- E0. apply Hq; [done|]. injection E0 as -> _. done.
Qed.

Lemma bind_ret_store {S A B} (m : Async S A) (f : A → B) s :
  (bind m (λ a, ret (f a)) s).2 = (m s).2.
Proof. unfold bind, ret. by destruct (m s) as [[e|a] s']. Qed.

Lemma updateProfileById_missing x body db :
  x ∉ _id <$> db →
  updateProfileById isURL x body db = (inl (ApiError NOT_FOUND "Profile not found"), db).
Proof.
  intros Hout. unfold updateProfileById.
  by erewrite bind_inr by (by apply getProfileById_missing).
Qed.

Lemma deleteProfileById_missing x db :
  x ∉ _id <$> db →
  deleteProfileById isURL x db = (inl (ApiError NOT_FOUND "Profile not found"), db).
Proof.
  intros Hout. unfold deleteProfileById.
  by erewrite bind_inr by (by apply getProfileById_missing).
Qed.

Lemma elem_of_ids db x : x ∈ _id <$> db → ∃ p, p ∈ db ∧ _id p = x.
Proof. intros H. apply list_elem_of_fmap in H as (p & -> & Hp). by exists p. Qed.

Lemma update_owned x body db :
  wfStore isURL db → owned <$> (updateProfileById isURL x body db).2 = owned <$> db.
Proof.
  intros Hwf. pose proof Hwf as [Hn _].
  destruct (decide (x ∈ _id <$> db)) as [Hin|Hout];
    [|by rewrite updateProfileById_missing].
  apply elem_of_ids in Hin as (p & Hp & <-).
  destruct (updateProfileById_cases isURL p body db Hwf Hp) as [->|[_ ->]]; [done|].
  apply owned_replace; [done| |].
  - case_match; [apply owned_unsetOthers|done].
  - intros p0 Hp0 E. by rewrite (id_inj db p0 p Hn Hp0 Hp E).
Qed.

Lemma setDefault_owned u x db :
  NoDup (_id <$> db) → owned <$> (setDefaultProfile u x db).2 = owned <$> db.
Proof.
  intros Hn. destruct (setDefaultProfile_cases u x db Hn) as [->|(p & Hp & <- & <- & ->)];
    [done|].
  rewrite owned_fmap_elem; [apply owned_unsetOthers|].
  intros r _. by case_decide.
Qed.

Lemma promoteSibling_owned p db :
  NoDup (_id <$> db) → owned <$> promoteSibling p db = owned <$> db.
Proof.
  intros Hn. unfold promoteSibling. destruct (isDefault p); [|done].
  destruct (head _) as [o|] eqn:Ho; [|done].
  pose proof (head_Some_elem_of _ _ Ho) as Ho'.
  apply list_elem_of_filter in Ho' as [_ Ho'].
  rewrite updateFirst_fmap by (case_match; [by rewrite unsetOthers_ids|done]).
  apply owned_replace; [done| |].
  - case_match; [apply owned_unsetOthers|done].
  - intros p0 Hp0 E. by rewrite (id_inj db p0 o Hn Hp0 Ho' E).
Qed.

Lemma create_owned oid body db :
  oid ∉ _id <$> db →
  owned <$> (createProfile isURL oid body db).2 = owned <$> db ∨
  owned <$> (createProfile isURL oid body db).2 = (owned <$> db) ++ [(oid, b_userId body)].
Proof.
  intros Hfresh.
  destruct (createProfile_cases isURL oid body db Hfresh) as [->|[Hfree Hvalid]];
    [by left|right].
  pose proof (createProfile_ok isURL oid body db Hfree Hvalid Hfresh) as Hok.
  cbv zeta in Hok. rewrite Hok. cbn [snd]. rewrite fmap_app. f_equal.
  case_match; [apply owned_unsetOthers|done].
Qed.

(** *** Other accounts are out of reach *)

Lemma othersOf_fmap_elem u (g : Profile → Profile) db :
  (∀ r, r ∈ db → userId r ≠ u → g r = r) →
  (∀ r, r ∈ db → userId r = u → userId (g r) = u) →
  othersOf u (g <$> db) = othersOf u db.
Proof.
  unfold othersOf. induction db as [|r db IH]; intros Hother Hown; [done|].
  rewrite fmap_cons, !filter_cons.
  rewrite IH; cycle 1.
  { intros r' Hr'. apply Hother. apply elem_of_cons. by right. }
  { intros r' Hr'. apply Hown. apply elem_of_cons. by right. }
  destruct (decide (userId r = u)) as [E|E].
  - rewrite (decide_False (P := userId (g r) ≠ u)), (decide_False (P := userId r ≠ u));
      [done|by intros H|].
    intros H. apply H, Hown; [by apply elem_of_cons; left|done].
  - rewrite Hother by (try done; by apply elem_of_cons; left).
    done.
Qed.

Lemma othersOf_unsetOthers u x db : othersOf u (unsetOthers u x db) = othersOf u db.
Proof.
  unfold unsetOthers, updateMany. cbn [snd]. apply othersOf_fmap_elem.
  - intros r _ Hr. rewrite decide_False; [done|]. by intros [? _].
  - intros r _ Hr. by case_decide.
Qed.

Lemma othersOf_replace u x q db L :
  NoDup (_id <$> db) → owned <$> L = owned <$> db →
  (∀ p, p ∈ db → _id p = x → userId p = u) → userId q = u →
  othersOf u ((λ r, if decide (_id r = x) then q else r) <$> L) = othersOf u L.
Proof.
  intros Hn E Hx Hq. apply othersOf_fmap_elem.
  - intros r Hr Hu. case_decide as Hi; [|done]. exfalso. apply Hu.
    destruct (owned_elem db L r E Hr) as (r0 & Hr0 & [= E1 E2]).
    rewrite <- E2. apply Hx; [done|congruence].
  - intros r _ Hu. by case_decide.
Qed.

Lemma othersOf_filter_id u x L :
  (∀ r, r ∈ L → _id r = x → userId r = u) →
  othersOf u (filter (λ r, _id r ≠ x) L) = othersOf u L.
Proof.
  unfold othersOf. induction L as [|r L IH]; intros Hx; [done|].
  rewrite !filter_cons.
  assert (IH' := IH (λ r' Hr', Hx r' (proj2 (elem_of_cons _ _ _) (or_intror Hr')))).
  destruct (decide (_id r ≠ x)) as [Hi|Hi].
  - rewrite filter_cons. by rewrite IH'.
  - apply dec_stable in Hi. rewrite IH'.
    rewrite decide_False; [done|]. intros H. apply H, Hx; [by apply elem_of_cons; left|done].
Qed.

Lemma othersOf_app u db1 db2 : othersOf u (db1 ++ db2) = othersOf u db1 ++ othersOf u db2.
Proof. apply filter_app. Qed.

Lemma create_others u oid body db :
  oid ∉ _id <$> db → b_userId body = u →
  othersOf u (createProfile isURL oid body db).2 = othersOf u db.
Proof.
  intros Hfresh <-.
  destruct (createProfile_cases isURL oid body db Hfresh) as [->|[Hfree Hvalid]]; [done|].
  pose proof (createProfile_ok isURL oid body db Hfree Hvalid Hfresh) as Hok.
  cbv zeta in Hok. rewrite Hok. cbn [snd]. rewrite othersOf_app.
  unfold othersOf at 2. rewrite filter_cons, decide_False by (by intros H).
  rewrite filter_nil, app_nil_r. case_match; [apply othersOf_unsetOthers|done].
Qed.

Lemma update_others p body db :
  wfStore isURL db → p ∈ db →
  othersOf (userId p) (updateProfileById isURL (_id p) body db).2 = othersOf (userId p) db.
Proof.
  intros Hwf Hp. pose proof Hwf as [Hn _].
  destruct (updateProfileById_cases isURL p body db Hwf Hp) as [->|[_ ->]]; [done|].
  rewrite (othersOf_replace (userId p) (_id p) _ db); try done.
  - case_match; [apply othersOf_unsetOthers|done].
  - case_match; [apply owned_unsetOthers|done].
  - intros p0 Hp0 E. by rewrite (id_inj db p0 p Hn Hp0 Hp E).
Qed.

Lemma setDefault_others u x db :
  NoDup (_id <$> db) → othersOf u (setDefaultProfile u x db).2 = othersOf u db.
Proof.
  intros Hn. destruct (setDefaultProfile_cases u x db Hn) as [->|(p & Hp & <- & <- & ->)];
    [done|].
  rewrite othersOf_fmap_elem; [apply othersOf_unsetOthers| |].
  - intros r Hr Hu. case_decide as Hi; [|done]. exfalso. apply Hu.
    destruct (owned_elem db _ r (owned_unsetOthers _ _ db) Hr) as (r0 & Hr0 & [= E1 E2]).
    rewrite <- E2. f_equal. apply (id_inj db); try done. congruence.
  - intros r _ Hu. by case_decide.
Qed.

Lemma promoteSibling_others p db :
  NoDup (_id <$> db) → p ∈ db →
  othersOf (userId p) (promoteSibling p db) = othersOf (userId p) db.
Proof.
  intros Hn Hp. unfold promoteSibling. destruct (isDefault p); [|done].
  destruct (head _) as [o|] eqn:Ho; [|done].
  pose proof (head_Some_elem_of _ _ Ho) as Ho'.
  apply list_elem_of_filter in Ho' as [[Hou _] Ho'].
  rewrite updateFirst_fmap by (case_match; [by rewrite unsetOthers_ids|done]).
  rewrite (othersOf_replace (userId p) (_id o) _ db); try done.
  - case_match; [|done]. rewrite Hou. apply othersOf_unsetOthers.
  - case_match; [apply owned_unsetOthers|done].
  - intros p0 Hp0 E. by rewrite (id_inj db p0 o Hn Hp0 Ho' E).
Qed.

Lemma delete_others p db :
  wfStore isURL db → p ∈ db →
  othersOf (userId p) (deleteProfileById isURL (_id p) db).2 = othersOf (userId p) db.
Proof.
  intros Hwf Hp. pose proof Hwf as [Hn _].
  rewrite (deleteProfileById_found isURL db p Hwf Hp). cbn [snd].
  rewrite othersOf_filter_id; [by apply promoteSibling_others|].
  intros r Hr E.
  destruct (owned_elem db _ r (promoteSibling_owned p db Hn) Hr) as (r0 & Hr0 & [= E1 E2]).
  rewrite <- E2. f_equal. apply (id_inj db); try done. congruence.
Qed.

(** *** The handlers, case by case *)

Lemma getProfilesByUserId_run u db :
  getProfilesByUserId createdAt u db
  = (inr (merge_sort (sortsBefore createdAt) (profilesOf u db)), db).
Proof. reflexivity. Qed.

Lemma listing_length u db :
  length (merge_sort (sortsBefore createdAt) (profilesOf u db)) = length (profilesOf u db).
Proof. apply Permutation_length, merge_sort_Permutation. Qed.

Lemma only_profile u p db :
  NoDup (_id <$> db) → p ∈ db → userId p = u →
  length (profilesOf u db) = 1%nat ↔ profilesOf u db = [p].
Proof.
  intros Hn Hp Hu. split; [|by intros ->].
  intros Hlen. assert (Hin : p ∈ profilesOf u db) by (by apply list_elem_of_filter).
  destruct (profilesOf u db) as [|a [|b l]]; try done.
  by apply list_elem_of_singleton in Hin as ->.
Qed.

Lemma controller_deleteProfile_own p db :
  NoDup (_id <$> db) → p ∈ db →
  controller_deleteProfile isURL createdAt (userId p) (_id p) db
  = if bool_decide (profilesOf (userId p) db = [p])
    then (inl (ApiError BAD_REQUEST "Cannot delete the only profile"), db)
    else (await deleted := deleteProfileById isURL (_id p) in
          ret (mkResponse NO_CONTENT sendNothing)) db.
Proof.
  intros Hn Hp. unfold controller_deleteProfile.
  erewrite bind_inr by (by apply getProfileById_found). cbv beta iota.
  rewrite (bool_decide_eq_false_2 (userId p ≠ userId p)) by (by intros H).
  erewrite bind_inr by apply getProfilesByUserId_run. cbv beta.
  rewrite listing_length.
  destruct (decide (profilesOf (userId p) db = [p])) as [E|E].
  - rewrite (bool_decide_eq_true_2 _ E), bool_decide_eq_true_2; [done|].
    by apply (only_profile (userId p) p db).
  - rewrite (bool_decide_eq_false_2 _ E), bool_decide_eq_false_2; [done|].
    intros H. by apply E, (only_profile (userId p) p db).
Qed.

Lemma controller_updateProfile_own p reqBody db :
  NoDup (_id <$> db) → p ∈ db →
  controller_updateProfile isURL (userId p) (_id p) reqBody db
  = (await updatedProfile := updateProfileById isURL (_id p) reqBody in
     ret (mkResponse OK (sendProfile (Some updatedProfile)))) db.
Proof.
  intros Hn Hp. unfold controller_updateProfile.
  erewrite bind_inr by (by apply getProfileById_found). cbv beta iota.
  by rewrite (bool_decide_eq_false_2 (userId p ≠ userId p)) by (by intros H).
Qed.

Lemma refused_missing user x reqBody db :
  x ∉ _id <$> db →
  controller_getProfile user x db
  = (inl (ApiError NOT_FOUND "Profile not found"), db) ∧
  controller_updateProfile isURL user x reqBody db
  = (inl (ApiError NOT_FOUND "Profile not found"), db) ∧
  controller_deleteProfile isURL createdAt user x db
  = (inl (ApiError NOT_FOUND "Profile not found"), db) ∧
  controller_setDefaultProfile user x db
  = (inl (ApiError NOT_FOUND "Profile not found"), db).
Proof.
  intros Hout.
  unfold controller_getProfile, controller_updateProfile, controller_deleteProfile,
    controller_setDefaultProfile.
  rewrite !(bind_inr _ _ _ _ _ (getProfileById_missing db x Hout)).
  split; [done|]. split; [done|]. split; [done|].
  erewrite bind_inl; [done|]. apply ProfileExtras.setDefaultProfile_missing.
  intros p Hp Hi. exfalso. apply Hout. rewrite <- Hi. by apply list_elem_of_fmap_2.
Qed.

Lemma refused_foreign user p reqBody db :
  NoDup (_id <$> db) → p ∈ db → userId p ≠ user →
  controller_getProfile user (_id p) db
  = (inl (ApiError FORBIDDEN "Access denied"), db) ∧
  controller_updateProfile isURL user (_id p) reqBody db
  = (inl (ApiError FORBIDDEN "Access denied"), db) ∧
  controller_deleteProfile isURL createdAt user (_id p) db
  = (inl (ApiError FORBIDDEN "Access denied"), db) ∧
  controller_setDefaultProfile user (_id p) db
  = (inl (ApiError NOT_FOUND "Profile not found"), db).
Proof.
  intros Hn Hp Hu.
  unfold controller_getProfile, controller_updateProfile, controller_deleteProfile,
    controller_setDefaultProfile.
  rewrite !(bind_inr _ _ _ _ _ (getProfileById_found db p Hn Hp)).
  rewrite !(bool_decide_eq_true_2 _ Hu).
  split; [done|]. split; [done|]. split; [done|].
  erewrite bind_inl; [done|]. apply ProfileExtras.setDefaultProfile_missing.
  intros q Hq Hi. by rewrite (id_inj db q p Hn Hq Hp Hi).
Qed.

Lemma handle_store user req db :
  NoDup (_id <$> db) →
  (handle isURL createdAt user req db).2 = db ∨
  match req with
  | ReqCreateProfile oid reqBody =>
      (handle isURL createdAt user req db).2
      = (createProfile isURL oid (with_userId user reqBody) db).2
  | ReqUpdateProfile x reqBody =>
      ∃ p, p ∈ db ∧ _id p = x ∧ userId p = user ∧
           (handle isURL createdAt user req db).2
           = (updateProfileById isURL x reqBody db).2
  | ReqSetDefaultProfile x =>
      (handle isURL createdAt user req db).2 = (setDefaultProfile user x db).2
  | ReqDeleteProfile x =>
      ∃ p, p ∈ db ∧ _id p = x ∧ userId p = user ∧ profilesOf user db ≠ [p] ∧
           (handle isURL createdAt user req db).2
           = (deleteProfileById isURL x db).2
  | _ => False
  end.
Proof.
  intros Hn. destruct req as [oid reqBody|x| | |x reqBody|x|x]; cbn [handle].
  - right. apply bind_ret_store.
  - left. unfold controller_getProfile, bind, getProfileById, findOne, throw, ret.
    destruct (head _); [case_bool_decide|]; done.
  - by left.
  - left. unfold controller_getDefaultProfile, getDefaultProfile, bind, findOne, throw, ret.
    by destruct (head _).
  - destruct (decide (x ∈ _id <$> db)) as [Hin|Hout]; cycle 1.
    { left. by rewrite (proj1 (proj2 (refused_missing user x reqBody db Hout))). }
    apply elem_of_ids in Hin as (p & Hp & <-).
    destruct (decide (userId p = user)) as [<-|Hu]; cycle 1.
    { left. by rewrite (proj1 (proj2 (refused_foreign user p reqBody db Hn Hp Hu))). }
    right. exists p. repeat (split; [done|]).
    rewrite controller_updateProfile_own by done. apply bind_ret_store.
  - right. apply bind_ret_store.
  - destruct (decide (x ∈ _id <$> db)) as [Hin|Hout]; cycle 1.
    { left. by rewrite (proj1 (proj2 (proj2 (refused_missing user x makeDefaultBody db Hout)))). }
    apply elem_of_ids in Hin as (p & Hp & <-).
    destruct (decide (userId p = user)) as [<-|Hu]; cycle 1.
    { left.
      by rewrite (proj1 (proj2 (proj2 (refused_foreign user p makeDefaultBody db Hn Hp Hu)))). }
    rewrite controller_deleteProfile_own by done.
    case_bool_decide as E; [by left|right].
    exists p. repeat (split; [done|]). apply bind_ret_store.
Qed.

Lemma handle_wf user req db :
  wfStore isURL db → freshRequest req db →
  wfStore isURL (handle isURL createdAt user req db).2.
Proof.
  intros Hwf Hfresh.
  destruct (handle_store user req db (proj1 Hwf)) as [->|H]; [done|].
  destruct req as [oid reqBody|x| | |x reqBody|x|x]; try done.
  - rewrite H. by apply (ProfileExtras.create_keeps isURL).
  - destruct H as (p & _ & _ & _ & ->). by apply (ProfileExtras.update_keeps isURL).
  - rewrite H. by apply (ProfileExtras.setDefault_keeps isURL).
  - destruct H as (p & _ & _ & _ & _ & ->). by apply (ProfileExtras.delete_keeps isURL).
Qed.

Lemma handle_others user req db :
  wfStore isURL db → freshRequest req db →
  othersOf user (handle isURL createdAt user req db).2 = othersOf user db.
Proof.
  intros Hwf Hfresh.
  destruct (handle_store user req db (proj1 Hwf)) as [->|H]; [done|].
  destruct req as [oid reqBody|x| | |x reqBody|x|x]; try done.
  - rewrite H. by apply create_others.
  - destruct H as (p & Hp & <- & <- & ->). by apply update_others.
  - rewrite H. apply setDefault_others, Hwf.
  - destruct H as (p & Hp & <- & <- & _ & ->). by apply delete_others.
Qed.

Lemma profilesOf_othersOf u v db :
  u ≠ v → profilesOf v (othersOf u db) = profilesOf v db.
Proof.
  intros Hne. unfold profilesOf, othersOf. rewrite list_filter_filter.
  apply list_filter_iff. intros r. split; [by intros [? _]|].
  intros E. split; [done|]. congruence.
Qed.

Lemma handle_keeps_some user req db v :
  wfStore isURL db → freshRequest req db →
  (∃ p, p ∈ db ∧ userId p = v) →
  ∃ p, p ∈ (handle isURL createdAt user req db).2 ∧ userId p = v.
Proof.
  intros Hwf Hfresh (q & Hq & Hqv). pose proof Hwf as [Hn _].
  assert (Hkeep : ∀ db', owned <$> db' = owned <$> db → ∃ p, p ∈ db' ∧ userId p = v).
  { intros db' E. apply (list_elem_of_fmap_2 owned) in Hq. rewrite <- E in Hq.
    apply list_elem_of_fmap in Hq as (r & [= E1 E2] & Hr). exists r. split; [done|congruence]. }
  destruct (handle_store user req db Hn) as [->|H]; [by exists q|].
  destruct req as [oid reqBody|x| | |x reqBody|x|x]; try done.
  - rewrite H. destruct (create_owned oid (with_userId user reqBody) db Hfresh) as [E|E];
      [by apply Hkeep|].
    apply (list_elem_of_fmap_2 owned) in Hq.
    assert (Hq' : owned q ∈ owned <$> (createProfile isURL oid (with_userId user reqBody) db).2)
      by (rewrite E; apply elem_of_app; by left).
    apply list_elem_of_fmap in Hq' as (r & [= E1 E2] & Hr). exists r. split; [done|congruence].
  - destruct H as (p & _ & _ & _ & ->). by apply Hkeep, update_owned.
  - rewrite H. by apply Hkeep, setDefault_owned.
  - destruct H as (p & Hp & <- & <- & Hmore & ->).
    rewrite (deleteProfileById_found isURL db p Hwf Hp). cbn [snd].
    assert (Hsurvivor : ∃ q', q' ∈ db ∧ userId q' = v ∧ _id q' ≠ _id p).
    { destruct (decide (_id q = _id p)) as [E|E]; [|by exists q].
      pose proof (id_inj db q p Hn Hq Hp E) as ->.
      assert (Hin : p ∈ profilesOf (userId p) db) by (by apply list_elem_of_filter).
      assert (Hnd : NoDup (_id <$> profilesOf (userId p) db)) by (by apply filter_ids_NoDup).
      assert (∃ q', q' ∈ profilesOf (userId p) db ∧ _id q' ≠ _id p) as (q' & Hq' & Hne).
      { destruct (profilesOf (userId p) db) as [|a [|b l]];
          [by apply elem_of_nil in Hin| |].
        - apply list_elem_of_singleton in Hin as ->. done.
        - rewrite !fmap_cons in Hnd. apply NoDup_cons in Hnd as [Hab Hnd].
          destruct (decide (_id a = _id p)) as [Ea|Ea].
          + exists b. split; [apply elem_of_cons; right; apply elem_of_cons; by left|].
            intros Eb. apply Hab. rewrite Ea, <- Eb. apply elem_of_cons. by left.
          + exists a. split; [apply elem_of_cons; by left|done]. }
      apply list_elem_of_filter in Hq' as [Hu' Hq'].
      exists q'. by rewrite <- Hqv. }
    destruct Hsurvivor as (q' & Hq' & Hv' & Hne).
    apply (list_elem_of_fmap_2 owned) in Hq'.
    rewrite <- (promoteSibling_owned p db Hn) in Hq'.
    apply list_elem_of_fmap in Hq' as (r & [= E1 E2] & Hr).
    exists r. split; [|congruence]. apply list_elem_of_filter. split; [congruence|done].
Qed.

Lemma serve_cons (c : ObjectId * Request) reqs db :
  serve isURL createdAt (c :: reqs) db
  = serve isURL createdAt reqs (handle isURL createdAt c.1 c.2 db).2.
Proof. reflexivity. Qed.

(** X15. Requests authenticated as other users never add, remove or change a
    profile of an account: after any run of requests none of which is made
    by user [v], the profiles of [v] are exactly what they were. *)
Theorem others_cannot_touch_my_profiles v (reqs : list (ObjectId * Request)) db :
  wfStore isURL db → freshRequests isURL createdAt reqs db →
  (∀ c, c ∈ reqs → c.1 ≠ v) →
  profilesOf v (serve isURL createdAt reqs db) = profilesOf v db.
Proof.
  revert db. induction reqs as [|c reqs IH]; intros db Hwf Hfresh Hothers; [done|].
  destruct Hfresh as [Hc Hfresh]. rewrite serve_cons.
  rewrite IH; [|by apply handle_wf|done|]; cycle 1.
  { intros c' Hc'. apply Hothers. apply elem_of_cons. by right. }
  assert (Hne : c.1 ≠ v) by (apply Hothers, elem_of_cons; by left).
  rewrite <- (profilesOf_othersOf c.1 v _ Hne), handle_others by done.
  by apply profilesOf_othersOf.
Qed.

(** X16. Through the handlers no account loses its last profile: an account
    that has a profile still has one after any run of requests, whoever
    makes them. *)
Theorem last_profile_is_never_deleted v (reqs : list (ObjectId * Request)) db :
  wfStore isURL db → freshRequests isURL createdAt reqs db →
  profilesOf v db ≠ [] →
  profilesOf v (serve isURL createdAt reqs db) ≠ [].
Proof.
  revert db. induction reqs as [|c reqs IH]; intros db Hwf Hfresh Hsome; [done|].
  destruct Hfresh as [Hc Hfresh]. rewrite serve_cons.
  apply IH; [by apply handle_wf|done|].
  apply profilesOf_nonempty. apply handle_keeps_some; try done.
  by apply profilesOf_nonempty.
Qed.

(** X17. A handler that is given a profile id answers [NOT_FOUND] for an id
    that is not stored and [FORBIDDEN] for a profile of another account
    ([NOT_FOUND] from [setDefaultProfile], which looks the profile up under
    the caller's account); in each of these cases nothing is written.  For
    the caller's own profile [getProfile] sends that profile. *)
Theorem handlers_guard_access user x (reqBody : UpdateBody) db :
  NoDup (_id <$> db) →
  (x ∉ _id <$> db →
     controller_getProfile user x db
     = (inl (ApiError NOT_FOUND "Profile not found"), db) ∧
     controller_updateProfile isURL user x reqBody db
     = (inl (ApiError NOT_FOUND "Profile not found"), db) ∧
     controller_deleteProfile isURL createdAt user x db
     = (inl (ApiError NOT_FOUND "Profile not found"), db) ∧
     controller_setDefaultProfile user x db
     = (inl (ApiError NOT_FOUND "Profile not found"), db)) ∧
  (∀ p, p ∈ db → _id p = x → userId p ≠ user →
     controller_getProfile user x db
     = (inl (ApiError FORBIDDEN "Access denied"), db) ∧
     controller_updateProfile isURL user x reqBody db
     = (inl (ApiError FORBIDDEN "Access denied"), db) ∧
     controller_deleteProfile isURL createdAt user x db
     = (inl (ApiError FORBIDDEN "Access denied"), db) ∧
     controller_setDefaultProfile user x db
     = (inl (ApiError NOT_FOUND "Profile not found"), db)) ∧
  (∀ p, p ∈ db → _id p = x → userId p = user →
     controller_getProfile user x db
     = (inr (mkResponse OK (sendProfile (Some p))), db)).
Proof.
  intros Hn. split; [apply refused_missing|]. split.
  - intros p Hp <- Hu. by apply refused_foreign.
  - intros p Hp <- <-. unfold controller_getProfile.
    erewrite bind_inr by (by apply getProfileById_found). cbv beta iota.
    by rewrite (bool_decide_eq_false_2 (userId p ≠ userId p)) by (by intros H).
Qed.

(** X18. The delete handler refuses to delete the only profile of an account,
    with a 400 and nothing written.  When the account has another profile
    the delete goes through with [NO_CONTENT]: exactly that document is
    gone, and if every account had exactly one default before, every
    account still has, the caller's included. *)
Theorem delete_handler_outcomes p db :
  wfStore isURL db → p ∈ db →
  (profilesOf (userId p) db = [p] →
     controller_deleteProfile isURL createdAt (userId p) (_id p) db
     = (inl (ApiError BAD_REQUEST "Cannot delete the only profile"), db)) ∧
  (profilesOf (userId p) db ≠ [p] →
     ∃ db',
       controller_deleteProfile isURL createdAt (userId p) (_id p) db
       = (inr (mkResponse NO_CONTENT sendNothing), db') ∧
       _id <$> db' = filter (λ i, i ≠ _id p) (_id <$> db) ∧
       (singleDefault db →
          singleDefault db' ∧ length (defaultsOf (userId p) db') = 1%nat)).
Proof.
  intros Hwf Hp. pose proof Hwf as [Hn _].
  rewrite controller_deleteProfile_own by done. split.
  - intros E. by rewrite (bool_decide_eq_true_2 _ E).
  - intros E. rewrite (bool_decide_eq_false_2 _ E).
    erewrite bind_inr by (by apply deleteProfileById_found).
    eexists. split; [reflexivity|]. split.
    + rewrite <- (promoteSibling_ids p db). generalize (promoteSibling p db).
      intros L. induction L as [|r L IH]; [done|].
      rewrite fmap_cons, !filter_cons. destruct (decide (_id r ≠ _id p)).
      * by rewrite fmap_cons, IH.
      * done.
    + intros Hsingle.
      pose proof (delete_preserves isURL (_id p) db Hwf Hsingle) as [_ Hsingle'].
      rewrite (deleteProfileById_found isURL db p Hwf Hp) in Hsingle'. cbn [snd] in Hsingle'.
      split; [done|]. apply Hsingle'. apply profilesOf_nonempty.
      assert (Hserved :
        ∃ q, q ∈ (handle isURL createdAt (userId p) (ReqDeleteProfile (_id p)) db).2 ∧
             userId q = userId p).
      { apply handle_keeps_some; [done|done|by exists p]. }
      cbn [handle] in Hserved. rewrite controller_deleteProfile_own in Hserved by done.
      rewrite (bool_decide_eq_false_2 _ E) in Hserved.
      erewrite bind_inr in Hserved by (by apply deleteProfileById_found).
      exact Hserved.
Qed.

(** *** The listing *)

#[local] Instance sortsBefore_trans : Transitive (sortsBefore createdAt).
Proof.
  intros a b c [[Ha Hb]|[Hab Hle]] [[Hb' Hc]|[Hbc Hle']]; unfold sortsBefore.
  - congruence.
  - left. split; [done|congruence].
  - left. split; [congruence|done].
  - right. split; [congruence|lia].
Qed.

#[local] Instance sortsBefore_total : Total (sortsBefore createdAt).
Proof.
  intros a b. unfold sortsBefore.
  destruct (isDefault a) eqn:Ea, (isDefault b) eqn:Eb;
    try (destruct (decide (createdAt (_id a) ≤ createdAt (_id b)));
         [left; right; split; [done|lia] | right; right; split; [done|lia]]).
  - left. by left.
  - right. by left.
Qed.

Lemma StronglySorted_lookup_lt {A} (R : relation A) (l : list A) i j a b :
  StronglySorted R l → l !! i = Some a → l !! j = Some b → (i < j)%nat → R a b.
Proof.
  intros Hs. revert i j. induction Hs as [|c l Hs IH Hall]; intros i j Hi Hj Hlt; [done|].
  destruct j as [|j]; [lia|]. cbn in Hj. destruct i as [|i].
  - injection Hi as <-. rewrite Forall_forall in Hall. apply Hall.
    by eapply list_elem_of_lookup_2.
  - cbn in Hi. apply (IH i j); [done|done|lia].
Qed.

(** X19. [getProfilesByUserId] returns the profiles of the account, each once,
    defaults before the others and, within each group, older before newer.
    When no account has two defaults, its first element is the profile
    [getDefaultProfile] returns. *)
Theorem listing_puts_default_first u db :
  ∃ l,
    getProfilesByUserId createdAt u db = (inr l, db) ∧
    l ≡ₚ profilesOf u db ∧
    (∀ i j p q, l !! i = Some p → l !! j = Some q → (i < j)%nat →
       (isDefault q = true → isDefault p = true) ∧
       (isDefault p = isDefault q → createdAt (_id p) ≤ createdAt (_id q))) ∧
    (NoDup (_id <$> db) → atMostOneDefault db →
       ∀ d, getDefaultProfile u db = (inr (Some d), db) → head l = Some d).
Proof.
  exists (merge_sort (sortsBefore createdAt) (profilesOf u db)).
  split; [reflexivity|].
  pose proof (merge_sort_Permutation (sortsBefore createdAt) (profilesOf u db)) as Hperm.
  pose proof (StronglySorted_merge_sort (sortsBefore createdAt) (profilesOf u db)) as Hsorted.
  split; [done|]. split.
  - intros i j p q Hi Hj Hlt.
    destruct (StronglySorted_lookup_lt _ _ i j p q Hsorted Hi Hj Hlt) as [[Hp Hq]|[E Hle]].
    + split; [done|congruence].
    + split; [congruence|done].
  - intros Hn Hone d Hd. unfold getDefaultProfile, findOne in Hd.
    injection Hd as Hd. apply head_Some_elem_of in Hd.
    apply list_elem_of_filter in Hd as [[Hdu Hdd] Hd].
    assert (Hin : d ∈ merge_sort (sortsBefore createdAt) (profilesOf u db)).
    { rewrite Hperm. by apply list_elem_of_filter. }
    destruct (merge_sort _ _) as [|h t] eqn:E; [by apply elem_of_nil in Hin|].
    cbn [head]. f_equal.
    assert (Hh : h ∈ profilesOf u db) by (rewrite <- Hperm; apply elem_of_cons; by left).
    apply list_elem_of_filter in Hh as [Hhu Hh].
    apply elem_of_cons in Hin as [->|Hin]; [done|].
    apply StronglySorted_inv in Hsorted as [_ Hall]. rewrite Forall_forall in Hall.
    apply (id_inj db); try done. apply Hone; try done; [congruence|].
    destruct (Hall d Hin) as [[_ Hfalse]|[E' _]]; congruence.
Qed.
End Handlers.

Lemma others_cannot_touch_my_profiles_witness :
  profilesOf 200%N (serve anyURL sampleCreatedAt strangerRequests [mainProfile; workProfile])
  ≠ [] ∧
  profilesOf 100%N (serve anyURL sampleCreatedAt strangerRequests [mainProfile; workProfile])
  = [mainProfile; workProfile].
Proof.
  split; [by vm_compute|].
  refine (others_cannot_touch_my_profiles anyURL sampleCreatedAt 100%N strangerRequests
            [mainProfile; workProfile] ProfileClaims.twoProfiles_wf _ _).
  - vm_compute. repeat split; try done.
    intros H. repeat (apply elem_of_cons in H as [H|H]; [discriminate H|]).
    by apply elem_of_nil in H.
  - intros c Hc. repeat (apply elem_of_cons in Hc as [->|Hc]; [discriminate|]).
    by apply elem_of_nil in Hc.
Defined.

Lemma last_profile_is_never_deleted_witness :
  profilesOf 100%N (serve anyURL sampleCreatedAt ownerRequests [mainProfile; workProfile])
  ≠ [].
Proof.
  refine (last_profile_is_never_deleted anyURL sampleCreatedAt 100%N ownerRequests
            [mainProfile; workProfile] ProfileClaims.twoProfiles_wf _ _).
  - by vm_compute.
  - discriminate.
Defined.

Lemma handlers_guard_access_witness :
  controller_deleteProfile anyURL sampleCreatedAt 200%N 1%N [mainProfile; workProfile]
  = (inl (ApiError FORBIDDEN "Access denied"), [mainProfile; workProfile]) ∧
  controller_setDefaultProfile 200%N 1%N [mainProfile; workProfile]
  = (inl (ApiError NOT_FOUND "Profile not found"), [mainProfile; workProfile]) ∧
  controller_getProfile 100%N 1%N [mainProfile; workProfile]
  = (inr (mkResponse OK (sendProfile (Some mainProfile))), [mainProfile; workProfile]).
Proof.
  destruct (handlers_guard_access anyURL sampleCreatedAt 200%N 1%N makeDefaultBody
              [mainProfile; workProfile] (proj1 ProfileClaims.twoProfiles_wf))
    as (_ & Hforeign & _).
  destruct (handlers_guard_access anyURL sampleCreatedAt 100%N 1%N makeDefaultBody
              [mainProfile; workProfile] (proj1 ProfileClaims.twoProfiles_wf))
    as (_ & _ & Hown).
  assert (Hin : mainProfile ∈ [mainProfile; workProfile]) by (apply elem_of_cons; by left).
  destruct (Hforeign mainProfile Hin eq_refl) as (_ & _ & Hdelete & Hset); [discriminate|].
  split; [exact Hdelete|]. split; [exact Hset|]. by apply Hown.
Defined.

Lemma delete_handler_outcomes_witness :
  controller_deleteProfile anyURL sampleCreatedAt 100%N 1%N [mainProfile]
  = (inl (ApiError BAD_REQUEST "Cannot delete the only profile"), [mainProfile]) ∧
  ∃ db',
    controller_deleteProfile anyURL sampleCreatedAt 100%N 1%N [mainProfile; workProfile]
    = (inr (mkResponse NO_CONTENT sendNothing), db') ∧
    _id <$> db' = [2%N].
Proof.
  split.
  - refine (proj1 (delete_handler_outcomes anyURL sampleCreatedAt mainProfile [mainProfile]
                     ProfileClaims.mainStore_wf _) eq_refl).
    apply elem_of_cons. by left.
  - destruct (delete_handler_outcomes anyURL sampleCreatedAt mainProfile
                [mainProfile; workProfile] ProfileClaims.twoProfiles_wf) as [_ Hgoes].
    { apply elem_of_cons. by left. }
    destruct Hgoes as (db' & E & Hids & _); [discriminate|].
    exists db'. split; [exact E|exact Hids].
Defined.

Lemma listing_puts_default_first_witness :
  ∃ l,
    getProfilesByUserId sampleCreatedAt 100%N [workProfile; mainProfile] = (inr l,
      [workProfile; mainProfile]) ∧
    head l = Some mainProfile.
Proof.
  destruct (listing_puts_default_first sampleCreatedAt 100%N [workProfile; mainProfile])
    as (l & E & _ & _ & Hhead).
  exists l. split; [exact E|]. apply Hhead.
  - apply NoDup_cons. split.
    + intros H. apply list_elem_of_singleton in H. discriminate H.
    + apply NoDup_singleton.
  - intros p q Hp Hq _ Hpd Hqd.
    assert (Hmain : ∀ r, r ∈ [workProfile; mainProfile] → isDefault r = true →
                         r = mainProfile).
    { intros r Hr Hrd. apply elem_of_cons in Hr as [->|Hr]; [discriminate Hrd|].
      by apply list_elem_of_singleton in Hr. }
    by rewrite (Hmain p Hp Hpd), (Hmain q Hq Hqd).
  - reflexivity.
Defined.

End ControllerExtras.

(** ** Registration: outcomes and what every registration keeps *)

Module BootstrapExtras.
Import ProfileModel ProfileService ProfileFacts UserService ProfileNotions
  BootstrapNotions Samples.

Section Registration.
Context {stringOps : StringOps} {doubles : Doubles}.
Variable isURL : string → bool.
Variable validateUser : UserBody → option string.
Variable bcrypt_hash : string → string.

Lemma isEmailTaken_taken e db u :
  u ∈ users db → email u = lowercaseTrim e → isEmailTaken e None db = (inr true, db).
Proof.
  intros Hu He. unfold isEmailTaken. rewrite bool_decide_eq_true_2; [done|].
  apply Exists_exists. exists u. by repeat split.
Qed.

Lemma isUsernameTaken_taken n db u :
  u ∈ users db → username u = lowercaseTrim n → isUsernameTaken n None db = (inr true, db).
Proof.
  intros Hu Hn. unfold isUsernameTaken. rewrite bool_decide_eq_true_2; [done|].
  apply Exists_exists. exists u. by repeat split.
Qed.

Lemma createUser_email_taken uid pid1 pid2 random userBody db u :
  u ∈ users db → email u = lowercaseTrim (ub_email userBody) →
  createUser isURL validateUser bcrypt_hash uid pid1 pid2 random userBody db
  = (inl (ApiError BAD_REQUEST "Email already taken"), db).
Proof.
  intros Hu He. unfold createUser.
  by erewrite bind_inr by (by eapply isEmailTaken_taken).
Qed.

Lemma createUser_username_taken uid pid1 pid2 random userBody db u :
  (∀ u, u ∈ users db → email u ≠ lowercaseTrim (ub_email userBody)) →
  u ∈ users db → username u = lowercaseTrim (ub_username userBody) →
  createUser isURL validateUser bcrypt_hash uid pid1 pid2 random userBody db
  = (inl (ApiError BAD_REQUEST "Username already taken"), db).
Proof.
  intros Hfree Hu Hn. unfold createUser.
  erewrite bind_inr by (by apply BootstrapClaims.isEmailTaken_free). cbv beta iota.
  by erewrite bind_inr by (by eapply isUsernameTaken_taken).
Qed.

Lemma createUser_not_stored uid pid1 pid2 random userBody db :
  (∀ u, u ∈ users db → email u ≠ lowercaseTrim (ub_email userBody)) →
  (∀ u, u ∈ users db → username u ≠ lowercaseTrim (ub_username userBody)) →
  (∃ m, validateUser userBody = Some m ∧
        createUser isURL validateUser bcrypt_hash uid pid1 pid2 random userBody db
        = (inl (ValidationError m), db)) ∨
  (validateUser userBody = None ∧ (∃ u, u ∈ users db ∧ user_id u = uid) ∧
   createUser isURL validateUser bcrypt_hash uid pid1 pid2 random userBody db
   = (inl DuplicateKeyError, db)) ∨
  accountCreated validateUser uid userBody db.
Proof.
  intros Hemail Husername.
  assert (Hpre : ∀ e,
    User_create validateUser bcrypt_hash uid userBody db = (inl e, db) →
    createUser isURL validateUser bcrypt_hash uid pid1 pid2 random userBody db = (inl e, db)).
  { intros e He. unfold createUser.
    erewrite bind_inr by (by apply BootstrapClaims.isEmailTaken_free). cbv beta iota.
    erewrite bind_inr by (by apply BootstrapClaims.isUsernameTaken_free). cbv beta iota.
    by erewrite bind_inl. }
  destruct (validateUser userBody) as [m|] eqn:Hv.
  { left. exists m. split; [done|]. apply Hpre. unfold User_create. by rewrite Hv. }
  right. destruct (decide (Exists (λ u, user_id u = uid) (users db))) as [Hdup|Hnew].
  - left. split; [done|]. split; [by apply Exists_exists in Hdup|].
    apply Hpre. unfold User_create. rewrite Hv. by rewrite bool_decide_eq_true_2.
  - right. repeat split; try done. intros u Hu Hi. apply Hnew, Exists_exists. by exists u.
Qed.

(** X20. Emails and usernames are compared as the schema keeps them, in lower
    case and trimmed.  [createUser] rejects with the 400 "Email already
    taken" whenever the email is in use, with the 400 "Username already
    taken" when only the username is, and otherwise only when [User.create]
    does; a rejected call has written nothing and logged nothing.  It
    resolves exactly when the account record could be stored (email and
    username free, body valid, [_id] new), with that record appended,
    whatever became of the two profiles. *)
Theorem createUser_outcomes (uid pid1 pid2 : ObjectId) (random : Q)
    (userBody : UserBody) (db : Db) :
  let result :=
    createUser isURL validateUser bcrypt_hash uid pid1 pid2 random userBody db in
  (∀ u, u ∈ users db → email u = lowercaseTrim (ub_email userBody) →
     result = (inl (ApiError BAD_REQUEST "Email already taken"), db)) ∧
  (∀ u, (∀ u', u' ∈ users db → email u' ≠ lowercaseTrim (ub_email userBody)) →
     u ∈ users db → username u = lowercaseTrim (ub_username userBody) →
     result = (inl (ApiError BAD_REQUEST "Username already taken"), db)) ∧
  (∀ e, result.1 = inl e →
     result.2 = db ∧
     (e = ApiError BAD_REQUEST "Email already taken" ∨
      e = ApiError BAD_REQUEST "Username already taken" ∨
      (∃ m, e = ValidationError m) ∨
      e = DuplicateKeyError)) ∧
  (∀ user, result.1 = inr user →
     accountCreated validateUser uid userBody db ∧
     user = constructUser bcrypt_hash uid userBody ∧
     users result.2 = users db ++ [user]) ∧
  (accountCreated validateUser uid userBody db →
     result.1 = inr (constructUser bcrypt_hash uid userBody)).
Proof.
  intros result. unfold result.
  split; [intros u Hu He; by eapply createUser_email_taken|].
  split; [intros u Hfree Hu Hn; by eapply createUser_username_taken|].
  assert (Hstored : accountCreated validateUser uid userBody db →
    (createUser isURL validateUser bcrypt_hash uid pid1 pid2 random userBody db).1
    = inr (constructUser bcrypt_hash uid userBody)).
  { intros Hacc.
    destruct (BootstrapClaims.createUser_run isURL validateUser bcrypt_hash
                uid pid1 pid2 random userBody db Hacc) as (db' & -> & _).
    done. }
  match goal with
  | |- ?A ∧ ?B ∧ _ =>
      enough (Hrest : A ∧ B)
        by (destruct Hrest as [H1 H2]; exact (conj H1 (conj H2 Hstored)))
  end.
  clear Hstored.
  destruct (decide (Exists (λ u, email u = lowercaseTrim (ub_email userBody)) (users db))) as [He|He].
  { apply Exists_exists in He as (u & Hu & He).
    rewrite (createUser_email_taken uid pid1 pid2 random userBody db u Hu He). cbn.
    split; [|by intros ? [=]]. intros e [= <-]. split; [done|]. by left. }
  assert (Hemail : ∀ u, u ∈ users db → email u ≠ lowercaseTrim (ub_email userBody)).
  { intros u Hu E. apply He, Exists_exists. by exists u. }
  destruct (decide (Exists (λ u, username u = lowercaseTrim (ub_username userBody)) (users db))) as [Hn|Hn].
  { apply Exists_exists in Hn as (u & Hu & Hn).
    rewrite (createUser_username_taken uid pid1 pid2 random userBody db u Hemail Hu Hn). cbn.
    split; [|by intros ? [=]]. intros e [= <-]. split; [done|]. right. by left. }
  assert (Husername : ∀ u, u ∈ users db → username u ≠ lowercaseTrim (ub_username userBody)).
  { intros u Hu E. apply Hn, Exists_exists. by exists u. }
  destruct (createUser_not_stored uid pid1 pid2 random userBody db Hemail Husername)
    as [(m & _ & ->)|[(_ & _ & ->)|Hacc]].
  - cbn. split; [|by intros ? [=]]. intros e [= <-]. split; [done|].
    right. right. left. by exists m.
  - cbn. split; [|by intros ? [=]]. intros e [= <-]. split; [done|]. by repeat right.
  - destruct (BootstrapClaims.createUser_run isURL validateUser bcrypt_hash
                uid pid1 pid2 random userBody db Hacc) as (db' & -> & Husers & _).
    cbn. split; [by intros ? [=]|]. by intros user [= <-].
Qed.

Lemma createUser_store uid pid1 pid2 random userBody db :
  (createUser isURL validateUser bcrypt_hash uid pid1 pid2 random userBody db).2 = db ∨
  accountCreated validateUser uid userBody db.
Proof.
  destruct (decide (Exists (λ u, email u = lowercaseTrim (ub_email userBody)) (users db))) as [He|He].
  { apply Exists_exists in He as (u & Hu & He). left.
    by rewrite (createUser_email_taken uid pid1 pid2 random userBody db u Hu He). }
  assert (Hemail : ∀ u, u ∈ users db → email u ≠ lowercaseTrim (ub_email userBody)).
  { intros u Hu E. apply He, Exists_exists. by exists u. }
  destruct (decide (Exists (λ u, username u = lowercaseTrim (ub_username userBody)) (users db))) as [Hn|Hn].
  { apply Exists_exists in Hn as (u & Hu & Hn). left.
    by rewrite (createUser_username_taken uid pid1 pid2 random userBody db u Hemail Hu Hn). }
  assert (Husername : ∀ u, u ∈ users db → username u ≠ lowercaseTrim (ub_username userBody)).
  { intros u Hu E. apply Hn, Exists_exists. by exists u. }
  destruct (createUser_not_stored uid pid1 pid2 random userBody db Hemail Husername)
    as [(m & _ & ->)|[(_ & _ & ->)|Hacc]]; [by left|by left|by right].
Qed.

Lemma create_ids oid body (ps : Store) :
  oid ∉ _id <$> ps →
  _id <$> (createProfile isURL oid body ps).2 = _id <$> ps ∨
  _id <$> (createProfile isURL oid body ps).2 = (_id <$> ps) ++ [oid].
Proof.
  intros Hfresh.
  destruct (DefaultInvariant.createProfile_cases isURL oid body ps Hfresh)
    as [->|[Hfree Hvalid]]; [by left|right].
  pose proof (createProfile_ok isURL oid body ps Hfree Hvalid Hfresh) as Hok.
  cbv zeta in Hok. rewrite Hok. cbn [snd]. rewrite fmap_app. f_equal.
  case_match; [apply unsetOthers_ids|done].
Qed.

Lemma NoDup_snoc_fresh {A} (l : list A) (a : A) : NoDup l → a ∉ l → NoDup (l ++ [a]).
Proof.
  intros Hl Ha. apply NoDup_app. split; [done|]. split; [|apply NoDup_singleton].
  intros b Hb Hb'. apply list_elem_of_singleton in Hb'. by subst b.
Qed.

Lemma createUser_keeps uid pid1 pid2 random userBody db :
  uniqueAccounts db → wfStore isURL (profiles db) →
  pid1 ∉ _id <$> profiles db → pid2 ∉ _id <$> profiles db → pid1 ≠ pid2 →
  let db' :=
    (createUser isURL validateUser bcrypt_hash uid pid1 pid2 random userBody db).2 in
  uniqueAccounts db' ∧ wfStore isURL (profiles db') ∧
  (atMostOneDefault (profiles db) → atMostOneDefault (profiles db')) ∧
  (uniqueNames (profiles db) → uniqueNames (profiles db')).
Proof.
  intros (Hids & Hemails & Hnames) Hwf H1 H2 Hne db'. unfold db'.
  destruct (createUser_store uid pid1 pid2 random userBody db) as [->|Hacc]; [done|].
  destruct (BootstrapClaims.createUser_run isURL validateUser bcrypt_hash
              uid pid1 pid2 random userBody db Hacc) as (db1 & -> & Husers & Hprofiles & _).
  cbn [snd]. destruct Hacc as (Hemail & Husername & _ & Hfresh). split.
  { unfold uniqueAccounts. rewrite Husers, !fmap_app. cbn [fmap list_fmap].
    split; [|split]; apply NoDup_snoc_fresh; try done.
    - intros H. apply list_elem_of_fmap in H as (u & E & Hu). by apply (Hfresh u).
    - intros H. apply list_elem_of_fmap in H as (u & E & Hu). by apply (Hemail u).
    - intros H. apply list_elem_of_fmap in H as (u & E & Hu). by apply (Husername u). }
  rewrite Hprofiles. clear Hprofiles.
  set (publicBody := publicProfileBody _ _). set (anonymousBody := anonymousProfileBody _ _).
  pose proof (ProfileExtras.create_keeps isURL pid1 publicBody (profiles db) Hwf H1)
    as (Hwf1 & Hone1 & Huniq1).
  destruct (createProfile isURL pid1 publicBody (profiles db)) as [[e|p] ps] eqn:E1;
    cbn [snd] in *; [done|].
  assert (H2' : pid2 ∉ _id <$> ps).
  { destruct (create_ids pid1 publicBody (profiles db) H1) as [E|E];
      rewrite E1 in E; cbn [snd] in E; rewrite E; [done|].
    intros H. apply elem_of_app in H as [H|H]; [done|].
    apply list_elem_of_singleton in H. by apply Hne. }
  pose proof (ProfileExtras.create_keeps isURL pid2 anonymousBody ps Hwf1 H2')
    as (Hwf2 & Hone2 & Huniq2).
  split; [done|]. split; auto.
Qed.

(** X21. Whatever registrations are made, no two accounts end up with the same
    [_id], email or username, and the profiles they bring along keep the
    collection well formed, with at most one default and no repeated name
    per account. *)
Theorem registrations_keep_accounts_apart (l : list SignUp) (db : Db) :
  uniqueAccounts db → wfStore isURL (profiles db) →
  atMostOneDefault (profiles db) → uniqueNames (profiles db) →
  freshSignUps isURL validateUser bcrypt_hash l db →
  let db' := signUps isURL validateUser bcrypt_hash l db in
  uniqueAccounts db' ∧ wfStore isURL (profiles db') ∧
  atMostOneDefault (profiles db') ∧ uniqueNames (profiles db').
Proof.
  revert db. induction l as [|s l IH]; intros db Hacc Hwf Hone Huniq Hfresh; [done|].
  destruct Hfresh as (H1 & H2 & Hne & Hfresh).
  destruct (createUser_keeps (su_uid s) (su_pid1 s) (su_pid2 s) (su_random s) (su_body s)
              db Hacc Hwf H1 H2 Hne) as (Hacc' & Hwf' & Hone' & Huniq').
  apply (IH (signUp isURL validateUser bcrypt_hash s db).2); auto.
Qed.

End Registration.

Lemma createUser_outcomes_witness :
  (createUser anyURL acceptUser stubHash 2%N 10%N 11%N (1 # 2) (registration "Ana Two")
     (createUser anyURL acceptUser stubHash 1%N 10%N 11%N (1 # 2) (registration "Ana")
        emptyDb).2).1
  = inl (ApiError BAD_REQUEST "Email already taken").
Proof.
  set (db := (createUser anyURL acceptUser stubHash 1%N 10%N 11%N (1 # 2)
                (registration "Ana") emptyDb).2).
  destruct (createUser_outcomes anyURL acceptUser stubHash 2%N 10%N 11%N (1 # 2)
              (registration "Ana Two") db) as (Hemail & _).
  fold db.
  rewrite (Hemail (constructUser stubHash 1%N (registration "Ana"))); [done| |done].
  apply elem_of_cons. by left.
Defined.

Lemma registrations_keep_accounts_apart_witness :
  uniqueAccounts
    (signUps anyURL acceptUser stubHash
       [mkSignUp 1%N 10%N 11%N (1 # 2) (registration "Ana");
        mkSignUp 2%N 12%N 13%N (1 # 3) (registration "Ana Two")] emptyDb).
Proof.
  refine (proj1 (registrations_keep_accounts_apart anyURL acceptUser stubHash
                   [mkSignUp 1%N 10%N 11%N (1 # 2) (registration "Ana");
                    mkSignUp 2%N 12%N 13%N (1 # 3) (registration "Ana Two")] emptyDb
                   _ _ _ _ _)).
  - repeat split; apply NoDup_nil_2.
  - split; [apply NoDup_nil_2|apply Forall_nil_2].
  - intros p q Hp. by apply elem_of_nil in Hp.
  - intros p q Hp. by apply elem_of_nil in Hp.
  - vm_compute. repeat split; try done;
      intros H; repeat (apply elem_of_cons in H as [H|H]; [discriminate H|]);
      by apply elem_of_nil in H.
Defined.

End BootstrapExtras.

(** ** Content lifecycle: the category counters *)

Module ContentExtras.
Import Engagement ContentService EngagementNotions Samples.

Section Tally.
Context {X : Type}.
Implicit Types (m : gmap ObjectId (Content X)) (q : Content X) (c i : ObjectId).

Lemma tally_insert_new c m i q :
  m !! i = None →
  tally c (<[i := q]> m) = tally c m + (if decide (categoryId q = c) then 1 else 0).
Proof.
  intros Hnew. unfold tally. rewrite map_filter_insert. cbn [snd].
  destruct (decide (categoryId q = c)) as [E|E].
  - rewrite map_size_insert_None; [lia|].
    apply map_lookup_filter_None. by left.
  - rewrite map_filter_delete, delete_id; [lia|].
    apply map_lookup_filter_None. by left.
Qed.

Lemma tally_delete c m i q :
  m !! i = Some q →
  tally c (delete i m) = tally c m - (if decide (categoryId q = c) then 1 else 0).
Proof.
  intros Hq. unfold tally. rewrite map_filter_delete.
  destruct (decide (categoryId q = c)) as [E|E].
  - assert (Hin : filter (λ kv, categoryId kv.2 = c) m !! i = Some q)
      by (by apply map_lookup_filter_Some).
    rewrite <- (insert_delete_id _ _ _ Hin) at 2.
    rewrite map_size_insert_None by apply lookup_delete_eq. lia.
  - rewrite delete_id; [lia|].
    apply map_lookup_filter_None. right. intros q' Hq'. cbn. congruence.
Qed.

Lemma tally_insert_same c m i q q' :
  m !! i = Some q → categoryId q' = categoryId q →
  tally c (<[i := q']> m) = tally c m.
Proof.
  intros Hq E. rewrite <- (insert_delete_eq m i q').
  rewrite tally_insert_new by apply lookup_delete_eq.
  rewrite (tally_delete c m i q Hq), E. lia.
Qed.

End Tally.

Lemma validateContent_inr body profileId categoryId :
  validateContent body = inr (profileId, categoryId) →
  cb_profileId body = Some profileId ∧ cb_categoryId body = Some categoryId.
Proof.
  unfold validateContent. destruct (cb_profileId body), (cb_categoryId body); try done.
  repeat case_match; try done. by intros [= -> ->].
Qed.

Lemma alter_missing {A} (f : A → A) (m : gmap ObjectId A) i :
  m !! i = None → alter f i m = m.
Proof.
  intros Hi. apply map_eq. intros j. destruct (decide (j = i)) as [->|Hne].
  - by rewrite lookup_alter_eq, Hi.
  - by rewrite lookup_alter_ne.
Qed.

Lemma createQuestion_run oid body db :
  createQuestion oid body db =
  match validateContent body with
  | inl message => (inl (ValidationError message), db)
  | inr (profileId, categoryId) =>
      match questions db !! oid with
      | Some _ => (inl DuplicateKeyError, db)
      | None =>
          let question :=
            construct oid profileId categoryId body (Build_QuestionExtra 0 false None) in
          (inr question,
           mkCollections (posts db) (<[oid := question]> (questions db))
             (alter (inc_questionCount 1) categoryId (categories db)))
      end
  end.
Proof.
  unfold createQuestion, Question_create, bind.
  destruct (validateContent body) as [m|[p c]] eqn:Hv; [done|].
  destruct (validateContent_inr body p c Hv) as [_ ->].
  by destruct (questions db !! oid).
Qed.

Lemma createPost_run oid body db :
  createPost oid body db =
  match validateContent body with
  | inl message => (inl (ValidationError message), db)
  | inr (profileId, categoryId) =>
      match posts db !! oid with
      | Some _ => (inl DuplicateKeyError, db)
      | None =>
          let post := construct oid profileId categoryId body tt in
          (inr post,
           mkCollections (<[oid := post]> (posts db)) (questions db)
             (alter (inc_postCount 1) categoryId (categories db)))
      end
  end.
Proof.
  unfold createPost, Post_create, bind.
  destruct (validateContent body) as [m|[p c]] eqn:Hv; [done|].
  destruct (validateContent_inr body p c Hv) as [_ ->].
  by destruct (posts db !! oid).
Qed.

Lemma deleteQuestionById_run id db :
  deleteQuestionById id db =
  match questions db !! id with
  | None => (inl (ApiError NOT_FOUND "Question not found"), db)
  | Some question =>
      (inr question,
       mkCollections (posts db) (delete (_id question) (questions db))
         (alter (inc_questionCount (-1)) (categoryId question) (categories db)))
  end.
Proof.
  unfold deleteQuestionById, getQuestionById, bind.
  destruct (questions db !! id) as [q|]; [|done].
  destruct (categories db !! categoryId q) eqn:Hc; cbn; [done|].
  by rewrite alter_missing.
Qed.

Lemma deletePostById_run id db :
  deletePostById id db =
  match posts db !! id with
  | None => (inl (ApiError NOT_FOUND "Post not found"), db)
  | Some post =>
      (inr post,
       mkCollections (delete (_id post) (posts db)) (questions db)
         (alter (inc_postCount (-1)) (categoryId post) (categories db)))
  end.
Proof.
  unfold deletePostById, getPostById, bind.
  destruct (posts db !! id) as [q|]; [|done].
  destruct (categories db !! categoryId q) eqn:Hc; cbn; [done|].
  by rewrite alter_missing.
Qed.

Lemma method_categoryId r (q : Question) p :
  categoryId (QuestionService.method r q p) = categoryId q.
Proof.
  assert (H : ∀ o, categoryId (call q o) = categoryId q).
  { intros o. pose proof (EngagementExtras.call_payload q o) as E.
    unfold payload in E. by injection E. }
  destruct r; cbn.
  - apply (H (AddLike p)).
  - apply (H (RemoveLike p)).
  - apply (H (AddDislike p)).
  - apply (H (RemoveDislike p)).
  - apply (H (AddSave p)).
  - apply (H (RemoveSave p)).
  - apply (H (AddShare p)).
Qed.

(** How the counters and the collections move together. *)
Lemma counts_step db db' dp dq c :
  countsMatch db →
  (∀ c', tally c' (posts db') = tally c' (posts db) + (if decide (c = c') then dp else 0)) →
  (∀ c', tally c' (questions db')
         = tally c' (questions db) + (if decide (c = c') then dq else 0)) →
  (∀ c' cat', categories db' !! c' = Some cat' →
     ∃ cat, categories db !! c' = Some cat ∧
            postCount cat' = postCount cat + (if decide (c = c') then dp else 0) ∧
            questionCount cat' = questionCount cat + (if decide (c = c') then dq else 0)) →
  countsMatch db'.
Proof.
  intros Hcounts Hposts Hquestions Hcats c' cat' Hc'.
  destruct (Hcats c' cat' Hc') as (cat & Hc & -> & ->).
  destruct (Hcounts c' cat Hc) as [-> ->]. by rewrite Hposts, Hquestions.
Qed.

Lemma alter_inc_questionCount n c (cats : gmap ObjectId Category) c' cat' :
  alter (inc_questionCount n) c cats !! c' = Some cat' →
  ∃ cat, cats !! c' = Some cat ∧
         postCount cat' = postCount cat + (if decide (c = c') then 0 else 0) ∧
         questionCount cat' = questionCount cat + (if decide (c = c') then n else 0).
Proof.
  destruct (decide (c = c')) as [<-|Hne].
  - rewrite lookup_alter_eq. destruct (cats !! c) as [cat|]; [|done].
    intros [= <-]. exists cat. cbn. split; [done|lia].
  - rewrite lookup_alter_ne by done. intros Hc. exists cat'. split; [done|lia].
Qed.

Lemma alter_inc_postCount n c (cats : gmap ObjectId Category) c' cat' :
  alter (inc_postCount n) c cats !! c' = Some cat' →
  ∃ cat, cats !! c' = Some cat ∧
         postCount cat' = postCount cat + (if decide (c = c') then n else 0) ∧
         questionCount cat' = questionCount cat + (if decide (c = c') then 0 else 0).
Proof.
  destruct (decide (c = c')) as [<-|Hne].
  - rewrite lookup_alter_eq. destruct (cats !! c) as [cat|]; [|done].
    intros [= <-]. exists cat. cbn. split; [done|lia].
  - rewrite lookup_alter_ne by done. intros Hc. exists cat'. split; [done|lia].
Qed.

Lemma if_same (P : Prop) `{!Decision P} (z : Z) : (if decide P then z else z) = z.
Proof. by case_decide. Qed.

Lemma afterContent_keeps c db :
  wfCollections db → countsMatch db →
  wfCollections (afterContent c db) ∧ countsMatch (afterContent c db).
Proof.
  intros [Hwp Hwq] Hcounts. destruct c as [oid body|id|oid body|id|r qid pid]; cbn [afterContent].
  - rewrite createQuestion_run.
    destruct (validateContent body) as [m|[p c]]; [done|].
    destruct (questions db !! oid) eqn:Hnew; [done|]. cbv zeta. cbn [snd]. split.
    + split; [done|]. intros i q. cbn [questions].
      destruct (decide (i = oid)) as [->|Hne].
      * rewrite lookup_insert_eq. by intros [= <-].
      * rewrite lookup_insert_ne by done. apply Hwq.
    + apply (counts_step db _ 0 1 c Hcounts); cbn [posts questions categories].
      * intros c'. rewrite if_same. lia.
      * intros c'. by apply tally_insert_new.
      * apply alter_inc_questionCount.
  - rewrite deleteQuestionById_run.
    destruct (questions db !! id) as [q|] eqn:Hq; [|done]. cbn [snd].
    rewrite (Hwq id q Hq). split.
    + split; [done|]. intros i q'. cbn [questions].
      destruct (decide (i = id)) as [->|Hne].
      * by rewrite lookup_delete_eq.
      * rewrite lookup_delete_ne by done. apply Hwq.
    + apply (counts_step db _ 0 (-1) (categoryId q) Hcounts); cbn [posts questions categories].
      * intros c'. rewrite if_same. lia.
      * intros c'. etrans; [by apply (tally_delete c' _ id q)|]. repeat case_decide; lia.
      * apply alter_inc_questionCount.
  - rewrite createPost_run.
    destruct (validateContent body) as [m|[p c]]; [done|].
    destruct (posts db !! oid) eqn:Hnew; [done|]. cbv zeta. cbn [snd]. split.
    + split; [|done]. intros i q. cbn [posts].
      destruct (decide (i = oid)) as [->|Hne].
      * rewrite lookup_insert_eq. by intros [= <-].
      * rewrite lookup_insert_ne by done. apply Hwp.
    + apply (counts_step db _ 1 0 c Hcounts); cbn [posts questions categories].
      * intros c'. by apply tally_insert_new.
      * intros c'. rewrite if_same. lia.
      * apply alter_inc_postCount.
  - rewrite deletePostById_run.
    destruct (posts db !! id) as [q|] eqn:Hq; [|done]. cbn [snd].
    rewrite (Hwp id q Hq). split.
    + split; [|done]. intros i q'. cbn [posts].
      destruct (decide (i = id)) as [->|Hne].
      * by rewrite lookup_delete_eq.
      * rewrite lookup_delete_ne by done. apply Hwp.
    + apply (counts_step db _ (-1) 0 (categoryId q) Hcounts); cbn [posts questions categories].
      * intros c'. etrans; [by apply (tally_delete c' _ id q)|]. repeat case_decide; lia.
      * intros c'. rewrite if_same. lia.
      * apply alter_inc_postCount.
  - unfold onQuestions. rewrite EngagementClaims.perform_unfold.
    destruct (questions db !! qid) as [q|] eqn:Hq; [|by destruct db]. cbn [snd].
    rewrite EngagementClaims.method_id, (Hwq qid q Hq). split.
    + split; [done|]. intros i q'. cbn [questions].
      destruct (decide (i = qid)) as [->|Hne].
      * rewrite lookup_insert_eq. intros [= <-].
        rewrite EngagementClaims.method_id. by apply Hwq.
      * rewrite lookup_insert_ne by done. apply Hwq.
    + intros c' cat Hc. cbn [posts questions categories] in *.
      destruct (Hcounts c' cat Hc) as [Hp' Hq']. split; [done|]. rewrite Hq'.
      symmetry. by apply (tally_insert_same c' _ qid q), method_categoryId.
Qed.

(** X22. Through creates, deletes and reactions the counters of every category
    keep saying how many posts and questions are filed under it. *)
Theorem category_counters_track_content (cs : list ContentCall) (db : Collections) :
  wfCollections db → countsMatch db →
  wfCollections (runContent cs db) ∧ countsMatch (runContent cs db).
Proof.
  revert db. induction cs as [|c cs IH]; intros db Hwf Hcounts; [done|].
  destruct (afterContent_keeps c db Hwf Hcounts) as [Hwf' Hcounts'].
  cbn [runContent foldl]. by apply IH.
Qed.

Lemma counters_undo (cats : gmap ObjectId Category) c :
  alter (inc_questionCount (-1)) c (alter (inc_questionCount 1) c cats) = cats ∧
  alter (inc_postCount (-1)) c (alter (inc_postCount 1) c cats) = cats.
Proof.
  split; apply map_eq; intros j; destruct (decide (j = c)) as [->|Hne];
    rewrite ?lookup_alter_eq, ?lookup_alter_ne by done; try done;
    destruct (cats !! c) as [[n d pc qc]|]; cbn; try done;
    unfold inc_questionCount, inc_postCount; cbn; do 2 f_equal; lia.
Qed.

(** X23. Deleting a question or post right after creating it gives back the
    collections as they were, category counters included, and returns the
    document the create returned. *)
Theorem create_then_delete_round_trip (oid : ObjectId) (body : ContentBody)
    (db : Collections) :
  (∀ question, (createQuestion oid body db).1 = inr question →
     deleteQuestionById oid (createQuestion oid body db).2 = (inr question, db)) ∧
  (∀ post, (createPost oid body db).1 = inr post →
     deletePostById oid (createPost oid body db).2 = (inr post, db)).
Proof.
  split.
  - intros question. rewrite createQuestion_run.
    destruct (validateContent body) as [m|[p c]]; [done|].
    destruct (questions db !! oid) eqn:Hnew; [done|]. cbv zeta.
    cbn [fst snd]. intros [= <-]. rewrite deleteQuestionById_run. cbn [questions posts categories].
    rewrite lookup_insert_eq. cbn [_id categoryId construct]. f_equal.
    rewrite delete_insert_eq, delete_id by done.
    rewrite (proj1 (counters_undo (categories db) c)). by destruct db.
  - intros post. rewrite createPost_run.
    destruct (validateContent body) as [m|[p c]]; [done|].
    destruct (posts db !! oid) eqn:Hnew; [done|]. cbv zeta.
    cbn [fst snd]. intros [= <-]. rewrite deletePostById_run. cbn [questions posts categories].
    rewrite lookup_insert_eq. cbn [_id categoryId construct]. f_equal.
    rewrite delete_insert_eq, delete_id by done.
    rewrite (proj2 (counters_undo (categories db) c)). by destruct db.
Qed.

(** X24. Content created through a profile's own [createQuestion] or
    [createPost] is attributed to that profile whatever the data said, and
    no category counter moves: where the counters were right and the
    category exists, they are off by one afterwards. *)
Theorem profile_methods_skip_the_counter (this oid : ObjectId) (data : ContentBody)
    (db : Collections) :
  (∀ question, (Profile_createQuestion this oid data db).1 = inr question →
     let db' := (Profile_createQuestion this oid data db).2 in
     profileId question = this ∧
     questions db' !! oid = Some question ∧
     categories db' = categories db ∧
     (countsMatch db → is_Some (categories db !! categoryId question) →
      ¬ countsMatch db')) ∧
  (∀ post, (Profile_createPost this oid data db).1 = inr post →
     let db' := (Profile_createPost this oid data db).2 in
     profileId post = this ∧
     posts db' !! oid = Some post ∧
     categories db' = categories db ∧
     (countsMatch db → is_Some (categories db !! categoryId post) →
      ¬ countsMatch db')).
Proof.
  split.
  - intros question. unfold Profile_createQuestion, Question_create. cbv zeta.
    destruct (validateContent (with_profileId this data)) as [m|[p c]] eqn:Hv; [done|].
    destruct (validateContent_inr _ p c Hv) as [[= <-] _].
    destruct (questions db !! oid) eqn:Hnew; [done|]. cbn [fst snd].
    intros [= <-]. cbn [questions categories profileId categoryId construct].
    split; [done|]. split; [by rewrite lookup_insert_eq|]. split; [done|].
    intros Hcounts [cat Hcat] Hcounts'.
    destruct (Hcounts c cat Hcat) as [_ Hq]. destruct (Hcounts' c cat Hcat) as [_ Hq'].
    cbn [questions] in Hq'. rewrite Hq in Hq'.
    rewrite (tally_insert_new c (questions db) oid _ Hnew) in Hq'.
    cbn [categoryId construct] in Hq'. rewrite decide_True in Hq' by done. lia.
  - intros post. unfold Profile_createPost, Post_create. cbv zeta.
    destruct (validateContent (with_profileId this data)) as [m|[p c]] eqn:Hv; [done|].
    destruct (validateContent_inr _ p c Hv) as [[= <-] _].
    destruct (posts db !! oid) eqn:Hnew; [done|]. cbn [fst snd].
    intros [= <-]. cbn [posts categories profileId categoryId construct].
    split; [done|]. split; [by rewrite lookup_insert_eq|]. split; [done|].
    intros Hcounts [cat Hcat] Hcounts'.
    destruct (Hcounts c cat Hcat) as [Hp _]. destruct (Hcounts' c cat Hcat) as [Hp' _].
    cbn [posts] in Hp'. rewrite Hp in Hp'.
    rewrite (tally_insert_new c (posts db) oid _ Hnew) in Hp'.
    cbn [categoryId construct] in Hp'. rewrite decide_True in Hp' by done. lia.
Qed.

Lemma sampleCollections_wf : wfCollections sampleCollections.
Proof. split; [by intros id post Hpost|exact EngagementClaims.sampleStore_wf]. Qed.

Lemma sampleCollections_counts : countsMatch sampleCollections.
Proof.
  intros c cat Hc. unfold sampleCollections in Hc. cbn [categories] in Hc.
  apply lookup_singleton_Some in Hc as [<- <-]. by vm_compute.
Qed.

Lemma category_counters_track_content_witness :
  countsMatch (runContent sampleContentRun sampleCollections) ∧
  questionCount <$> categories (runContent sampleContentRun sampleCollections) !! 2%N
  = Some 1.
Proof.
  split; [|by vm_compute].
  exact (proj2 (category_counters_track_content sampleContentRun sampleCollections
                  sampleCollections_wf sampleCollections_counts)).
Defined.

Lemma profile_methods_skip_the_counter_witness :
  cb_profileId sampleContentBody = Some 1%N ∧
  ∃ question,
    (Profile_createQuestion 5%N 8%N sampleContentBody sampleCollections).1 = inr question ∧
    profileId question = 5%N ∧
    ¬ countsMatch (Profile_createQuestion 5%N 8%N sampleContentBody sampleCollections).2.
Proof.
  split; [reflexivity|].
  destruct (profile_methods_skip_the_counter 5%N 8%N sampleContentBody sampleCollections)
    as [Hquestion _].
  eexists. split; [reflexivity|].
  destruct (Hquestion _ eq_refl) as (Hprofile & _ & _ & Hoff).
  split; [exact Hprofile|]. apply Hoff.
  - exact sampleCollections_counts.
  - by exists sampleCategory.
Defined.

Lemma create_then_delete_round_trip_witness :
  deleteQuestionById 8%N (createQuestion 8%N sampleContentBody sampleCollections).2
  = (inr (construct 8%N 1%N 2%N sampleContentBody (Build_QuestionExtra 0 false None)),
     sampleCollections).
Proof.
  refine (proj1 (create_then_delete_round_trip 8%N sampleContentBody sampleCollections)
            _ _).
  by vm_compute.
Defined.

End ContentExtras.

(** ** Search text *)

Module SearchExtras.
Import Search.

Lemma backslash_special c : Ascii.eqb c "\" = true → isSpecial c = true.
Proof. intros E. apply Ascii.eqb_eq in E. by subst c. Qed.

(** X25. The escaped search text, read back as a literal pattern, is the search
    text: no character of the class is left bare, and nothing is lost or
    added. *)
Theorem escapedQuery_reads_back (search : string) :
  readLiteral (escapedQuery search) = Some search.
Proof.
  induction search as [|c rest IH]; [done|]. cbn [escapedQuery].
  destruct (isSpecial c) eqn:Hc.
  - cbn [readLiteral]. rewrite Ascii.eqb_refl, Hc, IH. done.
  - cbn [readLiteral]. destruct (Ascii.eqb c "\") eqn:E.
    + apply backslash_special in E. congruence.
    + by rewrite Hc, IH.
Qed.

End SearchExtras.
